(** * Augur: timeline extraction and rendering

    A shallow embedding of the text-processing core of the repository:
    - [src/analyzer.py]: [IncidentAnalyzer._extract_timeline], the part of
      [IncidentAnalyzer.generate_report] that runs after the model answered,
      and the conversation methods [initialize_conversation],
      [follow_up_question] and [clear_conversation];
    - [app.py]: [render_horizontal_timeline], [render_timeline_with_events],
      the loop over the lines of the .env file and the report tab of
      [render_analysis_view].

    Python strings are modelled as lists of characters whose code points are
    below 256 ([text]).  The regular expressions of the source are kept as
    syntax trees and run by a backtracking matcher that tries alternatives
    in the order Python's [re] module does. *)

From Stdlib Require Import Ascii String ZArith QArith.
From stdpp Require Import gmap strings list.

(** ** Text *)

Definition text := list ascii.

Definition txt (s : string) : text := list_ascii_of_string s.

Definition NL : ascii := "010"%char.
Definition DQ : ascii := "034"%char.
Definition BSLASH : ascii := "092"%char.

(** [q s] is [s] with every apostrophe turned into a double quote and every
    vertical bar into a line feed: a way to write JSON and multi-line
    literals. *)
Definition q (s : string) : text :=
  map (fun c => if Ascii.eqb c "'" then DQ
                else if Ascii.eqb c "|" then NL else c) (txt s).

Definition code (c : ascii) : N := N_of_ascii c.

(** [str.isspace] on one character, which is also what [\s] accepts in a
    [str] pattern: TAB..CR, FS..US, SPACE, NEL and NBSP. *)
Definition py_isspace (c : ascii) : bool :=
  let n := code c in
  ((9 <=? n) && (n <=? 13) || (28 <=? n) && (n <=? 32)
   || (n =? 133) || (n =? 160))%N.

(** [\d] and [[0-9]]: below code point 256 the only decimal digits are
    [0]..[9]. *)
Definition py_isdigit (c : ascii) : bool :=
  let n := code c in ((48 <=? n) && (n <=? 57))%N.

Fixpoint lstrip (s : text) : text :=
  match s with
  | c :: s' => if py_isspace c then lstrip s' else s
  | [] => []
  end.

Definition rstrip (s : text) : text := rev (lstrip (rev s)).

(** [str.strip()] *)
Definition strip (s : text) : text := rstrip (lstrip s).

(** [str.split()]: the maximal runs of non-space characters. *)
Fixpoint split_ws_aux (cur : text) (s : text) : list text :=
  match s with
  | [] => match cur with [] => [] | _ => [rev cur] end
  | c :: s' =>
      if py_isspace c
      then match cur with
           | [] => split_ws_aux [] s'
           | _ => rev cur :: split_ws_aux [] s'
           end
      else split_ws_aux (c :: cur) s'
  end.

Definition split_ws (s : text) : list text := split_ws_aux [] s.

(** ** Regular expressions *)

Module Re.

(** One-character classes. *)
Inductive cset :=
| CChar (c : ascii)   (* a literal character *)
| CDigit              (* \d, [0-9] *)
| CSpace              (* \s *)
| CRange (lo hi : ascii)  (* [lo-hi] *)
| CAny                (* . with re.DOTALL *)
| CNotNL.             (* . without re.DOTALL *)

Definition cset_mem (p : cset) (c : ascii) : bool :=
  match p with
  | CChar d => Ascii.eqb c d
  | CDigit => py_isdigit c
  | CSpace => py_isspace c
  | CRange lo hi => ((code lo <=? code c) && (code c <=? code hi))%N
  | CAny => true
  | CNotNL => negb (Ascii.eqb c NL)
  end.

(** The constructs the source's patterns use.  Repetition is only ever
    applied to a one-character class there, so [Star] and [StarLazy] take a
    class. *)
Inductive regex :=
| Eps
| Cls (p : cset)
| Seq (r1 r2 : regex)
| Alt (r1 r2 : regex)          (* r1|r2, r1 tried first *)
| Star (p : cset)              (* p*  (greedy) *)
| StarLazy (p : cset)          (* p*? (lazy) *)
| Group (n : nat) (r : regex)  (* capturing group number n *)
| Bol (multiline : bool)       (* ^ *)
| Eol (multiline : bool).      (* $ *)

Fixpoint Lit (s : text) : regex :=
  match s with
  | [] => Eps
  | c :: s' => Seq (Cls (CChar c)) (Lit s')
  end.

Fixpoint Seqs (rs : list regex) : regex :=
  match rs with
  | [] => Eps
  | r :: rs' => Seq r (Seqs rs')
  end.

(** r? (greedy) *)
Definition Opt (r : regex) : regex := Alt r Eps.

(** p{n} *)
Fixpoint Rep (n : nat) (p : cset) : regex :=
  match n with
  | O => Eps
  | S n' => Seq (Cls p) (Rep n' p)
  end.

(** p+ *)
Definition Plus (p : cset) : regex := Seq (Cls p) (Star p).

(** dd:dd(?::dd)? and dddd-dd-dd for a digit class [d], the two shapes
    every timestamp pattern of the source is made of. *)
Definition HHMM_SS (d : cset) : regex :=
  Seqs [Rep 2 d; Cls (CChar ":"); Rep 2 d; Opt (Seq (Cls (CChar ":")) (Rep 2 d))].
Definition YMD (d : cset) : regex :=
  Seqs [Rep 4 d; Cls (CChar "-"); Rep 2 d; Cls (CChar "-"); Rep 2 d].

(** A position in the subject: the characters already passed (nearest
    first) and the characters still ahead. *)
Definition caps := list (nat * text).

Record mres := MRes {
  m_before : text;   (* reversed text up to the end of the match *)
  m_after : text;    (* text after the match *)
  m_caps : caps
}.

Definition kont := text -> text -> caps -> option mres.

Definition accept : kont := fun b a cs => Some (MRes b a cs).

Definition orelse {A} (x : option A) (y : option A) : option A :=
  match x with Some _ => x | None => y end.

Fixpoint star_greedy (p : cset) (b a : text) (cs : caps) (k : kont)
  : option mres :=
  match a with
  | c :: a' =>
      if cset_mem p c
      then orelse (star_greedy p (c :: b) a' cs k) (k b a cs)
      else k b a cs
  | [] => k b a cs
  end.

Fixpoint star_lazy (p : cset) (b a : text) (cs : caps) (k : kont)
  : option mres :=
  match k b a cs with
  | Some r => Some r
  | None =>
      match a with
      | c :: a' => if cset_mem p c then star_lazy p (c :: b) a' cs k else None
      | [] => None
      end
  end.

(** The text consumed between position [a] and the later position [a']. *)
Definition consumed (a a' : text) : text := take (length a - length a') a.

Definition at_bol (multiline : bool) (b : text) : bool :=
  match b with
  | [] => true
  | c :: _ => multiline && Ascii.eqb c NL
  end.

Definition at_eol (multiline : bool) (a : text) : bool :=
  match a with
  | [] => true
  | c :: a' =>
      Ascii.eqb c NL && (multiline || match a' with [] => true | _ => false end)
  end.

(** [run r b a cs k]: match [r] at the position [(b, a)], then continue
    with [k]; [None] makes the caller backtrack. *)
Fixpoint run (r : regex) (b a : text) (cs : caps) (k : kont) : option mres :=
  match r with
  | Eps => k b a cs
  | Cls p =>
      match a with
      | c :: a' => if cset_mem p c then k (c :: b) a' cs else None
      | [] => None
      end
  | Seq r1 r2 => run r1 b a cs (fun b' a' cs' => run r2 b' a' cs' k)
  | Alt r1 r2 => orelse (run r1 b a cs k) (run r2 b a cs k)
  | Star p => star_greedy p b a cs k
  | StarLazy p => star_lazy p b a cs k
  | Group n r' =>
      run r' b a cs (fun b' a' cs' => k b' a' ((n, consumed a a') :: cs'))
  | Bol ml => if at_bol ml b then k b a cs else None
  | Eol ml => if at_eol ml a then k b a cs else None
  end.

(** [m.group(n)] of a successful match; the latest binding wins. *)
Fixpoint group (n : nat) (cs : caps) : text :=
  match cs with
  | [] => []
  | (i, s) :: cs' => if Nat.eqb i n then s else group n cs'
  end.

Definition match_at (r : regex) (b a : text) : option mres :=
  run r b a [] accept.

(** [re.match(r, s)] *)
Definition rmatch (r : regex) (s : text) : option mres := match_at r [] s.

(** [re.search(r, s)]: the leftmost position at which [r] matches. *)
Fixpoint search_from (r : regex) (b a : text) : option mres :=
  match match_at r b a with
  | Some m => Some m
  | None =>
      match a with
      | c :: a' => search_from r (c :: b) a'
      | [] => None
      end
  end.

Definition search (r : regex) (s : text) : option mres := search_from r [] s.

(** The scan shared by [re.findall] and [re.sub]: [skip] characters still
    belong to the previous match.  Every pattern of the source matches
    non-empty text only. *)
Fixpoint findall_scan (r : regex) (skip : nat) (b a : text) : list caps :=
  match a with
  | [] => match skip with
          | O => match match_at r b [] with Some m => [m_caps m] | None => [] end
          | S _ => []
          end
  | c :: a' =>
      match skip with
      | S n => findall_scan r n (c :: b) a'
      | O =>
          match match_at r b a with
          | Some m =>
              m_caps m
                :: findall_scan r (pred (length a - length (m_after m))) (c :: b) a'
          | None => findall_scan r 0 (c :: b) a'
          end
      end
  end.

(** [re.findall(r, s)] as the list of capture environments. *)
Definition findall (r : regex) (s : text) : list caps := findall_scan r 0 [] s.

(** [re.sub(r, empty, s)]: every match is replaced by the empty string. *)
Fixpoint sub_scan (r : regex) (skip : nat) (b a : text) : text :=
  match a with
  | [] => []
  | c :: a' =>
      match skip with
      | S n => sub_scan r n (c :: b) a'
      | O =>
          match match_at r b a with
          | Some m =>
              match length a - length (m_after m) with
              | O => c :: sub_scan r 0 (c :: b) a'
              | S n => sub_scan r n (c :: b) a'
              end
          | None => c :: sub_scan r 0 (c :: b) a'
          end
      end
  end.

Definition sub_empty (r : regex) (s : text) : text := sub_scan r 0 [] s.

End Re.

(** ** Exceptions *)

Inductive exn :=
| ValueError
| IndexError
| OverflowError
| ZeroDivisionError
| JSONDecodeError
| RuntimeError.

Inductive res (A : Type) :=
| Ok (a : A)
| Raise (e : exn).
Arguments Ok {A} a.
Arguments Raise {A} e.

#[global] Instance res_ret : MRet res := fun A a => Ok a.
#[global] Instance res_bind : MBind res := fun A B f x =>
  match x with
  | Ok a => f a
  | Raise e => Raise e
  end.

(** ** Dates and times

    [datetime.datetime] values without time zone; the microsecond field is
    always zero here.  A [timedelta] is a number of seconds. *)

Module Datetime.
Local Open Scope Z_scope.

Record datetime := DT {
  year : Z; month : Z; day : Z; hour : Z; minute : Z; second : Z
}.

Definition is_leap (y : Z) : bool :=
  (y mod 4 =? 0) && (negb (y mod 100 =? 0) || (y mod 400 =? 0)).

Definition days_in_month (y m : Z) : Z :=
  if (m =? 2) && is_leap y then 29
  else nth (Z.to_nat m) [0; 31; 28; 31; 30; 31; 30; 31; 31; 30; 31; 30; 31] 0.

Definition days_before_month (y m : Z) : Z :=
  nth (Z.to_nat m) [0; 0; 31; 59; 90; 120; 151; 181; 212; 243; 273; 304; 334] 0
  + (if (2 <? m) && is_leap y then 1 else 0).

Definition days_before_year (y : Z) : Z :=
  let y' := y - 1 in y' * 365 + y' / 4 - y' / 100 + y' / 400.

(** [date.toordinal()]: 0001-01-01 is day 1. *)
Definition ymd2ord (y m d : Z) : Z :=
  days_before_year y + days_before_month y m + d.

Definition MAXORDINAL : Z := 3652059.

(** What the [datetime] constructor accepts. *)
Definition valid (d : datetime) : bool :=
  (1 <=? year d) && (year d <=? 9999)
  && (1 <=? month d) && (month d <=? 12)
  && (1 <=? day d) && (day d <=? days_in_month (year d) (month d))
  && (0 <=? hour d) && (hour d <=? 23)
  && (0 <=? minute d) && (minute d <=? 59)
  && (0 <=? second d) && (second d <=? 59).

(** Seconds since the midnight that starts ordinal day 0. *)
Definition to_seconds (d : datetime) : Z :=
  ymd2ord (year d) (month d) (day d) * 86400
  + hour d * 3600 + minute d * 60 + second d.

(** [_ord2ymd] *)
Definition ord2ymd (n0 : Z) : Z * Z * Z :=
  let n := n0 - 1 in
  let n400 := n / 146097 in
  let n := n mod 146097 in
  let n100 := n / 36524 in
  let n := n mod 36524 in
  let n4 := n / 1461 in
  let n := n mod 1461 in
  let n1 := n / 365 in
  let n := n mod 365 in
  let y := n400 * 400 + 1 + n100 * 100 + n4 * 4 + n1 in
  if (n1 =? 4) || (n100 =? 4) then (y - 1, 12, 31)
  else
    let leapyear := (n1 =? 3) && (negb (n4 =? 24) || (n100 =? 3)) in
    let m := Z.shiftr (n + 50) 5 in
    let preceding :=
      nth (Z.to_nat m) [0; 0; 31; 59; 90; 120; 151; 181; 212; 243; 273; 304; 334] 0
      + (if (2 <? m) && leapyear then 1 else 0) in
    if n <? preceding
    then
      let m' := m - 1 in
      let preceding' :=
        preceding
        - (nth (Z.to_nat m') [0; 31; 28; 31; 30; 31; 30; 31; 31; 30; 31; 30; 31] 0
           + (if (m' =? 2) && leapyear then 1 else 0)) in
      (y, m', n - preceding' + 1)
    else (y, m, n - preceding + 1).

(** The datetime that lies [s] seconds after ordinal day 0; the date
    arithmetic of [datetime] raises [OverflowError] outside years 1..9999. *)
Definition of_seconds (s : Z) : res datetime :=
  let days := s / 86400 in
  let r := s mod 86400 in
  if (0 <? days) && (days <=? MAXORDINAL)
  then
    let '(y, m, d) := ord2ymd days in
    Ok (DT y m d (r / 3600) (r mod 3600 / 60) (r mod 60))
  else Raise OverflowError.

(** Date arithmetic works on the count of seconds and raises
    [OverflowError] when the result leaves the years 1..9999:
    [checked (to_seconds d + td)] is [d + timedelta(seconds=td)], and
    [of_seconds] gives the fields of the result. *)
Definition in_range (s : Z) : bool :=
  (0 <? s / 86400) && (s / 86400 <=? MAXORDINAL).
Definition checked (s : Z) : res Z :=
  if in_range s then Ok s else Raise OverflowError.

(** [(a - b).total_seconds()] *)
Definition diff (a b : datetime) : Z := to_seconds a - to_seconds b.

Definition leb (a b : datetime) : bool := to_seconds a <=? to_seconds b.
Definition ltb (a b : datetime) : bool := to_seconds a <? to_seconds b.

(** [min(ds)] and [max(ds)]; the first extremal element is returned, and an
    empty sequence raises [ValueError]. *)
Definition dt_min (ds : list datetime) : res datetime :=
  match ds with
  | [] => Raise ValueError
  | d :: ds' => Ok (fold_left (fun acc x => if ltb x acc then x else acc) ds' d)
  end.
Definition dt_max (ds : list datetime) : res datetime :=
  match ds with
  | [] => Raise ValueError
  | d :: ds' => Ok (fold_left (fun acc x => if ltb acc x then x else acc) ds' d)
  end.

(** *** [datetime.strptime] *)

Definition digit_val (c : ascii) : Z := Z.of_N (code c) - 48.

Definition digit_char (n : Z) : ascii := ascii_of_N (Z.to_N (48 + n)).

(** A two-digit zero-padded number, as [%m], [%d], [%H], [%M] and [%S]
    print it; four digits for [%Y]. *)
Definition pad2 (n : Z) : text := [digit_char (n / 10); digit_char (n mod 10)].
Definition pad4 (n : Z) : text :=
  [digit_char (n / 1000); digit_char (n / 100 mod 10);
   digit_char (n / 10 mod 10); digit_char (n mod 10)].

Inductive directive :=
| DY | Dm | Dd | DH | DM | DS   (* %Y %m %d %H %M %S *)
| DLit (c : ascii)
| DSpace.                       (* white space in the format *)

(** %Y-%m-%d %H:%M:%S and %Y-%m-%d %H:%M *)
Definition fmt_YmdHMS : list directive :=
  [DY; DLit "-"; Dm; DLit "-"; Dd; DSpace; DH; DLit ":"; DM; DLit ":"; DS].
Definition fmt_YmdHM : list directive :=
  [DY; DLit "-"; Dm; DLit "-"; Dd; DSpace; DH; DLit ":"; DM].

Definition set_field (f : directive) (v : Z) (d : datetime) : datetime :=
  match f with
  | DY => DT v (month d) (day d) (hour d) (minute d) (second d)
  | Dm => DT (year d) v (day d) (hour d) (minute d) (second d)
  | Dd => DT (year d) (month d) v (hour d) (minute d) (second d)
  | DH => DT (year d) (month d) (day d) v (minute d) (second d)
  | DM => DT (year d) (month d) (day d) (hour d) v (second d)
  | DS => DT (year d) (month d) (day d) (hour d) (minute d) v
  | _ => d
  end.

(** The values a numeric directive accepts before the constructor is
    called ([%S] lets 60 and 61 through, [%Y] any four digits). *)
Definition field_ok (f : directive) (v : Z) : bool :=
  match f with
  | Dm => (1 <=? v) && (v <=? 12)
  | Dd => (1 <=? v) && (v <=? 31)
  | DH => v <=? 23
  | DM => v <=? 59
  | DS => v <=? 61
  | _ => true
  end.

(** The parser is only ever handed text that one of the timestamp patterns
    matched, in which every field has its full width and date and time are
    one white-space character apart; on such text [strptime] reads the
    fields digit by digit.  [None] is [ValueError]. *)
Fixpoint strptime_fields (fmt : list directive) (s : text) (d : datetime)
  : option datetime :=
  match fmt with
  | [] => match s with [] => Some d | _ => None end
  | DLit c :: fmt' =>
      match s with
      | c' :: s' => if Ascii.eqb c' c then strptime_fields fmt' s' d else None
      | [] => None
      end
  | DSpace :: fmt' =>
      match s with
      | c' :: s' => if py_isspace c' then strptime_fields fmt' s' d else None
      | [] => None
      end
  | DY :: fmt' =>
      match s with
      | c1 :: c2 :: c3 :: c4 :: s' =>
          if py_isdigit c1 && py_isdigit c2 && py_isdigit c3 && py_isdigit c4
          then strptime_fields fmt' s'
                 (set_field DY (1000 * digit_val c1 + 100 * digit_val c2
                                + 10 * digit_val c3 + digit_val c4) d)
          else None
      | _ => None
      end
  | f :: fmt' =>
      match s with
      | c1 :: c2 :: s' =>
          let v := 10 * digit_val c1 + digit_val c2 in
          if py_isdigit c1 && py_isdigit c2 && field_ok f v
          then strptime_fields fmt' s' (set_field f v d)
          else None
      | _ => None
      end
  end.

Definition strptime (s : text) (fmt : list directive) : option datetime :=
  match strptime_fields fmt s (DT 1900 1 1 0 0 0) with
  | Some d => if valid d then Some d else None
  | None => None
  end.

(** *** [datetime.strftime] for the three label formats *)

Definition month_abbr (m : Z) : text :=
  txt (nth (Z.to_nat m)
         [""; "Jan"; "Feb"; "Mar"; "Apr"; "May"; "Jun";
          "Jul"; "Aug"; "Sep"; "Oct"; "Nov"; "Dec"]%string ""%string).

Inductive label_format :=
| Fmt_HM     (* '%H:%M' *)
| Fmt_H00    (* '%H:00' *)
| Fmt_bd.    (* '%b %d' *)

Definition strftime (d : datetime) (f : label_format) : text :=
  match f with
  | Fmt_HM => pad2 (hour d) ++ txt ":" ++ pad2 (minute d)
  | Fmt_H00 => pad2 (hour d) ++ txt ":00"
  | Fmt_bd => month_abbr (month d) ++ txt " " ++ pad2 (day d)
  end.

End Datetime.

(** ** Python values

    What [json.loads] can return, and what [timeline_events] can therefore
    hold. *)

Inductive pyfloat :=
| FFinite (v : Q)
| FInf (negative : bool)
| FNaN.

#[local] Unset Elimination Schemes.
Inductive pyval :=
| PNone
| PBool (b : bool)
| PInt (z : Z)
| PFloat (f : pyfloat)
| PStr (s : text)
| PList (l : list pyval)
| PDict (d : gmap string pyval).
#[local] Set Elimination Schemes.

(** [bool(v)], the test behind [if not v]. *)
Definition truthy (v : pyval) : bool :=
  match v with
  | PNone => false
  | PBool b => b
  | PInt z => negb (z =? 0)%Z
  | PFloat (FFinite x) => negb (Qeq_bool x 0)
  | PFloat _ => true
  | PStr s => negb (bool_decide (s = []))
  | PList l => negb (bool_decide (length l = 0%nat))
  | PDict d => negb (bool_decide (size d = 0%nat))
  end.

(** A timeline entry is a dictionary with the keys [time] and [event]. *)
Definition event := gmap string text.

Definition mk_event (time ev : text) : event :=
  {[ "time"%string := time; "event"%string := ev ]}.

(** [d.get(key, empty)] with the empty string as default *)
Definition get (d : event) (key : string) : text := default [] (d !! key).

Definition event_value (e : event) : pyval := PDict (PStr <$> e).
Definition events_value (es : list event) : pyval := PList (event_value <$> es).

(** ** [src/analyzer.py] *)

Module Analyzer.
Import Re.

(** The section pattern, compiled with re.DOTALL (tokens spaced out):
      2 \\ . _Timeline_of_Events: \s* \n ( .*? ) (?: \n \d+ \. \s | $ )
    The source writes it as a raw string with two backslashes after the 2:
    an escaped backslash, which stands for one literal backslash, followed
    by an unescaped dot, which stands for any character. *)
Definition TIMELINE_SECTION_RE : regex :=
  Seqs [ Cls (CChar "2"); Cls (CChar BSLASH); Cls CAny;
         Lit (txt " Timeline of Events:");
         Star CSpace; Cls (CChar NL);
         Group 1 (StarLazy CAny);
         Alt (Seqs [Cls (CChar NL); Plus CDigit; Cls (CChar "."); Cls CSpace])
             (Eol false) ].

(** The event-line pattern, compiled with re.MULTILINE (tokens spaced out,
    D for [0-9]):
      ^ ( D{4}-D{2}-D{2} D{2}:D{2} (?: :D{2} )? (?: -D{2}:D{2} (?: :D{2} )? )? ) : \s* ( .* ) $ *)
Definition EVENT_LINE_RE : regex :=
  let d := CRange "0" "9" in
  Seqs [ Bol true;
         Group 1 (Seqs [ YMD d; Cls (CChar " "); HHMM_SS d;
                         Opt (Seq (Cls (CChar "-")) (HHMM_SS d)) ]);
         Cls (CChar ":"); Star CSpace;
         Group 2 (Star CNotNL);
         Eol true ].

(** The events found in the text of the timeline section. *)
Definition section_events (timeline_text : text) : list event :=
  let event_lines := findall EVENT_LINE_RE timeline_text in
  map (fun cs => mk_event (group 1 cs) (strip (group 2 cs))) event_lines.

Definition _extract_timeline (report_text : text) : list event :=
  match search TIMELINE_SECTION_RE report_text with
  | None => []
  | Some timeline_section_match =>
      let timeline_text := group 1 (m_caps timeline_section_match) in
      section_events timeline_text
  end.

(** The pattern each channel is searched with, compiled with re.DOTALL:
      === NAME === \s* ( .*? ) \s* === END_NAME === *)
Definition channel_re (name : string) : regex :=
  Seqs [ Lit (txt ("=== " ++ name ++ " ===")); Star CSpace;
         Group 1 (StarLazy CAny); Star CSpace;
         Lit (txt ("=== END_" ++ name ++ " ===")) ].

(** The pattern each channel is removed with, the same without the group:
      === NAME === \s* .*? \s* === END_NAME === *)
Definition channel_sub_re (name : string) : regex :=
  Seqs [ Lit (txt ("=== " ++ name ++ " ===")); Star CSpace;
         StarLazy CAny; Star CSpace;
         Lit (txt ("=== END_" ++ name ++ " ===")) ].

(** The fenced block, compiled with re.DOTALL:  ```json \s* ( .*? ) \s* ``` *)
Definition JSON_BLOCK_RE : regex :=
  Seqs [ Lit (txt "```json"); Star CSpace; Group 1 (StarLazy CAny);
         Star CSpace; Lit (txt "```") ].

Record report := Report {
  report_markdown : text;
  timeline_events : pyval;
  monitoring_code : text;
  regression_test_code : text
}.

Section GenerateReport.
(** [json.loads] *)
Variable json_loads : text -> res pyval.

(** try: ... except Exception: timeline_events = [] *)
Definition timeline_from_json (timeline_match : mres) : pyval :=
  let attempt : res pyval :=
    let json_content := strip (group 1 (m_caps timeline_match)) in
    match search JSON_BLOCK_RE json_content with
    | Some json_block => json_loads (group 1 (m_caps json_block))
    | None => Ok (PList [])
    end in
  match attempt with
  | Ok v => v
  | Raise _ => PList []
  end.

(** One of the two later channels: the captured text and the report
    without the channel, or nothing and the report as it was. *)
Definition extract_channel (name : string) (report_text : text) : text * text :=
  match search (channel_re name) report_text with
  | Some m =>
      (strip (group 1 (m_caps m)),
       strip (sub_empty (channel_sub_re name) report_text))
  | None => ([], report_text)
  end.

(** What the TIMELINE_JSON channel yields before the fallback. *)
Definition json_timeline (report_text : text) : pyval :=
  match search (channel_re "TIMELINE_JSON") report_text with
  | Some timeline_match => timeline_from_json timeline_match
  | None => PList []
  end.

(** The report once the TIMELINE_JSON channel is removed. *)
Definition without_timeline (report_text : text) : text :=
  strip (sub_empty (channel_sub_re "TIMELINE_JSON") report_text).

(** The body of [generate_report] from the model's answer onwards.  The
    [metrics_df] entry of the result is handed through from the loader
    and left out. *)
Definition generate_report_body (report_text : text) : res report :=
  let timeline_events := json_timeline report_text in
  let report_text := without_timeline report_text in
  let timeline_events :=
    if negb (truthy timeline_events)
    then events_value (_extract_timeline report_text)
    else timeline_events in
  let '(monitoring_code, report_text) :=
    extract_channel "MONITORING_CODE" report_text in
  let '(regression_test_code, report_text) :=
    extract_channel "REGRESSION_TEST" report_text in
  Ok (Report report_text timeline_events monitoring_code regression_test_code).

(** try: ... except Exception as e: raise RuntimeError(...) *)
Definition generate_report (report_text : text) : res report :=
  match generate_report_body report_text with
  | Ok r => Ok r
  | Raise _ => Raise RuntimeError
  end.
End GenerateReport.

End Analyzer.

(** ** [app.py] *)

Module App.
Import Re Datetime.
Local Open Scope Z_scope.

(** What a renderer puts on the page.  The fixed wrappers and the style
    sheet are left out; a chart is the list of its positioned elements.
    Positions are per cent of the axis width, kept as exact fractions. *)
Inductive html_part :=
| TimelineLabel (pos : Q) (label : text)
| TimelineRange (left width : Q) (time ev : text)
| TimelineDot (pos : Q) (time ev : text).

Inductive outcome :=
| Info (msg : string)               (* st.info(msg) and return *)
| Chart (parts : list html_part).   (* st.markdown of the timeline *)

(** [html.escape] *)
Definition escape_char (c : ascii) : text :=
  if Ascii.eqb c "&" then txt "&amp;"
  else if Ascii.eqb c "<" then txt "&lt;"
  else if Ascii.eqb c ">" then txt "&gt;"
  else if Ascii.eqb c DQ then txt "&quot;"
  else if Ascii.eqb c "'" then txt "&#x27;"
  else [c].
Definition html_escape (s : text) : text := flat_map escape_char s.

(** \d{4}-\d{2}-\d{2} SEP \d{2}:\d{2} (?: :\d{2} )?  where SEP is a blank in
    [parse_time] and \s in [parse_start_time]. *)
Definition STAMP (sep : cset) : regex :=
  Seqs [YMD CDigit; Cls sep; HHMM_SS CDigit].

(** for fmt in (%Y-%m-%d %H:%M:%S, %Y-%m-%d %H:%M): try strptime, pass on
    ValueError *)
Definition try_formats (time_part : text) : option datetime :=
  match strptime time_part fmt_YmdHMS with
  | Some d => Some d
  | None => strptime time_part fmt_YmdHM
  end.

(** [parse_start_time], local to [render_horizontal_timeline] *)
Definition parse_start_time (time_str : text) : option datetime :=
  match rmatch (Group 1 (STAMP CSpace)) time_str with
  | None => None
  | Some m => try_formats (group 1 (m_caps m))
  end.

(** [parse_time], local to [render_timeline_with_events] *)
Definition parse_time (time_str : text) : option datetime :=
  match rmatch (Group 1 (STAMP (CChar " "))) time_str with
  | None => None
  | Some m => try_formats (group 1 (m_caps m))
  end.

(** [x.total_seconds() / duration.total_seconds() * 100] *)
Definition percent (x duration : Z) : res Q :=
  if duration =? 0 then Raise ZeroDivisionError
  else Ok (Qred (inject_Z x / inject_Z duration * 100)).

(** *** [render_horizontal_timeline] *)

(** A marker: its instant, as a count of seconds, and its label. *)
Record marker := Marker { marker_dt : Z; marker_label : text }.

Definition replace_second0 (d : datetime) : datetime :=
  DT (year d) (month d) (day d) (hour d) (minute d) 0.
Definition replace_minute0 (d : datetime) : datetime :=
  DT (year d) (month d) (day d) (hour d) 0 0.
Definition replace_hour0 (d : datetime) : datetime :=
  DT (year d) (month d) (day d) 0 0 0.

(** while current_marker_time <= end_time + step: ...
    [None] when [fuel] iterations were not enough. *)
Fixpoint marker_loop (fuel : nat) (start_time end_time step : Z)
    (fmt : label_format) (current_marker_time : Z)
  : option (res (list marker)) :=
  match fuel with
  | O => None
  | S fuel' =>
      match checked (end_time + step) with
      | Raise e => Some (Raise e)
      | Ok limit =>
          if current_marker_time <=? limit
          then
            match checked (start_time - step) with
            | Raise e => Some (Raise e)
            | Ok lo =>
                match
                  (if lo <=? current_marker_time
                   then d ← of_seconds current_marker_time;
                        Ok [Marker current_marker_time (strftime d fmt)]
                   else Ok []),
                  checked (current_marker_time + step)
                with
                | Ok here, Ok next =>
                    match marker_loop fuel' start_time end_time step fmt next with
                    | Some (Ok rest) => Some (Ok (here ++ rest))
                    | other => other
                    end
                | Raise e, _ | _, Raise e => Some (Raise e)
                end
            end
          else Some (Ok [])
      end
  end.

(** The markers of an axis from [start_time] to [end_time]. *)
Definition make_markers (start_time end_time : datetime)
  : option (res (list marker)) :=
  let duration := diff end_time start_time in
  if 1 <? duration
  then
    let '(step, fmt, start_marker) :=
      if duration <? 2 * 3600
      then (600, Fmt_HM,
            checked (to_seconds (replace_second0 start_time)
                     - 60 * (minute start_time mod 10)))
      else if duration <? 2 * 86400
      then (3600, Fmt_H00, Ok (to_seconds (replace_minute0 start_time)))
      else (86400, Fmt_bd, Ok (to_seconds (replace_hour0 start_time))) in
    match start_marker with
    | Raise e => Some (Raise e)
    | Ok sm =>
        marker_loop
          (S (Z.to_nat ((to_seconds end_time + step - sm) / step + 1)))
          (to_seconds start_time) (to_seconds end_time) step fmt sm
    end
  else Some (Ok []).

Definition render_labels (markers : list marker) (start_time : datetime)
    (duration : Z) : res (list html_part) :=
  if 0 <? duration
  then
    foldr (fun mk acc =>
             rest ← acc;
             pos_percent ← percent (marker_dt mk - to_seconds start_time) duration;
             if Qle_bool 0 pos_percent && Qle_bool pos_percent 100
             then Ok (TimelineLabel pos_percent (marker_label mk) :: rest)
             else Ok rest)
          (Ok []) markers
  else Ok [].

Definition render_dot (start_time : datetime) (duration : Z)
    (e : datetime * event) : res html_part :=
  pos_percent ←
    (if 0 <? duration then percent (diff (fst e) start_time) duration
     else Ok 50%Q);
  Ok (TimelineDot pos_percent
        (html_escape (get (snd e) "time")) (html_escape (get (snd e) "event"))).

(** The events whose time parses, each with its instant. *)
Definition parsed_starts (timeline_events : list event)
  : list (datetime * event) :=
  omap (fun ev => dt ← parse_start_time (get ev "time"); Some (dt, ev))
       timeline_events.

Definition render_horizontal_timeline (timeline_events : list event)
  : option (res outcome) :=
  match timeline_events with
  | [] => Some (Ok (Info "No timeline events to display."))
  | _ =>
      let parsed_events := parsed_starts timeline_events in
      if (length parsed_events <? 2)%nat
      then Some (Ok (Info "A timeline requires at least two events with valid timestamps."))
      else
        match dt_min (fst <$> parsed_events), dt_max (fst <$> parsed_events) with
        | Ok start_time, Ok end_time =>
            let duration := diff end_time start_time in
            match make_markers start_time end_time with
            | None => None
            | Some (Raise e) => Some (Raise e)
            | Some (Ok markers) =>
                Some (labels ← render_labels markers start_time duration;
                      dots ← mapM (render_dot start_time duration) parsed_events;
                      Ok (Chart (labels ++ dots)))
            end
        | Raise e, _ | _, Raise e => Some (Raise e)
        end
  end.

(** *** [render_timeline_with_events] *)

Record parsed_event := Parsed { pe_dt : datetime; pe_data : event }.
Record range_event := Ranged { re_start : datetime; re_end : datetime; re_data : event }.

(** ( STAMP ) \s* - \s* ( dd:dd (?: :dd )? | STAMP ), where STAMP is the
    pattern of [parse_time] and d is \d *)
Definition RANGE_RE : regex :=
  Seqs [ Group 1 (STAMP (CChar " ")); Star CSpace; Cls (CChar "-"); Star CSpace;
         Group 2 (Alt (HHMM_SS CDigit) (STAMP (CChar " "))) ].

(** ^ dd:dd (?: :dd )? $ *)
Definition BARE_TIME_RE : regex := Seqs [Bol false; HHMM_SS CDigit; Eol false].

(** [xs[0]] *)
Definition item0 {A} (xs : list A) : res A :=
  match xs with
  | x :: _ => Ok x
  | [] => Raise IndexError
  end.

(** One turn of the loop over [timeline_events]: what the event adds to
    [parsed_events] and to [range_events]. *)
Definition classify_event (ev : event)
  : res (list parsed_event * list range_event) :=
  let time_field := get ev "time" in
  match rmatch RANGE_RE time_field with
  | Some range_match =>
      let start_str := group 1 (m_caps range_match) in
      let end_str := group 2 (m_caps range_match) in
      let start_dt := parse_time start_str in
      end_str_full ←
        match rmatch BARE_TIME_RE end_str with
        | Some _ =>
            date_part ← item0 (split_ws start_str);
            Ok (date_part ++ txt " " ++ end_str)
        | None => Ok end_str
        end;
      let end_dt := parse_time end_str_full in
      match start_dt, end_dt with
      | Some s, Some e => Ok ([], [Ranged s e ev])
      | _, _ => Ok ([], [])
      end
  | None =>
      match parse_time time_field with
      | Some dt => Ok ([Parsed dt ev], [])
      | None => Ok ([], [])
      end
  end.

Fixpoint classify (timeline_events : list event)
  : res (list parsed_event * list range_event) :=
  match timeline_events with
  | [] => Ok ([], [])
  | ev :: rest =>
      here ← classify_event ev;
      later ← classify rest;
      Ok (here.1 ++ later.1, here.2 ++ later.2)
  end.

Definition render_range (start_time : datetime) (duration : Z)
    (r : range_event) : res html_part :=
  left ← (if 0 <? duration then percent (diff (re_start r) start_time) duration
          else Ok 0%Q);
  right ← (if 0 <? duration then percent (diff (re_end r) start_time) duration
           else Ok 100%Q);
  Ok (TimelineRange left (Qred (right - left))
        (html_escape (get (re_data r) "time"))
        (html_escape (get (re_data r) "event"))).

Definition render_point (start_time : datetime) (duration : Z)
    (e : parsed_event) : res html_part :=
  render_dot start_time duration (pe_dt e, pe_data e).

(** The chart drawn from the two lists once the loop is over. *)
Definition draw (parsed_events : list parsed_event)
    (range_events : list range_event) : res outcome :=
  match parsed_events, range_events with
  | [], [] =>
      Ok (Info "A timeline requires at least two events with valid timestamps.")
  | _, _ =>
      let all_times :=
        (pe_dt <$> parsed_events) ++ (re_start <$> range_events)
        ++ (re_end <$> range_events) in
      start_time ← dt_min all_times;
      end_time ← dt_max all_times;
      let duration := diff end_time start_time in
      bars ← mapM (render_range start_time duration) range_events;
      dots ← mapM (render_point start_time duration) parsed_events;
      Ok (Chart (bars ++ dots))
  end.

Definition render_timeline_with_events (timeline_events : list event)
  : res outcome :=
  if (length timeline_events <? 2)%nat
  then Ok (Info "No significant timeline events found for charting.")
  else
    lists ← classify timeline_events;
    draw lists.1 lists.2.

End App.

(** ** A reading of [json.loads]

    The theorems on [generate_report] hold for any behaviour of
    [json.loads]; this decoder follows the grammar the [json] module accepts
    and serves to run the report pipeline on closed examples.  Numbers with
    a fraction or an exponent are kept as exact fractions, and a \u escape
    above code point 255 is refused, since [text] cannot hold it. *)

Module Json.
Import Datetime.
Local Open Scope Z_scope.

Definition is_ws (c : ascii) : bool :=
  Ascii.eqb c " " || Ascii.eqb c "009" || Ascii.eqb c NL || Ascii.eqb c "013".

Fixpoint skip_ws (s : text) : text :=
  match s with
  | c :: s' => if is_ws c then skip_ws s' else s
  | [] => []
  end.

Fixpoint digits (s : text) (acc : Z) (n : Z) : Z * Z * text :=
  match s with
  | c :: s' =>
      if py_isdigit c then digits s' (10 * acc + digit_val c) (n + 1)
      else (acc, n, s)
  | [] => (acc, n, s)
  end.

Definition hex_val (c : ascii) : option Z :=
  let n := Z.of_N (code c) in
  if py_isdigit c then Some (n - 48)
  else if (97 <=? n) && (n <=? 102) then Some (n - 87)
  else if (65 <=? n) && (n <=? 70) then Some (n - 55)
  else None.

(** The characters of a string literal after its opening quote. *)
Fixpoint string_body (s : text) (acc : text) : res (text * text) :=
  match s with
  | [] => Raise JSONDecodeError
  | c :: s' =>
      if Ascii.eqb c DQ then Ok (rev acc, s')
      else if Ascii.eqb c BSLASH then
        match s' with
        | e :: s'' =>
            let plain (x : ascii) := string_body s'' (x :: acc) in
            if Ascii.eqb e DQ then plain DQ
            else if Ascii.eqb e BSLASH then plain BSLASH
            else if Ascii.eqb e "/" then plain "/"%char
            else if Ascii.eqb e "b" then plain "008"%char
            else if Ascii.eqb e "f" then plain "012"%char
            else if Ascii.eqb e "n" then plain NL
            else if Ascii.eqb e "r" then plain "013"%char
            else if Ascii.eqb e "t" then plain "009"%char
            else if Ascii.eqb e "u" then
              match s'' with
              | h1 :: h2 :: h3 :: h4 :: r =>
                  match hex_val h1, hex_val h2, hex_val h3, hex_val h4 with
                  | Some 0, Some 0, Some a, Some b =>
                      string_body r (ascii_of_N (Z.to_N (16 * a + b)) :: acc)
                  | _, _, _, _ => Raise JSONDecodeError
                  end
              | _ => Raise JSONDecodeError
              end
            else Raise JSONDecodeError
        | [] => Raise JSONDecodeError
        end
      else if (code c <? 32)%N then Raise JSONDecodeError
      else string_body s' (c :: acc)
  end.

(** A number: an optional minus sign, 0 or a run of digits that does not
    start with 0, an optional fraction, an optional exponent. *)
Definition number (s : text) : res (pyval * text) :=
  let '(neg, s1) :=
    match s with
    | c :: r => if Ascii.eqb c "-" then (true, r) else (false, s)
    | [] => (false, s)
    end in
  let sign (v : Z) := if neg then - v else v in
  match s1 with
  | c :: _ =>
      if py_isdigit c then
        let '(ip, _, s2) :=
          if Ascii.eqb c "0" then (0, 1, tl s1) else digits s1 0 0 in
        let '(fp, fn, s3, has_frac) :=
          match s2 with
          | d :: (f :: _) as r =>
              if Ascii.eqb d "." && py_isdigit f
              then let '(v, n, r') := digits r 0 0 in (v, n, r', true)
              else (0, 0, s2, false)
          | _ => (0, 0, s2, false)
          end in
        let '(ex, s4, has_exp) :=
          match s3 with
          | e :: r =>
              if Ascii.eqb e "e" || Ascii.eqb e "E" then
                let '(eneg, r1) :=
                  match r with
                  | g :: r' =>
                      if Ascii.eqb g "-" then (true, r')
                      else if Ascii.eqb g "+" then (false, r') else (false, r)
                  | [] => (false, r)
                  end in
                match r1 with
                | g :: _ =>
                    if py_isdigit g
                    then let '(v, _, r2) := digits r1 0 0 in
                         ((if eneg then - v else v), r2, true)
                    else (0, s3, false)
                | [] => (0, s3, false)
                end
              else (0, s3, false)
          | [] => (0, s3, false)
          end in
        if has_frac || has_exp
        then
          let mant := inject_Z (sign (ip * 10 ^ fn + fp)) in
          let scale := ex - fn in
          Ok (PFloat (FFinite
                (Qred (if 0 <=? scale then mant * inject_Z (10 ^ scale)
                       else mant / inject_Z (10 ^ (- scale))))), s4)
        else Ok (PInt (sign ip), s2)
      else Raise JSONDecodeError
  | [] => Raise JSONDecodeError
  end.

Fixpoint strip_prefix (p s : text) : option text :=
  match p, s with
  | [], _ => Some s
  | c :: p', d :: s' => if Ascii.eqb c d then strip_prefix p' s' else None
  | _ :: _, [] => None
  end.

Definition key_of (k : text) : string := string_of_list_ascii k.

Fixpoint value (fuel : nat) (s : text) : res (pyval * text) :=
  match fuel with
  | O => Raise RuntimeError
  | S fuel' =>
      match s with
      | [] => Raise JSONDecodeError
      | c :: r =>
          if Ascii.eqb c DQ then '(str, r') ← string_body r []; Ok (PStr str, r')
          else if Ascii.eqb c "[" then
            match skip_ws r with
            | "]"%char :: r' => Ok (PList [], r')
            | r' => items fuel' r' []
            end
          else if Ascii.eqb c "{" then
            match skip_ws r with
            | "}"%char :: r' => Ok (PDict ∅, r')
            | r' => members fuel' r' ∅
            end
          else
            match strip_prefix (txt "null") s, strip_prefix (txt "true") s,
                  strip_prefix (txt "false") s, strip_prefix (txt "NaN") s,
                  strip_prefix (txt "Infinity") s,
                  strip_prefix (txt "-Infinity") s with
            | Some r', _, _, _, _, _ => Ok (PNone, r')
            | _, Some r', _, _, _, _ => Ok (PBool true, r')
            | _, _, Some r', _, _, _ => Ok (PBool false, r')
            | _, _, _, Some r', _, _ => Ok (PFloat FNaN, r')
            | _, _, _, _, Some r', _ => Ok (PFloat (FInf false), r')
            | _, _, _, _, _, Some r' => Ok (PFloat (FInf true), r')
            | _, _, _, _, _, _ => number s
            end
      end
  end
with items (fuel : nat) (s : text) (acc : list pyval) : res (pyval * text) :=
  match fuel with
  | O => Raise RuntimeError
  | S fuel' =>
      '(v, r) ← value fuel' s;
      match skip_ws r with
      | ","%char :: r' => items fuel' (skip_ws r') (v :: acc)
      | "]"%char :: r' => Ok (PList (rev (v :: acc)), r')
      | _ => Raise JSONDecodeError
      end
  end
with members (fuel : nat) (s : text) (acc : gmap string pyval)
  : res (pyval * text) :=
  match fuel with
  | O => Raise RuntimeError
  | S fuel' =>
      match s with
      | c :: r =>
          if Ascii.eqb c DQ then
            '(k, r1) ← string_body r [];
            match skip_ws r1 with
            | ":"%char :: r2 =>
                '(v, r3) ← value fuel' (skip_ws r2);
                let acc' := <[key_of k := v]> acc in
                match skip_ws r3 with
                | ","%char :: r4 => members fuel' (skip_ws r4) acc'
                | "}"%char :: r4 => Ok (PDict acc', r4)
                | _ => Raise JSONDecodeError
                end
            | _ => Raise JSONDecodeError
            end
          else Raise JSONDecodeError
      | [] => Raise JSONDecodeError
      end
  end.

Definition json_loads (s : text) : res pyval :=
  '(v, r) ← value (2 * length s + 2) (skip_ws s);
  match skip_ws r with
  | [] => Ok v
  | _ => Raise JSONDecodeError
  end.

End Json.

(** ** [src/analyzer.py]: the conversation *)

Module Conversation.

Inductive message :=
| AIMessage (content : text)
| HumanMessage (content : text).

(** The two attributes the conversation methods read and write. *)
Record incident_analyzer := IncidentAnalyzer {
  memory : list message;            (* self.memory.chat_memory.messages *)
  conversation_initialized : bool
}.

(** The attributes as [__init__] leaves them. *)
Definition fresh : incident_analyzer := IncidentAnalyzer [] false.

(** What [self.llm.invoke(messages)] comes to: the content of the response,
    or an exception with its text [str(e)]. *)
Inductive reply :=
| Content (content : text)
| Failure (str_e : text).

Definition GUIDELINES : text :=
  txt "IMPORTANT GUIDELINES:" ++ [NL]
  ++ txt "1. ONLY answer questions that are directly related to this incident, its analysis, timeline, root cause, impact, or action items" ++ [NL]
  ++ txt "2. If the question is NOT related to this specific incident or its analysis, politely redirect the conversation back to the incident" ++ [NL]
  ++ txt "3. Be helpful but stay focused on the incident context" ++ [NL]
  ++ txt "4. If you don't have enough information to answer the question, say so" ++ [NL]
  ++ txt "5. Keep responses conversational but professional" ++ [NL]
  ++ txt "6. You can reference both the raw incident data and the analyzed report to provide comprehensive answers" ++ [NL; NL]
  ++ txt "You are now ready to answer questions about this incident. What would you like to know?".

Definition system_message (incident_context report_markdown : text) : text :=
  txt "You are an AI assistant helping with incident analysis. You have access to the following incident data and post-mortem report:"
  ++ [NL; NL] ++ txt "INCIDENT CONTEXT (raw data):" ++ [NL]
  ++ incident_context ++ [NL; NL]
  ++ txt "POST-MORTEM REPORT:" ++ [NL]
  ++ report_markdown ++ [NL; NL]
  ++ GUIDELINES.

Definition NO_CONTEXT : text :=
  txt "I don't have access to the incident context. Please make sure you've analyzed an incident first.".

Definition error_text (str_e : text) : text :=
  txt "I'm sorry, but I encountered an error while processing your question: "
  ++ str_e.

(** [self.memory.chat_memory.add_message(m)] *)
Definition add_message (a : incident_analyzer) (m : message) : incident_analyzer :=
  IncidentAnalyzer (memory a ++ [m]) (conversation_initialized a).

Definition initialize_conversation (a : incident_analyzer)
    (incident_context report_markdown : text) : incident_analyzer :=
  let a := add_message a (AIMessage (system_message incident_context report_markdown)) in
  IncidentAnalyzer (memory a) true.

Definition clear_conversation (a : incident_analyzer) : incident_analyzer := IncidentAnalyzer [] false.

(** [bool(s)] for an argument that is a string or [None] *)
Definition given (s : option text) : bool :=
  match s with
  | Some (_ :: _) => true
  | _ => false
  end.

Section Llm.
Variable invoke : list message -> reply.

(** The analyzer after the call, and the string returned. *)
Definition follow_up_question (a : incident_analyzer) (question : text)
    (incident_context report_context : option text) : incident_analyzer * text :=
  let ready : option incident_analyzer :=
    if negb (conversation_initialized a)
    then
      if negb (given incident_context) || negb (given report_context)
      then None
      else Some (initialize_conversation a (default [] incident_context)
                   (default [] report_context))
    else Some a in
  match ready with
  | None => (a, NO_CONTEXT)
  | Some a =>
      let a := add_message a (HumanMessage question) in
      let messages := memory a in
      match invoke messages with
      | Content content =>
          let ai_response := strip content in
          (add_message a (AIMessage ai_response), ai_response)
      | Failure str_e => (a, error_text str_e)
      end
  end.

End Llm.

End Conversation.

(** ** [app.py]: the lines of the .env file *)

Module DotEnv.

Fixpoint lstrip_by (p : ascii -> bool) (s : text) : text :=
  match s with
  | c :: s' => if p c then lstrip_by p s' else s
  | [] => []
  end.

(** [s.strip(chars)] *)
Definition strip_chars (chars : text) (s : text) : text :=
  let p c := existsb (Ascii.eqb c) chars in
  rev (lstrip_by p (rev (lstrip_by p s))).

(** [s.split(sep, 1)] when [sep in s]: the text before the first [sep] and
    the text after it. *)
Fixpoint split_first (sep : ascii) (s : text) : option (text * text) :=
  match s with
  | [] => None
  | c :: s' =>
      if Ascii.eqb c sep then Some ([], s')
      else match split_first sep s' with
           | Some (before, after) => Some (c :: before, after)
           | None => None
           end
  end.

(** One turn of the loop over the lines of the file: the assignment the
    line asks for, if any. *)
Definition parse_line (line : text) : option (text * text) :=
  let line := strip line in
  match line with
  | [] => None
  | c :: _ =>
      if Ascii.eqb c "#" then None
      else
        match split_first "=" line with
        | None => None
        | Some (key, value) =>
            let key := strip key in
            let value := strip_chars ["'"%char] (strip_chars [DQ] (strip value)) in
            Some (key, value)
        end
  end.

Section Environ.
(** Whether [os.environ[key] = value] returns; it raises on the names and
    values the platform refuses. *)
Variable accepts : text -> text -> bool.

(** The loop, inside  try: ... except Exception: pass : an assignment that
    raises ends it. *)
Fixpoint load_lines (lines : list text) (environ : gmap text text)
  : gmap text text :=
  match lines with
  | [] => environ
  | line :: rest =>
      match parse_line line with
      | Some (key, value) =>
          if accepts key value
          then load_lines rest (<[key := value]> environ)
          else environ
      | None => load_lines rest environ
      end
  end.
End Environ.

End DotEnv.

(** ** [app.py]: the report tab of [render_analysis_view] *)

Module ReportTab.
Import Re App.

(** ( #+ \s* Timeline_of_Events .*? ) ( \n ), compiled without flags *)
Definition TIMELINE_HEADER_RE : regex :=
  Seqs [ Group 1 (Seqs [ Plus (CChar "#"); Star CSpace;
                         Lit (txt "Timeline of Events"); StarLazy CNotNL ]);
         Group 2 (Cls (CChar NL)) ].

(** [re.search] together with the text in front of the match, nearest
    character first: its length is [m.start()], which is [m.start(1)] for a
    pattern that opens with its first group. *)
Fixpoint search_span (r : regex) (b a : text) : option (text * mres) :=
  match match_at r b a with
  | Some m => Some (b, m)
  | None =>
      match a with
      | c :: a' => search_span r (c :: b) a'
      | [] => None
      end
  end.

(** What the tab puts on the page, in order. *)
Inductive shown :=
| Markdown (s : text)                 (* st.markdown(s) *)
| Timeline (o : res outcome).         (* render_timeline_with_events(...) *)

Definition report_tab (report_md : text) (timeline_events : list event)
  : list shown :=
  match search_span TIMELINE_HEADER_RE [] report_md with
  | Some (front, timeline_header_match) =>
      let before := rev front in
      let header := group 1 (m_caps timeline_header_match) in
      let after := m_after timeline_header_match in
      [ Markdown before; Markdown header;
        Timeline (render_timeline_with_events timeline_events);
        Markdown after ]
  | None =>
      [ Timeline (render_timeline_with_events timeline_events);
        Markdown report_md ]
  end.

End ReportTab.


(** * Vocabulary of the properties *)

Import Re Datetime Analyzer App.
Import Conversation DotEnv ReportTab.

(** ** Sample reports and events *)

Definition sample_heading : text :=
  q "### 2. Timeline of Events:|2024-01-15 14:05:00: auth-service high memory".

Definition sample_heading_backslash : text :=
  q "### 2\. Timeline of Events:|2024-01-15 14:05:00: auth-service high memory".

Definition sample_report : text :=
  q "# Post-Mortem|All good.|=== TIMELINE_JSON ===|```json|[ {'time': '2024-01-15 16:30:00', 'event': 'Database connection timeouts begin.'},|  {'time': '2024-01-15 16:33:00', 'event': 'Error rate spikes.'} ]|```|=== END_TIMELINE_JSON ===||=== MONITORING_CODE ===|resource {}|=== END_MONITORING_CODE ===||=== REGRESSION_TEST ===|def test(): pass|=== END_REGRESSION_TEST ===".

Definition one_stamp_one_junk : list event :=
  [mk_event (txt "2024-01-15 14:05:00") (txt "A"); mk_event (txt "n/a") (txt "B")].

Definition truncated_channel_report : text :=
  q "# Report|2\. Timeline of Events:|2024-01-15 16:30:00: timeouts begin|=== TIMELINE_JSON ===|```json|[ {'time': '2024-01-15 16:30:00', 'event': 'x'},|```|=== END_TIMELINE_JSON ===".

Definition empty_array_report : text :=
  q "# Report|2\. Timeline of Events:|2024-01-15 16:30:00: timeouts begin|=== TIMELINE_JSON ===|```json|[]|```|=== END_TIMELINE_JSON ===".

Local Open Scope Z_scope.

(** ** Positions on the axis *)

(** The element drawn for a point at a given position. *)
Definition dot_at (e : datetime * event) (pos : Q) : html_part :=
  TimelineDot pos (html_escape (get e.2 "time")) (html_escape (get e.2 "event")).

(** The position the renderers give to an offset of [x] seconds on an axis
    of [duration] seconds. *)
Definition dot_position (x duration : Z) : Q :=
  if 0 <? duration then Qred (inject_Z x / inject_Z duration * 100) else 50%Q.

Definition one_second_apart : list event :=
  [mk_event (txt "2024-01-15 16:30:00") (txt "A");
   mk_event (txt "2024-01-15 16:30:01") (txt "B")].

(** ** Timestamps, character by character *)

(** [d.strftime] with %Y-%m-%d, %H:%M and the two timestamp formats. *)
Definition format_date (d : datetime) : text :=
  pad4 (year d) ++ txt "-" ++ pad2 (month d) ++ txt "-" ++ pad2 (day d).

Definition format_hm (d : datetime) : text :=
  pad2 (hour d) ++ txt ":" ++ pad2 (minute d).

Definition format_hms (d : datetime) : text :=
  format_hm d ++ txt ":" ++ pad2 (second d).

Definition format_stamp (d : datetime) : text :=
  format_date d ++ txt " " ++ format_hms d.

Definition format_stamp_minutes (d : datetime) : text :=
  format_date d ++ txt " " ++ format_hm d.

Definition num2 (a b : ascii) : Z := 10 * digit_val a + digit_val b.

Definition num4 (a b c d : ascii) : Z :=
  1000 * digit_val a + 100 * digit_val b + 10 * digit_val c + digit_val d.

(** The two shapes of a timestamp, character by character; [sp] separates
    date and time. *)
Definition stamp16 (sp y1 y2 y3 y4 o1 o2 d1 d2 h1 h2 m1 m2 : ascii) : text :=
  [y1; y2; y3; y4; "-"; o1; o2; "-"; d1; d2; sp; h1; h2; ":"; m1; m2]%char.

Definition stamp19 (sp y1 y2 y3 y4 o1 o2 d1 d2 h1 h2 m1 m2 s1 s2 : ascii) : text :=
  stamp16 sp y1 y2 y3 y4 o1 o2 d1 d2 h1 h2 m1 m2 ++ [":"; s1; s2]%char.

(** No two-digit seconds follow at the position [a]. *)
Definition no_seconds_ahead (a : text) : bool :=
  match a with
  | c :: c1 :: c2 :: _ => negb (Ascii.eqb c ":" && py_isdigit c1 && py_isdigit c2)
  | _ => true
  end.

(** The position [a] does not start with a character of the class. *)
Definition stops (p : cset) (a : text) : bool :=
  match a with
  | c :: _ => negb (cset_mem p c)
  | [] => true
  end.

Definition time5 (h1 h2 m1 m2 : ascii) : text := [h1; h2; ":"; m1; m2]%char.

(** Seconds, when they are written. *)
Definition opt_sec (o : option (ascii * ascii)) : text :=
  match o with
  | Some (s1, s2) => [":"; s1; s2]%char
  | None => []
  end.

Definition opt_sec_ok (o : option (ascii * ascii)) : Prop :=
  match o with
  | Some (s1, s2) => py_isdigit s1 = true /\ py_isdigit s2 = true
  | None => True
  end.

Definition opt_sec_val (o : option (ascii * ascii)) : Z :=
  match o with
  | Some (s1, s2) => num2 s1 s2
  | None => 0
  end.

Definition date10 (y1 y2 y3 y4 o1 o2 d1 d2 : ascii) : text :=
  [y1; y2; y3; y4; "-"; o1; o2; "-"; d1; d2]%char.

(** A timestamp and a time of day, written with or without seconds. *)
Definition write_stamp (secs : bool) (d : datetime) : text :=
  if secs then format_stamp d else format_stamp_minutes d.

Definition write_time (secs : bool) (d : datetime) : text :=
  if secs then format_hms d else format_hm d.

(** The time of day of [tod] on the day of [date]. *)
Definition on_date (date tod : datetime) : datetime :=
  DT (year date) (month date) (day date) (hour tod) (minute tod) (second tod).

(** ** Events the renderer cannot place *)

(** The time of the event matches neither the range pattern nor the
    timestamp pattern of [parse_time]. *)
Definition unparseable (e : event) : Prop :=
  rmatch RANGE_RE (get e "time") = None /\ parse_time (get e "time") = None.

(** The pattern binds no group. *)
Fixpoint group_free (r : regex) : bool :=
  match r with
  | Seq r1 r2 | Alt r1 r2 => group_free r1 && group_free r2
  | Group _ _ => false
  | _ => true
  end.

(** ** Event lines of the timeline section *)

Definition Shape (sh : list cset) : regex := Seqs (Cls <$> sh).

(** The text that fits the shape at the front of [a], and what follows. *)
Fixpoint split_shape (sh : list cset) (a : text) : option (text * text) :=
  match sh, a with
  | [], _ => Some ([], a)
  | p :: sh', c :: a' =>
      if cset_mem p c
      then match split_shape sh' a' with
           | Some (x, r) => Some (c :: x, r)
           | None => None
           end
      else None
  | _ :: _, [] => None
  end.

(** A line ends at the end of the text or in front of a line feed. *)
Definition line_end (tail : text) : bool :=
  match tail with
  | [] => true
  | c :: _ => Ascii.eqb c NL
  end.

(** The shapes of the event-line pattern: the timestamp to the minute,
    seconds, and a dash with a time of day. *)
Definition D09 : cset := CRange "0" "9".

Definition STAMP_SHAPE : list cset :=
  [D09; D09; D09; D09; CChar "-"; D09; D09; CChar "-"; D09; D09; CChar " ";
   D09; D09; CChar ":"; D09; D09].

Definition SECONDS_SHAPE : list cset := [CChar ":"; D09; D09].

Definition DASH_TIME_SHAPE : list cset :=
  [CChar "-"; D09; D09; CChar ":"; D09; D09].

Definition put_front (p : text) (r : text * text) : text * text := (p ++ r.1, r.2).

(** The ways to read an optional range at the front of [x], longest first:
    each is the text read and the text left. *)
Definition range_readings (x : text) : list (text * text) :=
  match split_shape DASH_TIME_SHAPE x with
  | Some (r, y1) =>
      match split_shape SECONDS_SHAPE y1 with
      | Some (s, y2) => [(r ++ s, y2)]
      | None => []
      end ++ [(r, y1)]
  | None => []
  end ++ [([], x)].

(** The ways to read a timestamp with optional seconds and an optional
    range at the front of a line, in the order the pattern tries them. *)
Definition readings (l : text) : list (text * text) :=
  match split_shape STAMP_SHAPE l with
  | Some (s, a) =>
      match split_shape SECONDS_SHAPE a with
      | Some (sec, a1) => put_front (s ++ sec) <$> range_readings a1
      | None => []
      end ++ (put_front s <$> range_readings a)
  | None => []
  end.

(** The first reading that a colon follows: the time and the free text. *)
Fixpoint first_with_colon (rs : list (text * text)) : option (text * text) :=
  match rs with
  | [] => None
  | (st, after) :: rs' =>
      match after with
      | c :: tx => if Ascii.eqb c ":" then Some (st, tx) else first_with_colon rs'
      | [] => first_with_colon rs'
      end
  end.

Definition read_line (l : text) : option (text * text) :=
  first_with_colon (readings l).

(** The event a line of the section stands for, if any. *)
Definition line_event (l : text) : option event :=
  match read_line l with
  | Some (time, tx) => Some (mk_event time (strip tx))
  | None => None
  end.

(** Lines joined by line feeds. *)
Fixpoint join_lines (ls : list text) : text :=
  match ls with
  | [] => []
  | [l] => l
  | l :: ls' => l ++ NL :: join_lines ls'
  end.

Fixpoint try_readings (rs : list (text * text))
    (f : text -> text -> option mres) : option mres :=
  match rs with
  | [] => None
  | (st, after) :: rs' => orelse (f st after) (try_readings rs' f)
  end.

(** What the first group of the event-line pattern holds. *)
Definition EVENT_TIME_RE : regex :=
  Seqs [ YMD D09; Cls (CChar " "); HHMM_SS D09;
         Opt (Seq (Cls (CChar "-")) (HHMM_SS D09)) ].

Definition add_tail (tail : text) (r : text * text) : text * text :=
  (r.1, r.2 ++ tail).

Definition EVENT_TEXT_RE : regex :=
  Seqs [Cls (CChar ":"); Star CSpace; Group 2 (Star CNotNL); Eol true].

(** The text of every event line is not blank. *)
Definition text_not_blank (l : text) : Prop :=
  forall st tx, read_line l = Some (st, tx) -> lstrip tx <> [].

(** Where the scan goes on after a line. *)
Definition scan_on (b tail : text) : list caps :=
  match tail with
  | [] => []
  | c :: rest => findall_scan EVENT_LINE_RE 0 (c :: b) rest
  end.

(** The captures the pattern takes from one line. *)
Definition line_caps (l : text) : list caps :=
  match read_line l with
  | Some (st, tx) => [[(2%nat, lstrip tx); (1%nat, st)]]
  | None => []
  end.

Definition sample_section : list text :=
  [txt "2024-01-15 14:05:00: auth-service high memory";
   txt "";
   txt "- 2024-01-15 14:06: not at the start of the line";
   txt "2024-01-15 14:10-14:20:   restart  ";
   txt "2024-01-15 14:30: recovered"].

(** ** Markers and channels *)

Definition opening (name : string) : text := txt ("=== " ++ name ++ " ===").

Definition closing (name : string) : text := txt ("=== END_" ++ name ++ " ===").

Fixpoint is_prefix (p s : text) : bool :=
  match p, s with
  | [], _ => true
  | c :: p', d :: s' => Ascii.eqb c d && is_prefix p' s'
  | _ :: _, [] => false
  end.

(** [p in t] for strings *)
Fixpoint contains (p t : text) : bool :=
  is_prefix p t
  || match t with
     | [] => false
     | _ :: t' => contains p t'
     end.

(** No run of three equals signs, which every marker starts and ends
    with. *)
Definition plain (t : text) : bool := negb (contains (txt "===") t).

(** What may follow a marker: the end of the text, or a character that is
    neither a blank nor an equals sign. *)
Definition after_marker (y : text) : bool :=
  match y with
  | [] => true
  | c :: _ => negb (Ascii.eqb c " ") && negb (Ascii.eqb c "=")
  end.

(** The end of the text or the start of a marker. *)
Definition marker_led (y : text) : bool :=
  match y with
  | [] => true
  | _ => is_prefix (txt "=== ") y
  end.

(** A channel and the prose after it. *)
Record channel := Channel { ch_name : string; ch_body : text; ch_after : text }.

Definition channel_names : list string :=
  ["TIMELINE_JSON"; "MONITORING_CODE"; "REGRESSION_TEST"]%string.

Fixpoint chans_text (chans : list channel) : text :=
  match chans with
  | [] => []
  | ch :: rest =>
      opening (ch_name ch) ++ ch_body ch ++ closing (ch_name ch)
      ++ ch_after ch ++ chans_text rest
  end.

(** Prose, then channels each followed by its prose. *)
Definition blob_of (t0 : text) (chans : list channel) : text :=
  t0 ++ chans_text chans.

Fixpoint well_formed_channels (chans : list channel) : bool :=
  match chans with
  | [] => true
  | ch :: rest =>
      existsb (String.eqb (ch_name ch)) channel_names
      && plain (ch_body ch)
      && after_marker (ch_body ch ++ closing (ch_name ch))
      && plain (ch_after ch)
      && after_marker (ch_after ch ++ chans_text rest)
      && well_formed_channels rest
  end.

Definition well_formed (t0 : text) (chans : list channel) : bool :=
  plain t0 && well_formed_channels chans.

Definition has_channel (name : string) (chans : list channel) : bool :=
  existsb (fun ch => String.eqb (ch_name ch) name) chans.

(** The blob once the channels called [name] are taken out. *)
Fixpoint drop_channel (name : string) (t0 : text) (chans : list channel)
  : text * list channel :=
  match chans with
  | [] => (t0, [])
  | ch :: rest =>
      if String.eqb (ch_name ch) name
      then drop_channel name (t0 ++ ch_after ch) rest
      else let r := drop_channel name (ch_after ch) rest in
           (t0, Channel (ch_name ch) (ch_body ch) r.1 :: r.2)
  end.

(** No position inside [s] starts [p], whatever of [tail] is read. *)
Fixpoint never (p s tail : text) : bool :=
  match s with
  | [] => true
  | _ :: s' => negb (is_prefix p (s ++ tail)) && never p s' tail
  end.

(** [p] is no prefix of [s] followed by what may follow a marker. *)
Fixpoint no_start (p s : text) : bool :=
  match p, s with
  | [], _ => false
  | c :: _, [] => Ascii.eqb c " " || Ascii.eqb c "="
  | c :: p', d :: s' => negb (Ascii.eqb c d) || no_start p' s'
  end.

Fixpoint quiet (p x : text) : bool :=
  match x with
  | [] => true
  | _ :: x' => no_start p x && quiet p x'
  end.

(** The markers none of which the text contains. *)
Definition marker_free (t : text) : bool :=
  forallb (fun name => negb (contains (opening name) t)
                       && negb (contains (closing name) t)) channel_names.

(** [x] is a well-formed blob none of whose channels is called by a name
    of [removed]. *)
Definition segmented (removed : list string) (x : text) : Prop :=
  exists t0 chans,
    well_formed t0 chans = true /\ x = blob_of t0 chans
    /\ Forall (fun name => has_channel name chans = false) removed.

(** Segmenting [narrative] finds no channel and returns it as it is. *)
Definition resegments_to_itself (json_loads : text -> res pyval)
    (narrative : text) : Prop :=
  search (channel_re "TIMELINE_JSON") narrative = None
  /\ search (channel_re "MONITORING_CODE") narrative = None
  /\ search (channel_re "REGRESSION_TEST") narrative = None
  /\ exists r2,
       generate_report json_loads narrative = Ok r2
       /\ report_markdown r2 = narrative
       /\ monitoring_code r2 = []
       /\ regression_test_code r2 = [].

(** The sample report as prose and channels. *)
Definition sample_prose : text := q "# Post-Mortem|All good.|".

Definition sample_channels : list channel :=
  [ Channel "TIMELINE_JSON"
      (q "|```json|[ {'time': '2024-01-15 16:30:00', 'event': 'Database connection timeouts begin.'},|  {'time': '2024-01-15 16:33:00', 'event': 'Error rate spikes.'} ]|```|")
      (q "||");
    Channel "MONITORING_CODE" (q "|resource {}|") (q "||");
    Channel "REGRESSION_TEST" (q "|def test(): pass|") [] ].

(** A channel that sits inside the text of another marker: once it is
    removed, what is left of the report is a marker pair. *)
Definition spliced_blob : text :=
  txt "=== TIMELINE_JSON === x === END_=== MONITORING_CODE === m === END_MONITORING_CODE ===TIMELINE_JSON ===".

(** ** What a chart shows *)

(** The characters that open or close markup or an attribute value. *)
Definition markup_char (c : ascii) : bool :=
  Ascii.eqb c "<" || Ascii.eqb c ">" || Ascii.eqb c DQ || Ascii.eqb c "'".

Definition markup_free (s : text) : bool :=
  forallb (fun c => negb (markup_char c)) s.

(** The two texts of a mark are free of markup; a label has none. *)
Definition part_markup_free (p : html_part) : bool :=
  match p with
  | TimelineLabel _ _ => true
  | TimelineRange _ _ time ev | TimelineDot _ time ev =>
      markup_free time && markup_free ev
  end.

(** A mark lies on the axis: a point or a label between 0 and 100, a bar
    with both ends between 0 and 100. *)
Definition on_axis (pos : Q) : Prop := (0 <= pos)%Q /\ (pos <= 100)%Q.

Definition part_on_axis (p : html_part) : Prop :=
  match p with
  | TimelineLabel pos _ | TimelineDot pos _ _ => on_axis pos
  | TimelineRange lo width _ _ => on_axis lo /\ on_axis (lo + width)
  end.

(** The distance between two ticks of an axis of the given duration. *)
Definition axis_step (duration : Z) : Z :=
  if duration <? 2 * 3600 then 600
  else if duration <? 2 * 86400 then 3600 else 86400.

Definition axis_format (duration : Z) : label_format :=
  if duration <? 2 * 3600 then Fmt_HM
  else if duration <? 2 * 86400 then Fmt_H00 else Fmt_bd.

Definition markup_events : list event :=
  [mk_event (txt "2024-01-15 14:05:00 <b>") (txt "<script>alert('x')</script>");
   mk_event (txt "2024-01-15 14:00 - 14:30") (txt "a > b & c");
   mk_event (txt "2024-01-15 16:55:00") (txt "recovered")].

Definition half_hour_events : list event :=
  [mk_event (txt "2024-01-15 16:30:00") (txt "timeouts begin");
   mk_event (txt "2024-01-15 16:55:00") (txt "recovered")].

(** ** Blocks between markers, and the end of the timeline section *)

(** The shape the channel patterns and the pattern of the fenced block
    share:  OPEN \s* ( .*? ) \s* CLOSE *)
Definition block_re (o cl : text) : regex :=
  Seqs [Lit o; Star CSpace; Group 1 (StarLazy CAny); Star CSpace; Lit cl].

(** The body of the first channel called [name]. *)
Fixpoint first_body (name : string) (chans : list channel) : option text :=
  match chans with
  | [] => None
  | ch :: rest =>
      if String.eqb (ch_name ch) name then Some (ch_body ch)
      else first_body name rest
  end.

(** Digits, then a full stop and a white-space character. *)
Fixpoint digits_then_dot (a : text) : bool :=
  match a with
  | c :: a' =>
      if py_isdigit c then digits_then_dot a'
      else Ascii.eqb c "."
           && match a' with s :: _ => py_isspace s | [] => false end
  | [] => false
  end.

(** The position is the end of the text, a last line feed, or a line feed
    in front of a numbered heading. *)
Definition section_end (a : text) : bool :=
  at_eol false a
  || match a with
     | c :: d :: a' => Ascii.eqb c NL && py_isdigit d && digits_then_dot a'
     | _ => false
     end.

(** No position inside [s] is an end of the section. *)
Fixpoint no_end_inside (s rest : text) : bool :=
  match s with
  | [] => true
  | _ :: s' => negb (section_end (s ++ rest)) && no_end_inside s' rest
  end.

(** The heading the section pattern asks for: 2, a backslash, any one
    character, and the title. *)
Definition section_heading (x : ascii) : text :=
  ["2"%char; BSLASH; x] ++ txt " Timeline of Events:".

Definition SECTION_END_RE : regex :=
  Alt (Seqs [Cls (CChar NL); Plus CDigit; Cls (CChar "."); Cls CSpace])
      (Eol false).

Definition sample_numbered_report : text :=
  q "# Report|2\. Timeline of Events:|2024-01-15 16:30:00: timeouts begin|2024-01-15 16:40: recovered|3. Root Cause Analysis:|2024-01-15 16:35:00: not an event of the timeline".

(** ** Calls of the conversation methods *)

(** A call of one of the conversation methods. *)
Inductive call :=
| Initialize (incident_context report_markdown : text)
| Ask (question : text) (incident_context report_context : option text)
| Clear.

Definition perform (invoke : list message -> reply) (a : incident_analyzer) (c : call)
  : incident_analyzer :=
  match c with
  | Initialize ic rm => initialize_conversation a ic rm
  | Ask question ic rc => (follow_up_question invoke a question ic rc).1
  | Clear => clear_conversation a
  end.

(** The memory is empty until the conversation is initialized, and from
    then on starts with a system message. *)
Definition context_first (a : incident_analyzer) : Prop :=
  if conversation_initialized a
  then exists ic rm rest, memory a = AIMessage (system_message ic rm) :: rest
  else memory a = [].

(** A model that fails on the first question and answers from the second
    message of the user on. *)
Definition moody_model (messages : list message) : reply :=
  if (length messages <? 3)%nat then Failure (txt "503 overloaded")
  else Content (txt " The deploy at 14:05. ").

(** ** Lines of the .env file *)

(** Neither end of [s] is a character of the class. *)
Definition clean_ends (p : ascii -> bool) (s : text) : Prop :=
  match s with c :: _ => p c = false | [] => True end
  /\ match rev s with c :: _ => p c = false | [] => True end.

Definition is_one_of (chars : text) (c : ascii) : bool := existsb (Ascii.eqb c) chars.

(** Every assignment of the lines is one the platform accepts. *)
Definition all_accepted (accepts : text -> text -> bool) (lines : list text) : Prop :=
  Forall (fun line => forall key value,
            parse_line line = Some (key, value) -> accepts key value = true) lines.

(** A platform that refuses the empty name and nothing else. *)
Definition refuses_empty_name (key value : text) : bool :=
  match key with [] => false | _ => true end.

Definition strip_by (p : ascii -> bool) (s : text) : text :=
  rev (lstrip_by p (rev (lstrip_by p s))).

Local Close Scope Z_scope.

(** * Properties *)

(** ** Closed runs *)

Example extract_with_backslash_heading :
  _extract_timeline sample_heading_backslash
  = [mk_event (txt "2024-01-15 14:05:00") (txt "auth-service high memory")].
Proof. vm_compute. reflexivity. Qed.

Example generate_report_sample :
  generate_report Json.json_loads sample_report
  = Ok (Report (q "# Post-Mortem|All good.")
          (events_value
             [mk_event (txt "2024-01-15 16:30:00") (txt "Database connection timeouts begin.");
              mk_event (txt "2024-01-15 16:33:00") (txt "Error rate spikes.")])
          (txt "resource {}") (txt "def test(): pass")).
Proof. vm_compute. reflexivity. Qed.

(** ** The section heading of the fallback extractor *)

Lemma section_match_needs_backslash (b a : text) :
  BSLASH ∉ a -> match_at TIMELINE_SECTION_RE b a = None.
Proof.
  intros Hn. unfold match_at, TIMELINE_SECTION_RE. cbn [Seqs run].
  destruct a as [|c a]; [reflexivity|].
  destruct (cset_mem (CChar "2") c); [|reflexivity].
  destruct a as [|c' a]; [reflexivity|].
  cbn [cset_mem].
  destruct (Ascii.eqb_spec c' BSLASH) as [->|_]; [|reflexivity].
  exfalso. apply Hn. set_solver.
Qed.

Lemma section_search_needs_backslash (a : text) :
  forall b, BSLASH ∉ a -> search_from TIMELINE_SECTION_RE b a = None.
Proof.
  induction a as [|c a IH]; intros b Hn; cbn [search_from].
  - now rewrite section_match_needs_backslash.
  - rewrite section_match_needs_backslash by exact Hn.
    apply IH. set_solver.
Qed.

(** A report without a backslash has no timeline section for the fallback
    extractor, whatever its headings are. *)
Lemma extract_timeline_without_backslash (report_text : text) :
  BSLASH ∉ report_text -> _extract_timeline report_text = [].
Proof.
  intros Hn. unfold _extract_timeline, search.
  now rewrite section_search_needs_backslash.
Qed.

(** C1 (defect in the code).  The report whose heading is
    [### 2. Timeline of Events:] and whose next line is
    [2024-01-15 14:05:00: auth-service high memory] yields no event at all:
    the section pattern asks for a backslash after the 2. *)
Theorem extract_timeline_numbered_heading_yields_nothing :
  _extract_timeline sample_heading = [].
Proof. vm_compute. reflexivity. Qed.

(** ** Fewer than two parsed entries *)

(** [render_horizontal_timeline] answers the same list with its placeholder. *)
Example horizontal_one_stamp_one_junk :
  render_horizontal_timeline one_stamp_one_junk
  = Some (Ok (Info "A timeline requires at least two events with valid timestamps.")).
Proof. vm_compute. reflexivity. Qed.

(** C2 (defect in the code).  Of two events only the first has a time that
    parses; [render_timeline_with_events] shows no placeholder and draws a
    chart with the single point in the middle of the axis. *)
Theorem single_parsed_entry_is_charted :
  render_timeline_with_events one_stamp_one_junk
  = Ok (Chart [TimelineDot 50 (txt "2024-01-15 14:05:00") (txt "A")]).
Proof. vm_compute. reflexivity. Qed.

(** ** Malformed and empty timeline channels *)

Section JsonChannel.
Variable json_loads : text -> res pyval.

Lemma generate_report_timeline (report_text : text) :
  exists r, generate_report json_loads report_text = Ok r
    /\ timeline_events r
       = if negb (truthy (json_timeline json_loads report_text))
         then events_value (_extract_timeline (without_timeline report_text))
         else json_timeline json_loads report_text.
Proof.
  unfold generate_report, generate_report_body.
  destruct (extract_channel "MONITORING_CODE" _) as [mc t1].
  destruct (extract_channel "REGRESSION_TEST" _) as [rc t2].
  eexists. split; reflexivity.
Qed.

(** C4.  The marker pair of TIMELINE_JSON is found, and either its content
    has no fenced json block or [json.loads] raises on the block: then
    [generate_report] returns normally, the channel contributes the empty
    list, and the events are those the fallback extractor finds in the
    report without the channel. *)
Theorem malformed_timeline_channel_falls_back
    (report_text : text) (timeline_match : mres) :
  search (channel_re "TIMELINE_JSON") report_text = Some timeline_match ->
  (search JSON_BLOCK_RE (strip (group 1 (m_caps timeline_match))) = None
   \/ exists json_block e,
        search JSON_BLOCK_RE (strip (group 1 (m_caps timeline_match)))
          = Some json_block
        /\ json_loads (group 1 (m_caps json_block)) = Raise e) ->
  json_timeline json_loads report_text = PList []
  /\ exists r, generate_report json_loads report_text = Ok r
       /\ timeline_events r
          = events_value (_extract_timeline (without_timeline report_text)).
Proof.
  intros Hm Hbad.
  assert (Hj : json_timeline json_loads report_text = PList []).
  { unfold json_timeline. rewrite Hm. unfold timeline_from_json.
    destruct Hbad as [-> | (jb & e & -> & ->)]; reflexivity. }
  split; [exact Hj|].
  destruct (generate_report_timeline report_text) as (r & Hr & Ht).
  exists r. split; [exact Hr|]. now rewrite Ht, Hj.
Qed.

(** C10.  The fenced json block of the TIMELINE_JSON channel parses to the
    empty array: the events of the report are again those of the fallback
    extractor, which is consulted whenever the list from the channel is
    empty. *)
Theorem empty_timeline_array_falls_back
    (report_text : text) (timeline_match json_block : mres) :
  search (channel_re "TIMELINE_JSON") report_text = Some timeline_match ->
  search JSON_BLOCK_RE (strip (group 1 (m_caps timeline_match)))
    = Some json_block ->
  json_loads (group 1 (m_caps json_block)) = Ok (PList []) ->
  exists r, generate_report json_loads report_text = Ok r
    /\ timeline_events r
       = events_value (_extract_timeline (without_timeline report_text)).
Proof.
  intros Hm Hb Hj.
  destruct (generate_report_timeline report_text) as (r & Hr & Ht).
  exists r. split; [exact Hr|]. rewrite Ht.
  unfold json_timeline. rewrite Hm. unfold timeline_from_json.
  now rewrite Hb, Hj.
Qed.
End JsonChannel.

Lemma malformed_timeline_channel_witness :
  json_timeline Json.json_loads truncated_channel_report = PList []
  /\ exists r, generate_report Json.json_loads truncated_channel_report = Ok r
       /\ timeline_events r
          = events_value
              (_extract_timeline (without_timeline truncated_channel_report)).
Proof.
  eapply malformed_timeline_channel_falls_back.
  - vm_compute. reflexivity.
  - right. eexists. exists JSONDecodeError. split; vm_compute; reflexivity.
Defined.

Lemma empty_timeline_array_witness :
  exists r, generate_report Json.json_loads empty_array_report = Ok r
    /\ timeline_events r
       = events_value (_extract_timeline (without_timeline empty_array_report)).
Proof.
  eapply empty_timeline_array_falls_back.
  - vm_compute. reflexivity.
  - vm_compute. reflexivity.
  - vm_compute. reflexivity.
Defined.

Example empty_array_report_events :
  _extract_timeline (without_timeline empty_array_report)
  = [mk_event (txt "2024-01-15 16:30:00") (txt "timeouts begin")].
Proof. vm_compute. reflexivity. Qed.

(** ** Ticks and positions *)

Local Open Scope Z_scope.

Lemma mapM_total {A B} (f : A -> res B) (g : A -> B) (l : list A) :
  (forall x, f x = Ok (g x)) -> mapM f l = Ok (g <$> l).
Proof.
  intros Hf. induction l as [|x l IH]; [reflexivity|].
  cbn [mapM fmap list_fmap]. rewrite Hf. cbn. rewrite IH. reflexivity.
Qed.

Lemma percent_positive (x duration : Z) :
  0 < duration ->
  percent x duration = Ok (Qred (inject_Z x / inject_Z duration * 100)).
Proof.
  intros H. unfold percent.
  destruct (Z.eqb_spec duration 0); [lia|reflexivity].
Qed.

Lemma render_dot_total (start_time : datetime) (duration : Z)
    (e : datetime * event) :
  render_dot start_time duration e
  = Ok (dot_at e (dot_position (diff e.1 start_time) duration)).
Proof.
  unfold render_dot, dot_position.
  destruct (Z.ltb_spec 0 duration) as [H|H].
  - now rewrite percent_positive.
  - reflexivity.
Qed.

Lemma render_labels_nil (start_time : datetime) (duration : Z) :
  render_labels [] start_time duration = Ok [].
Proof. unfold render_labels. now destruct (0 <? duration). Qed.

(** C3, as the code has it.  On an axis of at most one second no tick is
    generated and the chart holds the points only.  A point sits at 50 exactly
    when the duration is zero; as soon as the duration is positive, one
    second included, the offset [x] of an instant is projected to
    [x / duration * 100]. *)
Theorem ticks_and_point_positions
    (timeline_events : list event) (start_time end_time : datetime) :
  (2 <= length (parsed_starts timeline_events))%nat ->
  dt_min (parsed_starts timeline_events).*1 = Ok start_time ->
  dt_max (parsed_starts timeline_events).*1 = Ok end_time ->
  let duration := diff end_time start_time in
  (duration <= 1 ->
     make_markers start_time end_time = Some (Ok [])
     /\ render_horizontal_timeline timeline_events
        = Some (Ok (Chart ((fun e => dot_at e (dot_position (diff e.1 start_time) duration))
                             <$> parsed_starts timeline_events))))
  /\ (duration <= 0 ->
        forall e, render_dot start_time duration e = Ok (dot_at e 50%Q))
  /\ (0 < duration ->
        forall e, exists pos,
          render_dot start_time duration e = Ok (dot_at e pos)
          /\ (pos == inject_Z (diff e.1 start_time) / inject_Z duration * 100)%Q).
Proof.
  intros Hlen Hmin Hmax duration.
  split; [|split].
  - intros Hd. split.
    + unfold make_markers. fold duration.
      destruct (Z.ltb_spec 1 duration); [lia|reflexivity].
    + unfold render_horizontal_timeline.
      destruct timeline_events as [|ev0 evs]; [cbn in Hlen; lia|].
      destruct (Nat.ltb_spec (length (parsed_starts (ev0 :: evs))) 2); [lia|].
      rewrite Hmin, Hmax. fold duration.
      unfold make_markers. fold duration.
      destruct (Z.ltb_spec 1 duration); [lia|].
      rewrite render_labels_nil.
      rewrite (mapM_total _ _ _ (render_dot_total start_time duration)).
      reflexivity.
  - intros Hd e. rewrite render_dot_total. unfold dot_position.
    destruct (Z.ltb_spec 0 duration); [lia|reflexivity].
  - intros Hd e. rewrite render_dot_total. unfold dot_position.
    destruct (Z.ltb_spec 0 duration); [|lia].
    eexists. split; [reflexivity|]. apply Qred_correct.
Qed.

Lemma ticks_and_point_positions_witness :
  let start_time := DT 2024 1 15 16 30 0 in
  let end_time := DT 2024 1 15 16 30 1 in
  let duration := diff end_time start_time in
  (duration <= 1 ->
     make_markers start_time end_time = Some (Ok [])
     /\ render_horizontal_timeline one_second_apart
        = Some (Ok (Chart ((fun e => dot_at e (dot_position (diff e.1 start_time) duration))
                             <$> parsed_starts one_second_apart))))
  /\ (duration <= 0 ->
        forall e, render_dot start_time duration e = Ok (dot_at e 50%Q))
  /\ (0 < duration ->
        forall e, exists pos,
          render_dot start_time duration e = Ok (dot_at e pos)
          /\ (pos == inject_Z (diff e.1 start_time) / inject_Z duration * 100)%Q).
Proof.
  apply (ticks_and_point_positions one_second_apart).
  - vm_compute. lia.
  - vm_compute. reflexivity.
  - vm_compute. reflexivity.
Defined.

(** The claim of C3 as stated fails on two events one second apart: the
    duration is at most one second, yet the points sit at 0 and at 100. *)
Lemma one_second_axis_points_not_centred :
  exists start_time end_time parts,
    dt_min (parsed_starts one_second_apart).*1 = Ok start_time
    /\ dt_max (parsed_starts one_second_apart).*1 = Ok end_time
    /\ diff end_time start_time <= 1
    /\ render_horizontal_timeline one_second_apart = Some (Ok (Chart parts))
    /\ ~ (forall pos t e, TimelineDot pos t e ∈ parts -> (pos == 50)%Q).
Proof.
  exists (DT 2024 1 15 16 30 0), (DT 2024 1 15 16 30 1).
  eexists. split; [vm_compute; reflexivity|].
  split; [vm_compute; reflexivity|].
  split; [vm_compute; discriminate|].
  split; [vm_compute; reflexivity|].
  intros H.
  { specialize (H 0%Q (txt "2024-01-15 16:30:00") (txt "A")).
    assert (Hin : TimelineDot 0 (txt "2024-01-15 16:30:00") (txt "A")
                  ∈ [TimelineDot 0 (txt "2024-01-15 16:30:00") (txt "A");
                     TimelineDot 100 (txt "2024-01-15 16:30:01") (txt "B")])
      by (apply list_elem_of_here).
    specialize (H Hin). vm_compute in H. discriminate. }
Qed.

(** ** The marker loop comes to an end *)

Lemma checked_ok (n m : Z) : checked n = Ok m -> m = n.
Proof.
  unfold checked. destruct (in_range n); congruence.
Qed.

Lemma marker_loop_enough (start_time end_time step : Z) (fmt : label_format) :
  0 < step ->
  forall (fuel : nat) (current : Z),
    (1 <= fuel)%nat ->
    (current <= end_time + step ->
     (end_time + step - current) / step + 2 <= Z.of_nat fuel) ->
    marker_loop fuel start_time end_time step fmt current <> None.
Proof.
  intros Hstep fuel. induction fuel as [|fuel IH]; intros current Hf Hb; [lia|].
  cbn [marker_loop].
  destruct (checked (end_time + step)) as [limit|e] eqn:Hl; [|discriminate].
  apply checked_ok in Hl. subst limit.
  destruct (current <=? end_time + step) eqn:Hc; [|discriminate].
  apply Z.leb_le in Hc. specialize (Hb Hc).
  destruct (checked (start_time - step)) as [lo|e]; [|discriminate].
  destruct (checked (current + step)) as [next|e] eqn:Hn.
  - apply checked_ok in Hn. subst next.
    assert (Hq : (end_time + step - (current + step)) / step
                 = (end_time + step - current) / step - 1).
    { replace (end_time + step - (current + step))
        with ((end_time + step - current) + (-1) * step) by lia.
      rewrite Z.div_add by lia. lia. }
    assert (H0 : 0 <= (end_time + step - current) / step)
      by (apply Z.div_pos; lia).
    specialize (IH (current + step)).
    destruct (marker_loop fuel start_time end_time step fmt (current + step))
      as [[rest|e]|] eqn:Hr.
    + destruct (if lo <=? current then _ else _); discriminate.
    + destruct (if lo <=? current then _ else _); discriminate.
    + exfalso. apply IH; [lia| |reflexivity]. intros _. lia.
  - destruct (if lo <=? current then _ else _); discriminate.
Qed.

Lemma make_markers_returns (start_time end_time : datetime) :
  make_markers start_time end_time <> None.
Proof.
  unfold make_markers.
  destruct (1 <? diff end_time start_time); [|discriminate].
  assert (Hgen : forall step fmt sm, 0 < step ->
    marker_loop (S (Z.to_nat ((to_seconds end_time + step - sm) / step + 1)))
      (to_seconds start_time) (to_seconds end_time) step fmt sm <> None).
  { intros step fmt sm Hs. apply marker_loop_enough; [exact Hs|lia|].
    intros Hc.
    assert (0 <= (to_seconds end_time + step - sm) / step)
      by (apply Z.div_pos; lia).
    lia. }
  destruct (diff end_time start_time <? 2 * 3600).
  - destruct (checked _) as [sm|e]; [|discriminate]. apply Hgen. lia.
  - destruct (diff end_time start_time <? 2 * 86400); apply Hgen; lia.
Qed.

Lemma render_horizontal_timeline_returns (timeline_events : list event) :
  render_horizontal_timeline timeline_events <> None.
Proof.
  unfold render_horizontal_timeline.
  destruct timeline_events as [|ev rest]; [discriminate|].
  destruct (length _ <? 2)%nat; [discriminate|].
  set (times := fst <$> parsed_starts (ev :: rest)).
  destruct (dt_min times) as [s|e], (dt_max times) as [t|e']; try discriminate.
  pose proof (make_markers_returns s t) as Hm.
  destruct (make_markers s t) as [[ms|e]|]; [discriminate|discriminate|].
  now elim Hm.
Qed.

(** ** Timestamps written out *)

Arguments py_isdigit : simpl never.
Arguments py_isspace : simpl never.
Arguments digit_val : simpl never.
Arguments consumed : simpl never.

Lemma digit_char_isdigit (n : Z) :
  0 <= n <= 9 -> py_isdigit (digit_char n) = true.
Proof.
  intros H. rewrite <- (Z2Nat.id n) by lia.
  assert (Hk : (Z.to_nat n < 10)%nat) by lia.
  revert Hk. generalize (Z.to_nat n). intros k Hk.
  do 10 (destruct k as [|k]; [reflexivity|]). lia.
Qed.

Lemma digit_val_char (n : Z) : 0 <= n <= 9 -> digit_val (digit_char n) = n.
Proof.
  intros H. rewrite <- (Z2Nat.id n) by lia.
  assert (Hk : (Z.to_nat n < 10)%nat) by lia.
  revert Hk. generalize (Z.to_nat n). intros k Hk.
  do 10 (destruct k as [|k]; [reflexivity|]). lia.
Qed.

Lemma digit_char_val (c : ascii) :
  py_isdigit c = true -> digit_char (digit_val c) = c /\ 0 <= digit_val c <= 9.
Proof.
  destruct c as [[] [] [] [] [] [] [] []]; intros H; try discriminate H;
    (split; [reflexivity | vm_compute; split; discriminate]).
Qed.

Lemma digit_not_space (c : ascii) : py_isdigit c = true -> py_isspace c = false.
Proof.
  destruct c as [[] [] [] [] [] [] [] []]; intros H; try discriminate H; reflexivity.
Qed.

Ltac use_digits :=
  repeat match goal with
         | Hd : py_isdigit ?c = true |- context [py_isdigit ?c] => rewrite Hd
         end.

Ltac split_digits H :=
  repeat (apply Forall_cons_1 in H as [? H]); clear H.

Lemma days_in_month_le (y m : Z) : days_in_month y m <= 31.
Proof.
  unfold days_in_month.
  destruct ((m =? 2) && is_leap y); [lia|].
  destruct (Z.to_nat m) as [|[|[|[|[|[|[|[|[|[|[|[|[|[|]]]]]]]]]]]]]]; cbn; lia.
Qed.

Lemma valid_fields (d : datetime) :
  valid d = true ->
  field_ok Dm (month d) = true /\ field_ok Dd (day d) = true
  /\ field_ok DH (hour d) = true /\ field_ok DM (minute d) = true
  /\ field_ok DS (second d) = true.
Proof.
  unfold valid, field_ok. pose proof (days_in_month_le (year d) (month d)).
  intros Hv. repeat (apply andb_prop in Hv as [Hv ?]).
  repeat split; try (apply andb_true_intro; split); lia.
Qed.

Ltac use_fields d Hv :=
  let F1 := fresh in let F2 := fresh in let F3 := fresh in
  let F4 := fresh in let F5 := fresh in
  destruct (valid_fields d Hv) as (F1 & F2 & F3 & F4 & F5);
  unfold d in F1, F2, F3, F4, F5;
  cbn [month day hour minute second] in F1, F2, F3, F4, F5;
  rewrite ?F1, ?F2, ?F3, ?F4, ?F5.

Ltac skip_failed_fields :=
  repeat match goal with
         | |- context [if field_ok ?f ?v then _ else None] =>
             destruct (field_ok f v); [|reflexivity]
         end.

Lemma strptime_seconds sp y1 y2 y3 y4 o1 o2 d1 d2 h1 h2 m1 m2 s1 s2 :
  py_isspace sp = true ->
  Forall (fun c => py_isdigit c = true)
         [y1; y2; y3; y4; o1; o2; d1; d2; h1; h2; m1; m2; s1; s2] ->
  let d := DT (num4 y1 y2 y3 y4) (num2 o1 o2) (num2 d1 d2)
              (num2 h1 h2) (num2 m1 m2) (num2 s1 s2) in
  strptime (stamp19 sp y1 y2 y3 y4 o1 o2 d1 d2 h1 h2 m1 m2 s1 s2) fmt_YmdHMS
  = if valid d then Some d else None.
Proof.
  intros Hsp H d. split_digits H.
  unfold strptime, stamp19, stamp16, fmt_YmdHMS.
  cbn [strptime_fields app Ascii.eqb Bool.eqb]. use_digits.
  rewrite ?Hsp.
  cbn [andb set_field year month day hour minute second].
  fold (num4 y1 y2 y3 y4) (num2 o1 o2) (num2 d1 d2) (num2 h1 h2) (num2 m1 m2)
       (num2 s1 s2).
  destruct (valid d) eqn:Hv.
  - use_fields d Hv. subst d. now rewrite Hv.
  - skip_failed_fields. subst d. now rewrite Hv.
Qed.

Lemma strptime_minutes sp y1 y2 y3 y4 o1 o2 d1 d2 h1 h2 m1 m2 :
  py_isspace sp = true ->
  Forall (fun c => py_isdigit c = true)
         [y1; y2; y3; y4; o1; o2; d1; d2; h1; h2; m1; m2] ->
  let d := DT (num4 y1 y2 y3 y4) (num2 o1 o2) (num2 d1 d2)
              (num2 h1 h2) (num2 m1 m2) 0 in
  strptime (stamp16 sp y1 y2 y3 y4 o1 o2 d1 d2 h1 h2 m1 m2) fmt_YmdHMS = None
  /\ strptime (stamp16 sp y1 y2 y3 y4 o1 o2 d1 d2 h1 h2 m1 m2) fmt_YmdHM
     = if valid d then Some d else None.
Proof.
  intros Hsp H d. split_digits H.
  unfold strptime, stamp16, fmt_YmdHMS, fmt_YmdHM.
  cbn [strptime_fields app Ascii.eqb Bool.eqb]. use_digits.
  rewrite ?Hsp.
  cbn [andb set_field year month day hour minute second].
  fold (num4 y1 y2 y3 y4) (num2 o1 o2) (num2 d1 d2) (num2 h1 h2) (num2 m1 m2).
  split; [skip_failed_fields; reflexivity|].
  destruct (valid d) eqn:Hv.
  - use_fields d Hv. subst d. now rewrite Hv.
  - skip_failed_fields. subst d. now rewrite Hv.
Qed.

Lemma strptime_seconds_only sp y1 y2 y3 y4 o1 o2 d1 d2 h1 h2 m1 m2 s1 s2 :
  strptime (stamp19 sp y1 y2 y3 y4 o1 o2 d1 d2 h1 h2 m1 m2 s1 s2) fmt_YmdHM = None.
Proof.
  unfold strptime, stamp19, stamp16, fmt_YmdHM.
  cbn [strptime_fields app Ascii.eqb Bool.eqb].
  repeat match goal with
         | |- context [if ?b then _ else None] => destruct b
         end; reflexivity.
Qed.

(** What [try_formats] makes of the two shapes. *)
Lemma try_formats_seconds sp y1 y2 y3 y4 o1 o2 d1 d2 h1 h2 m1 m2 s1 s2 :
  py_isspace sp = true ->
  Forall (fun c => py_isdigit c = true)
         [y1; y2; y3; y4; o1; o2; d1; d2; h1; h2; m1; m2; s1; s2] ->
  let d := DT (num4 y1 y2 y3 y4) (num2 o1 o2) (num2 d1 d2)
              (num2 h1 h2) (num2 m1 m2) (num2 s1 s2) in
  try_formats (stamp19 sp y1 y2 y3 y4 o1 o2 d1 d2 h1 h2 m1 m2 s1 s2)
  = if valid d then Some d else None.
Proof.
  intros Hsp H d. unfold try_formats.
  rewrite strptime_seconds by assumption. subst d.
  destruct (valid _); [reflexivity|apply strptime_seconds_only].
Qed.

Lemma try_formats_minutes sp y1 y2 y3 y4 o1 o2 d1 d2 h1 h2 m1 m2 :
  py_isspace sp = true ->
  Forall (fun c => py_isdigit c = true)
         [y1; y2; y3; y4; o1; o2; d1; d2; h1; h2; m1; m2] ->
  let d := DT (num4 y1 y2 y3 y4) (num2 o1 o2) (num2 d1 d2)
              (num2 h1 h2) (num2 m1 m2) 0 in
  try_formats (stamp16 sp y1 y2 y3 y4 o1 o2 d1 d2 h1 h2 m1 m2)
  = if valid d then Some d else None.
Proof.
  intros Hsp H d. unfold try_formats.
  destruct (strptime_minutes _ _ _ _ _ _ _ _ _ _ _ _ _ Hsp H) as [-> ->].
  reflexivity.
Qed.

(** ** The matcher on timestamps *)

Lemma consumed_app (x a : text) : consumed (x ++ a) a = x.
Proof.
  unfold consumed. rewrite length_app.
  replace (length x + length a - length a)%nat with (length x) by lia.
  apply take_app_length.
Qed.

(** After the sixteen characters of a timestamp the pattern is left with
    its optional seconds. *)
Lemma run_stamp (dc sep : cset) (sp y1 y2 y3 y4 o1 o2 d1 d2 h1 h2 m1 m2 : ascii)
    (b a : text) (cs : caps) (k : kont) :
  (forall c, cset_mem dc c = py_isdigit c) ->
  cset_mem sep sp = true ->
  Forall (fun c => py_isdigit c = true)
         [y1; y2; y3; y4; o1; o2; d1; d2; h1; h2; m1; m2] ->
  let s := stamp16 sp y1 y2 y3 y4 o1 o2 d1 d2 h1 h2 m1 m2 in
  run (Seqs [YMD dc; Cls sep; HHMM_SS dc]) b (s ++ a) cs k
  = orelse (run (Seq (Cls (CChar ":")) (Rep 2 dc)) (rev s ++ b) a cs k)
           (k (rev s ++ b) a cs).
Proof.
  intros Hdc Hsep H s. split_digits H. subst s. unfold stamp16.
  cbn [run Seqs YMD HHMM_SS Rep Opt app rev].
  repeat first [ rewrite Hdc | rewrite Hsep | progress use_digits
               | progress cbn [cset_mem Ascii.eqb Bool.eqb] ].
  reflexivity.
Qed.

Lemma run_seconds_absent (dc : cset) (b a : text) (cs : caps) (k : kont) :
  (forall c, cset_mem dc c = py_isdigit c) ->
  no_seconds_ahead a = true ->
  run (Seq (Cls (CChar ":")) (Rep 2 dc)) b a cs k = None.
Proof.
  intros Hdc Ha. cbn [run Rep cset_mem].
  destruct a as [|c [|c1 [|c2 a]]]; cbn [no_seconds_ahead] in Ha.
  - reflexivity.
  - now destruct (Ascii.eqb c ":").
  - rewrite Hdc. destruct (Ascii.eqb c ":"); [|reflexivity].
    now destruct (py_isdigit c1).
  - rewrite !Hdc. destruct (Ascii.eqb c ":"); [|reflexivity].
    destruct (py_isdigit c1); [|reflexivity].
    destruct (py_isdigit c2); [discriminate Ha|reflexivity].
Qed.

Lemma run_seconds_present (dc : cset) (s1 s2 : ascii) (b a : text) (cs : caps)
    (k : kont) :
  (forall c, cset_mem dc c = py_isdigit c) ->
  py_isdigit s1 = true -> py_isdigit s2 = true ->
  run (Seq (Cls (CChar ":")) (Rep 2 dc)) b ([":"; s1; s2]%char ++ a) cs k
  = k (rev [":"; s1; s2]%char ++ b) a cs.
Proof.
  intros Hdc H1 H2. cbn [run Rep cset_mem app Ascii.eqb Bool.eqb rev].
  now rewrite !Hdc, H1, H2.
Qed.

Section StampMatch.
Variables (sep : cset) (sp y1 y2 y3 y4 o1 o2 d1 d2 h1 h2 m1 m2 : ascii).
Hypothesis Hsep : cset_mem sep sp = true.
Hypothesis Hdigits :
  Forall (fun c => py_isdigit c = true)
         [y1; y2; y3; y4; o1; o2; d1; d2; h1; h2; m1; m2].

Let s16 := stamp16 sp y1 y2 y3 y4 o1 o2 d1 d2 h1 h2 m1 m2.

Lemma rmatch_stamp_seconds (s1 s2 : ascii) (rest : text) :
  py_isdigit s1 = true -> py_isdigit s2 = true ->
  let s := stamp19 sp y1 y2 y3 y4 o1 o2 d1 d2 h1 h2 m1 m2 s1 s2 in
  rmatch (Group 1 (STAMP sep)) (s ++ rest) = Some (MRes (rev s) rest [(1%nat, s)]).
Proof.
  intros H1 H2 s. unfold rmatch, match_at, STAMP. cbn [run].
  subst s. unfold stamp19. fold s16. rewrite <- app_assoc.
  unfold s16 at 1. rewrite run_stamp by (try reflexivity; assumption).
  rewrite run_seconds_present by (try reflexivity; assumption).
  fold s16. rewrite (app_assoc s16), consumed_app.
  cbn [orelse accept]. now rewrite rev_app_distr, app_nil_r.
Qed.

Lemma rmatch_stamp_minutes (rest : text) :
  no_seconds_ahead rest = true ->
  rmatch (Group 1 (STAMP sep)) (s16 ++ rest)
  = Some (MRes (rev s16) rest [(1%nat, s16)]).
Proof.
  intros Hr. unfold rmatch, match_at, STAMP. cbn [run].
  unfold s16 at 1. rewrite run_stamp by (try reflexivity; assumption).
  rewrite run_seconds_absent by (try reflexivity; assumption).
  fold s16. rewrite consumed_app.
  cbn [orelse accept]. now rewrite app_nil_r.
Qed.
End StampMatch.

(** ** [parse_time] on written timestamps *)

Lemma parse_time_seconds y1 y2 y3 y4 o1 o2 d1 d2 h1 h2 m1 m2 s1 s2 rest :
  Forall (fun c => py_isdigit c = true)
         [y1; y2; y3; y4; o1; o2; d1; d2; h1; h2; m1; m2; s1; s2] ->
  let d := DT (num4 y1 y2 y3 y4) (num2 o1 o2) (num2 d1 d2)
              (num2 h1 h2) (num2 m1 m2) (num2 s1 s2) in
  parse_time (stamp19 " " y1 y2 y3 y4 o1 o2 d1 d2 h1 h2 m1 m2 s1 s2 ++ rest)
  = if valid d then Some d else None.
Proof.
  intros H d. unfold parse_time.
  assert (H12 : Forall (fun c => py_isdigit c = true)
                  [y1; y2; y3; y4; o1; o2; d1; d2; h1; h2; m1; m2]).
  { repeat (apply Forall_cons_1 in H as [? H]). repeat constructor; assumption. }
  assert (Hs : py_isdigit s1 = true /\ py_isdigit s2 = true).
  { repeat (apply Forall_cons_1 in H as [? H]). split; assumption. }
  rewrite rmatch_stamp_seconds by (try reflexivity; tauto).
  cbn [m_caps group Nat.eqb].
  now rewrite try_formats_seconds.
Qed.

Lemma parse_time_minutes y1 y2 y3 y4 o1 o2 d1 d2 h1 h2 m1 m2 rest :
  Forall (fun c => py_isdigit c = true)
         [y1; y2; y3; y4; o1; o2; d1; d2; h1; h2; m1; m2] ->
  no_seconds_ahead rest = true ->
  let d := DT (num4 y1 y2 y3 y4) (num2 o1 o2) (num2 d1 d2)
              (num2 h1 h2) (num2 m1 m2) 0 in
  parse_time (stamp16 " " y1 y2 y3 y4 o1 o2 d1 d2 h1 h2 m1 m2 ++ rest)
  = if valid d then Some d else None.
Proof.
  intros H Hr d. unfold parse_time.
  rewrite rmatch_stamp_minutes by (try reflexivity; assumption).
  cbn [m_caps group Nat.eqb].
  now rewrite try_formats_minutes.
Qed.

Lemma pad2_digits (n : Z) :
  0 <= n <= 99 ->
  exists a b, pad2 n = [a; b] /\ py_isdigit a = true /\ py_isdigit b = true
              /\ num2 a b = n.
Proof.
  intros H. exists (digit_char (n / 10)), (digit_char (n mod 10)).
  assert (0 <= n / 10 <= 9) by (Z.to_euclidean_division_equations; lia).
  assert (0 <= n mod 10 <= 9) by (Z.to_euclidean_division_equations; lia).
  repeat split; try (apply digit_char_isdigit; assumption).
  unfold num2. rewrite !digit_val_char by assumption.
  Z.to_euclidean_division_equations; lia.
Qed.

Lemma pad4_digits (n : Z) :
  0 <= n <= 9999 ->
  exists a b c d, pad4 n = [a; b; c; d]
    /\ Forall (fun x => py_isdigit x = true) [a; b; c; d] /\ num4 a b c d = n.
Proof.
  intros H.
  exists (digit_char (n / 1000)), (digit_char (n / 100 mod 10)),
         (digit_char (n / 10 mod 10)), (digit_char (n mod 10)).
  assert (0 <= n / 1000 <= 9) by (Z.to_euclidean_division_equations; lia).
  assert (0 <= n / 100 mod 10 <= 9) by (Z.to_euclidean_division_equations; lia).
  assert (0 <= n / 10 mod 10 <= 9) by (Z.to_euclidean_division_equations; lia).
  assert (0 <= n mod 10 <= 9) by (Z.to_euclidean_division_equations; lia).
  split; [reflexivity|]. split.
  { repeat constructor; apply digit_char_isdigit; assumption. }
  unfold num4. rewrite !digit_val_char by assumption.
  Z.to_euclidean_division_equations. lia.
Qed.

Lemma valid_ranges (d : datetime) :
  valid d = true ->
  0 <= year d <= 9999 /\ 0 <= month d <= 99 /\ 0 <= day d <= 99
  /\ 0 <= hour d <= 99 /\ 0 <= minute d <= 99 /\ 0 <= second d <= 99.
Proof.
  unfold valid. pose proof (days_in_month_le (year d) (month d)).
  intros Hv. repeat (apply andb_prop in Hv as [Hv ?]). lia.
Qed.

(** A valid datetime is written with digits that read back as its fields. *)
Lemma format_stamp_digits (d : datetime) :
  valid d = true ->
  exists y1 y2 y3 y4 o1 o2 d1 d2 h1 h2 m1 m2 s1 s2,
    format_stamp d = stamp19 " " y1 y2 y3 y4 o1 o2 d1 d2 h1 h2 m1 m2 s1 s2
    /\ format_stamp_minutes d = stamp16 " " y1 y2 y3 y4 o1 o2 d1 d2 h1 h2 m1 m2
    /\ Forall (fun c => py_isdigit c = true)
              [y1; y2; y3; y4; o1; o2; d1; d2; h1; h2; m1; m2; s1; s2]
    /\ d = DT (num4 y1 y2 y3 y4) (num2 o1 o2) (num2 d1 d2)
              (num2 h1 h2) (num2 m1 m2) (num2 s1 s2).
Proof.
  intros Hv. destruct (valid_ranges d Hv) as (Hy & Ho & Hd & Hh & Hm & Hs).
  destruct (pad4_digits _ Hy) as (y1 & y2 & y3 & y4 & Ey & Fy & Ny).
  destruct (pad2_digits _ Ho) as (o1 & o2 & Eo & Fo1 & Fo2 & No).
  destruct (pad2_digits _ Hd) as (d1 & d2 & Ed & Fd1 & Fd2 & Nd).
  destruct (pad2_digits _ Hh) as (h1 & h2 & Eh & Fh1 & Fh2 & Nh).
  destruct (pad2_digits _ Hm) as (m1 & m2 & Em & Fm1 & Fm2 & Nm).
  destruct (pad2_digits _ Hs) as (s1 & s2 & Es & Fs1 & Fs2 & Ns).
  exists y1, y2, y3, y4, o1, o2, d1, d2, h1, h2, m1, m2, s1, s2.
  unfold format_stamp, format_stamp_minutes, format_hms, format_hm, format_date.
  rewrite Ey, Eo, Ed, Eh, Em, Es.
  split; [reflexivity|]. split; [reflexivity|]. split.
  - repeat (apply Forall_cons_1 in Fy as [? Fy]). repeat constructor; assumption.
  - rewrite Ny, No, Nd, Nh, Nm, Ns. now destruct d.
Qed.

Lemma parse_time_format_stamp (d : datetime) (rest : text) :
  valid d = true -> parse_time (format_stamp d ++ rest) = Some d.
Proof.
  intros Hv.
  destruct (format_stamp_digits d Hv)
    as (y1 & y2 & y3 & y4 & o1 & o2 & d1 & d2 & h1 & h2 & m1 & m2 & s1 & s2
        & -> & _ & Hdig & Hd).
  rewrite parse_time_seconds by exact Hdig.
  now rewrite <- Hd, Hv.
Qed.

Lemma seconds_ahead (a : text) :
  no_seconds_ahead a = false ->
  exists s1 s2 a', a = [":"; s1; s2]%char ++ a'
                   /\ py_isdigit s1 = true /\ py_isdigit s2 = true.
Proof.
  destruct a as [|c [|c1 [|c2 a]]]; cbn [no_seconds_ahead]; try discriminate.
  intros H. apply negb_false_iff in H.
  apply andb_prop in H as [H H2]. apply andb_prop in H as [H0 H1].
  apply Ascii.eqb_eq in H0 as ->. now exists c1, c2, a.
Qed.

Ltac step_match H :=
  repeat match type of H with
         | match ?a with [] => None | _ :: _ => _ end = Some _ =>
             destruct a as [|? ?]; [discriminate H|]
         | (if ?c then _ else None) = Some _ =>
             let E := fresh "E" in destruct c eqn:E; [|discriminate H]
         end.

Lemma run_stamp_inv (dc sep : cset) (b s : text) (cs : caps) (k : kont) (m : mres) :
  (forall c, cset_mem dc c = py_isdigit c) ->
  run (Seqs [YMD dc; Cls sep; HHMM_SS dc]) b s cs k = Some m ->
  exists sp y1 y2 y3 y4 o1 o2 d1 d2 h1 h2 m1 m2 a,
    s = stamp16 sp y1 y2 y3 y4 o1 o2 d1 d2 h1 h2 m1 m2 ++ a
    /\ cset_mem sep sp = true
    /\ Forall (fun c => py_isdigit c = true)
              [y1; y2; y3; y4; o1; o2; d1; d2; h1; h2; m1; m2].
Proof.
  intros Hdc H.
  cbn [run Seqs YMD HHMM_SS Rep Opt cset_mem] in H.
  step_match H.
  repeat match goal with
         | E : Ascii.eqb _ _ = true |- _ => apply Ascii.eqb_eq in E; subst
         | E : cset_mem dc _ = true |- _ => rewrite Hdc in E
         end.
  do 14 eexists. split; [unfold stamp16; cbn [app]; reflexivity|].
  split; [eassumption|]. repeat constructor; assumption.
Qed.

Lemma rmatch_stamp_inv (sep : cset) (s : text) (m : mres) :
  rmatch (Group 1 (STAMP sep)) s = Some m ->
  exists sp y1 y2 y3 y4 o1 o2 d1 d2 h1 h2 m1 m2,
    cset_mem sep sp = true
    /\ Forall (fun c => py_isdigit c = true)
              [y1; y2; y3; y4; o1; o2; d1; d2; h1; h2; m1; m2]
    /\ ((exists s1 s2 rest,
           py_isdigit s1 = true /\ py_isdigit s2 = true
           /\ s = stamp19 sp y1 y2 y3 y4 o1 o2 d1 d2 h1 h2 m1 m2 s1 s2 ++ rest
           /\ group 1 (m_caps m)
              = stamp19 sp y1 y2 y3 y4 o1 o2 d1 d2 h1 h2 m1 m2 s1 s2)
        \/ (exists rest,
              no_seconds_ahead rest = true
              /\ s = stamp16 sp y1 y2 y3 y4 o1 o2 d1 d2 h1 h2 m1 m2 ++ rest
              /\ group 1 (m_caps m)
                 = stamp16 sp y1 y2 y3 y4 o1 o2 d1 d2 h1 h2 m1 m2)).
Proof.
  intros H. pose proof H as H'.
  unfold rmatch, match_at, STAMP in H'. cbn [run] in H'.
  apply run_stamp_inv in H' as
      (sp & y1 & y2 & y3 & y4 & o1 & o2 & d1 & d2 & h1 & h2 & m1 & m2 & a
       & -> & Hsep & Hdig); [|reflexivity].
  exists sp, y1, y2, y3, y4, o1, o2, d1, d2, h1, h2, m1, m2.
  split; [exact Hsep|]. split; [exact Hdig|].
  destruct (no_seconds_ahead a) eqn:Ha.
  - right. exists a. split; [exact Ha|]. split; [reflexivity|].
    rewrite rmatch_stamp_minutes in H by assumption.
    injection H as <-. reflexivity.
  - left. apply seconds_ahead in Ha as (s1 & s2 & a' & -> & H1 & H2).
    exists s1, s2, a'. split; [exact H1|]. split; [exact H2|].
    rewrite app_assoc in H. fold (stamp19 sp y1 y2 y3 y4 o1 o2 d1 d2 h1 h2 m1 m2 s1 s2) in H.
    rewrite rmatch_stamp_seconds in H by assumption.
    injection H as <-. split; [unfold stamp19; now rewrite <- app_assoc|reflexivity].
Qed.

Lemma pad2_num2 (a b : ascii) :
  py_isdigit a = true -> py_isdigit b = true -> pad2 (num2 a b) = [a; b].
Proof.
  intros Ha Hb.
  destruct (digit_char_val a Ha) as [Ea Ra], (digit_char_val b Hb) as [Eb Rb].
  unfold pad2, num2.
  replace ((10 * digit_val a + digit_val b) / 10) with (digit_val a)
    by (Z.to_euclidean_division_equations; lia).
  replace ((10 * digit_val a + digit_val b) mod 10) with (digit_val b)
    by (Z.to_euclidean_division_equations; lia).
  now rewrite Ea, Eb.
Qed.

Lemma pad4_num4 (a b c d : ascii) :
  Forall (fun x => py_isdigit x = true) [a; b; c; d] ->
  pad4 (num4 a b c d) = [a; b; c; d].
Proof.
  intros H. repeat (apply Forall_cons_1 in H as [? H]).
  destruct (digit_char_val a) as [Ea Ra]; [assumption|].
  destruct (digit_char_val b) as [Eb Rb]; [assumption|].
  destruct (digit_char_val c) as [Ec Rc]; [assumption|].
  destruct (digit_char_val d) as [Ed Rd]; [assumption|].
  unfold pad4, num4.
  set (n := 1000 * digit_val a + 100 * digit_val b + 10 * digit_val c + digit_val d).
  replace (n / 1000) with (digit_val a)
    by (subst n; Z.to_euclidean_division_equations; lia).
  replace (n / 100 mod 10) with (digit_val b)
    by (subst n; Z.to_euclidean_division_equations; lia).
  replace (n / 10 mod 10) with (digit_val c)
    by (subst n; Z.to_euclidean_division_equations; lia).
  replace (n mod 10) with (digit_val d)
    by (subst n; Z.to_euclidean_division_equations; lia).
  now rewrite Ea, Eb, Ec, Ed.
Qed.

(** Whatever [parse_time] returns was written at the very start of the
    string, with or without seconds. *)
Lemma parse_time_inv (s : text) (d : datetime) :
  parse_time s = Some d ->
  valid d = true
  /\ exists rest,
       s = format_stamp d ++ rest
       \/ (second d = 0 /\ s = format_stamp_minutes d ++ rest).
Proof.
  unfold parse_time. intros H.
  destruct (rmatch (Group 1 (STAMP (CChar " "))) s) as [m|] eqn:Hm; [|discriminate].
  apply rmatch_stamp_inv in Hm as
      (sp & y1 & y2 & y3 & y4 & o1 & o2 & d1 & d2 & h1 & h2 & m1 & m2
       & Hsep & Hdig & Hcase).
  apply Ascii.eqb_eq in Hsep as ->.
  pose proof Hdig as Hdig'.
  repeat (apply Forall_cons_1 in Hdig' as [? Hdig']).
  destruct Hcase as [(s1 & s2 & rest & Hs1 & Hs2 & -> & Hg) | (rest & Hr & -> & Hg)];
    rewrite Hg in H.
  - rewrite try_formats_seconds in H
      by (try reflexivity; repeat constructor; assumption).
    match type of H with (if valid ?x then _ else _) = _ =>
      destruct (valid x) eqn:Hv; [|discriminate H] end.
    injection H as <-. split; [exact Hv|]. exists rest. left. f_equal.
    unfold format_stamp, format_hms, format_hm, format_date.
    cbn [year month day hour minute second].
    rewrite pad4_num4, !pad2_num2 by (try assumption; repeat constructor; assumption).
    reflexivity.
  - rewrite try_formats_minutes in H by (try reflexivity; assumption).
    match type of H with (if valid ?x then _ else _) = _ =>
      destruct (valid x) eqn:Hv; [|discriminate H] end.
    injection H as <-. split; [exact Hv|]. exists rest. right.
    split; [reflexivity|]. f_equal.
    unfold format_stamp_minutes, format_hm, format_date.
    cbn [year month day hour minute second].
    rewrite pad4_num4, !pad2_num2 by (try assumption; repeat constructor; assumption).
    reflexivity.
Qed.

(** ** Greedy and lazy runs *)

Lemma star_greedy_run (p : cset) (ws : text) (a : text) (cs : caps) (k : kont)
    (m : mres) :
  forall b,
    Forall (fun c => cset_mem p c = true) ws ->
    stops p a = true ->
    k (rev ws ++ b) a cs = Some m ->
    star_greedy p b (ws ++ a) cs k = Some m.
Proof.
  induction ws as [|c ws IH]; intros b Hws Ha Hk.
  - cbn [app rev] in *. destruct a as [|c a]; cbn [star_greedy]; [exact Hk|].
    cbn [stops] in Ha. apply negb_true_iff in Ha. now rewrite Ha.
  - apply Forall_cons_1 in Hws as [Hc Hws].
    cbn [app star_greedy]. rewrite Hc.
    rewrite (IH (c :: b)); [reflexivity|assumption|assumption|].
    cbn [rev] in Hk. now rewrite <- app_assoc in Hk.
Qed.

(** When the continuation fails at every position of the run, so does the
    greedy star. *)
Lemma star_greedy_none (p : cset) (ws : text) (a : text) (cs : caps) (k : kont) :
  forall b,
    Forall (fun c => cset_mem p c = true) ws ->
    stops p a = true ->
    (forall w1 w2, ws = w1 ++ w2 -> k (rev w1 ++ b) (w2 ++ a) cs = None) ->
    star_greedy p b (ws ++ a) cs k = None.
Proof.
  induction ws as [|c ws IH]; intros b Hws Ha Hk.
  - specialize (Hk [] [] eq_refl). cbn [app rev] in *.
    destruct a as [|c a]; cbn [star_greedy]; [exact Hk|].
    cbn [stops] in Ha. apply negb_true_iff in Ha. now rewrite Ha.
  - apply Forall_cons_1 in Hws as [Hc Hws].
    cbn [app star_greedy]. rewrite Hc.
    rewrite (IH (c :: b)); [|assumption|assumption|].
    + exact (Hk [] (c :: ws) eq_refl).
    + intros w1 w2 ->. specialize (Hk (c :: w1) w2 eq_refl).
      cbn [rev] in Hk. now rewrite <- app_assoc in Hk.
Qed.

(** ** Ranges *)

Lemma run_opt_seconds (dc : cset) (o : option (ascii * ascii)) (b a : text)
    (cs : caps) (k : kont) (m : mres) :
  (forall c, cset_mem dc c = py_isdigit c) ->
  opt_sec_ok o ->
  (o = None -> no_seconds_ahead a = true) ->
  k (rev (opt_sec o) ++ b) a cs = Some m ->
  orelse (run (Seq (Cls (CChar ":")) (Rep 2 dc)) b (opt_sec o ++ a) cs k)
         (k b (opt_sec o ++ a) cs) = Some m.
Proof.
  intros Hdc Ho Ha Hk. destruct o as [[s1 s2]|].
  - destruct Ho as [H1 H2]. cbn [opt_sec] in *.
    rewrite run_seconds_present by assumption. now rewrite Hk.
  - cbn [opt_sec app rev] in *.
    rewrite run_seconds_absent by auto. exact Hk.
Qed.

Lemma run_stamp_ok (dc sep : cset) (sp y1 y2 y3 y4 o1 o2 d1 d2 h1 h2 m1 m2 : ascii)
    (o : option (ascii * ascii)) (b a : text) (cs : caps) (k : kont) (m : mres) :
  (forall c, cset_mem dc c = py_isdigit c) ->
  cset_mem sep sp = true ->
  Forall (fun c => py_isdigit c = true)
         [y1; y2; y3; y4; o1; o2; d1; d2; h1; h2; m1; m2] ->
  opt_sec_ok o ->
  (o = None -> no_seconds_ahead a = true) ->
  let s := stamp16 sp y1 y2 y3 y4 o1 o2 d1 d2 h1 h2 m1 m2 ++ opt_sec o in
  k (rev s ++ b) a cs = Some m ->
  run (Seqs [YMD dc; Cls sep; HHMM_SS dc]) b (s ++ a) cs k = Some m.
Proof.
  intros Hdc Hsep Hdig Ho Ha s Hk. subst s.
  rewrite <- app_assoc, run_stamp by assumption.
  apply run_opt_seconds; try assumption.
  now rewrite rev_app_distr, <- app_assoc in Hk.
Qed.

Lemma run_time (dc : cset) (h1 h2 m1 m2 : ascii) (b a : text) (cs : caps)
    (k : kont) :
  (forall c, cset_mem dc c = py_isdigit c) ->
  Forall (fun c => py_isdigit c = true) [h1; h2; m1; m2] ->
  let s := time5 h1 h2 m1 m2 in
  run (HHMM_SS dc) b (s ++ a) cs k
  = orelse (run (Seq (Cls (CChar ":")) (Rep 2 dc)) (rev s ++ b) a cs k)
           (k (rev s ++ b) a cs).
Proof.
  intros Hdc H s. split_digits H. subst s. unfold time5.
  cbn [run Seqs HHMM_SS Rep Opt app rev].
  repeat first [ rewrite Hdc | progress use_digits
               | progress cbn [cset_mem Ascii.eqb Bool.eqb] ].
  reflexivity.
Qed.

Lemma run_time_ok (dc : cset) (h1 h2 m1 m2 : ascii) (o : option (ascii * ascii))
    (b a : text) (cs : caps) (k : kont) (m : mres) :
  (forall c, cset_mem dc c = py_isdigit c) ->
  Forall (fun c => py_isdigit c = true) [h1; h2; m1; m2] ->
  opt_sec_ok o ->
  (o = None -> no_seconds_ahead a = true) ->
  let s := time5 h1 h2 m1 m2 ++ opt_sec o in
  k (rev s ++ b) a cs = Some m ->
  run (HHMM_SS dc) b (s ++ a) cs k = Some m.
Proof.
  intros Hdc Hdig Ho Ha s Hk. subst s.
  rewrite <- app_assoc, run_time by assumption.
  apply run_opt_seconds; try assumption.
  now rewrite rev_app_distr, <- app_assoc in Hk.
Qed.

Lemma no_seconds_ahead_other (c : ascii) (a : text) :
  Ascii.eqb c ":" = false -> no_seconds_ahead (c :: a) = true.
Proof. intros H. destruct a as [|c1 [|c2 a]]; cbn; now rewrite ?H. Qed.

Lemma no_seconds_ahead_ws (ws a : text) (c : ascii) :
  Forall (fun x => py_isspace x = true) ws ->
  Ascii.eqb c ":" = false ->
  no_seconds_ahead (ws ++ c :: a) = true.
Proof.
  intros Hws Hc. destruct ws as [|w ws]; cbn [app].
  - now apply no_seconds_ahead_other.
  - apply Forall_cons_1 in Hws as [Hw _]. apply no_seconds_ahead_other.
    destruct (Ascii.eqb_spec w ":") as [->|]; [discriminate Hw|reflexivity].
Qed.

Section RangeMatch.
Variables (y1 y2 y3 y4 o1 o2 d1 d2 h1 h2 m1 m2 e1 e2 f1 f2 : ascii).
Variables (so eo : option (ascii * ascii)) (ws1 ws2 rest : text).
Hypothesis Hstart :
  Forall (fun c => py_isdigit c = true)
         [y1; y2; y3; y4; o1; o2; d1; d2; h1; h2; m1; m2].
Hypothesis Hend : Forall (fun c => py_isdigit c = true) [e1; e2; f1; f2].
Hypothesis Hso : opt_sec_ok so.
Hypothesis Heo : opt_sec_ok eo.
Hypothesis Hws1 : Forall (fun c => py_isspace c = true) ws1.
Hypothesis Hws2 : Forall (fun c => py_isspace c = true) ws2.
Hypothesis Hrest : eo = None -> no_seconds_ahead rest = true.

Let L := stamp16 " " y1 y2 y3 y4 o1 o2 d1 d2 h1 h2 m1 m2 ++ opt_sec so.
Let R := time5 e1 e2 f1 f2 ++ opt_sec eo.

Lemma rmatch_range :
  exists m, rmatch RANGE_RE (L ++ ws1 ++ "-"%char :: ws2 ++ R ++ rest) = Some m
            /\ group 1 (m_caps m) = L /\ group 2 (m_caps m) = R.
Proof.
  unfold rmatch, match_at, RANGE_RE, STAMP. cbn [Seqs run].
  exists (MRes (rev R ++ rev ws2 ++ "-"%char :: rev ws1 ++ rev L ++ []) rest
               [(2%nat, R); (1%nat, L)]).
  split; [|split; reflexivity].
  apply run_stamp_ok; try assumption; try reflexivity.
  { intros _. now apply no_seconds_ahead_ws. }
  fold L. rewrite consumed_app.
  apply star_greedy_run; [assumption|reflexivity|].
  cbn [cset_mem Ascii.eqb Bool.eqb].
  apply star_greedy_run; [assumption| |].
  { subst R. unfold time5. cbn [app stops cset_mem].
    apply Forall_cons_1 in Hend as [He _]. now rewrite digit_not_space. }
  unfold R.
  erewrite run_time_ok; [reflexivity|reflexivity|assumption..|].
  now rewrite consumed_app.
Qed.

(** The end of the range is a bare time of day for the pattern that
    decides whether the date of the start is to be put in front. *)
Lemma rmatch_bare_time : exists m, rmatch BARE_TIME_RE R = Some m.
Proof.
  unfold rmatch, match_at, BARE_TIME_RE. cbn [Seqs run at_bol].
  eexists. rewrite <- (app_nil_r R). unfold R.
  apply run_time_ok; try assumption; try reflexivity.
Qed.
End RangeMatch.

Lemma parse_time_written y1 y2 y3 y4 o1 o2 d1 d2 h1 h2 m1 m2
    (o : option (ascii * ascii)) (rest : text) :
  Forall (fun c => py_isdigit c = true)
         [y1; y2; y3; y4; o1; o2; d1; d2; h1; h2; m1; m2] ->
  opt_sec_ok o ->
  (o = None -> no_seconds_ahead rest = true) ->
  let d := DT (num4 y1 y2 y3 y4) (num2 o1 o2) (num2 d1 d2)
              (num2 h1 h2) (num2 m1 m2) (opt_sec_val o) in
  parse_time ((stamp16 " " y1 y2 y3 y4 o1 o2 d1 d2 h1 h2 m1 m2 ++ opt_sec o) ++ rest)
  = if valid d then Some d else None.
Proof.
  intros Hdig Ho Hr d. subst d. destruct o as [[s1 s2]|]; cbn [opt_sec opt_sec_val].
  - destruct Ho as [H1 H2].
    fold (stamp19 " " y1 y2 y3 y4 o1 o2 d1 d2 h1 h2 m1 m2 s1 s2).
    apply parse_time_seconds.
    repeat (apply Forall_cons_1 in Hdig as [? Hdig]). repeat constructor; assumption.
  - rewrite app_nil_r. apply parse_time_minutes; auto.
Qed.

Lemma split_ws_written y1 y2 y3 y4 o1 o2 d1 d2 h1 h2 m1 m2
    (o : option (ascii * ascii)) :
  Forall (fun c => py_isdigit c = true)
         [y1; y2; y3; y4; o1; o2; d1; d2; h1; h2; m1; m2] ->
  opt_sec_ok o ->
  split_ws (stamp16 " " y1 y2 y3 y4 o1 o2 d1 d2 h1 h2 m1 m2 ++ opt_sec o)
  = [date10 y1 y2 y3 y4 o1 o2 d1 d2; time5 h1 h2 m1 m2 ++ opt_sec o].
Proof.
  intros H Ho. split_digits H.
  assert (Hs : forall s1 s2, o = Some (s1, s2) ->
                 py_isspace s1 = false /\ py_isspace s2 = false).
  { intros s1 s2 ->. destruct Ho. split; now apply digit_not_space. }
  repeat match goal with
         | Hd : py_isdigit ?c = true |- _ => apply digit_not_space in Hd
         end.
  unfold split_ws, stamp16.
  destruct o as [[s1 s2]|]; [destruct (Hs s1 s2 eq_refl) as [Hs1 Hs2]|];
    cbn [app opt_sec split_ws_aux];
    repeat match goal with
           | Hd : py_isspace ?c = false |- context [py_isspace ?c] => rewrite Hd
           end;
    reflexivity.
Qed.

Section RangeEvent.
Variables (y1 y2 y3 y4 o1 o2 d1 d2 h1 h2 m1 m2 e1 e2 f1 f2 : ascii).
Variables (so eo : option (ascii * ascii)) (ws1 ws2 rest : text).
Hypothesis Hstart :
  Forall (fun c => py_isdigit c = true)
         [y1; y2; y3; y4; o1; o2; d1; d2; h1; h2; m1; m2].
Hypothesis Hend : Forall (fun c => py_isdigit c = true) [e1; e2; f1; f2].
Hypothesis Hso : opt_sec_ok so.
Hypothesis Heo : opt_sec_ok eo.
Hypothesis Hws1 : Forall (fun c => py_isspace c = true) ws1.
Hypothesis Hws2 : Forall (fun c => py_isspace c = true) ws2.
Hypothesis Hrest : eo = None -> no_seconds_ahead rest = true.

(** A range whose right-hand side is a time of day, as digits. *)
Lemma classify_event_time_range (ev : event) :
  get ev "time"
  = (stamp16 " " y1 y2 y3 y4 o1 o2 d1 d2 h1 h2 m1 m2 ++ opt_sec so)
      ++ ws1 ++ "-"%char :: ws2 ++ (time5 e1 e2 f1 f2 ++ opt_sec eo) ++ rest ->
  let s := DT (num4 y1 y2 y3 y4) (num2 o1 o2) (num2 d1 d2)
              (num2 h1 h2) (num2 m1 m2) (opt_sec_val so) in
  let e := DT (num4 y1 y2 y3 y4) (num2 o1 o2) (num2 d1 d2)
              (num2 e1 e2) (num2 f1 f2) (opt_sec_val eo) in
  classify_event ev
  = Ok ([], if valid s && valid e then [Ranged s e ev] else []).
Proof.
  intros Ht s e. unfold classify_event. rewrite Ht.
  destruct (rmatch_range y1 y2 y3 y4 o1 o2 d1 d2 h1 h2 m1 m2 e1 e2 f1 f2
              so eo ws1 ws2 rest) as (m & -> & -> & ->); try assumption.
  destruct (rmatch_bare_time e1 e2 f1 f2 eo) as (mb & ->); try assumption.
  rewrite split_ws_written by assumption.
  cbn [item0 mbind res_bind].
  rewrite <- (app_nil_r (stamp16 _ _ _ _ _ _ _ _ _ _ _ _ _ ++ opt_sec so)).
  rewrite parse_time_written by (try assumption; reflexivity).
  replace (date10 y1 y2 y3 y4 o1 o2 d1 d2 ++ txt " " ++ time5 e1 e2 f1 f2 ++ opt_sec eo)
    with ((stamp16 " " y1 y2 y3 y4 o1 o2 d1 d2 e1 e2 f1 f2 ++ opt_sec eo) ++ [])
    by (now rewrite app_nil_r).
  rewrite parse_time_written.
  - fold s e. destruct (valid s), (valid e); reflexivity.
  - repeat (apply Forall_cons_1 in Hstart as [? Hstart]).
    repeat (apply Forall_cons_1 in Hend as [? Hend]).
    repeat constructor; assumption.
  - assumption.
  - reflexivity.
Qed.
End RangeEvent.

(** C6.  A range whose right-hand side is a bare time of day -- a start
    timestamp, white space or none, a dash, white space or none, HH:MM or
    HH:MM:SS -- is classified as one range event that starts at the written
    timestamp and ends at the written time of day on the date of the start;
    seconds that are not written count as zero, on either side. *)
Theorem range_end_reuses_start_date
    (start tod : datetime) (secs1 secs2 : bool) (ws1 ws2 : text) (ev : event) :
  valid start = true ->
  valid (on_date start tod) = true ->
  (secs1 = false -> second start = 0) ->
  (secs2 = false -> second tod = 0) ->
  Forall (fun c => py_isspace c = true) ws1 ->
  Forall (fun c => py_isspace c = true) ws2 ->
  get ev "time"
  = write_stamp secs1 start ++ ws1 ++ txt "-" ++ ws2 ++ write_time secs2 tod ->
  classify_event ev = Ok ([], [Ranged start (on_date start tod) ev]).
Proof.
  intros Hv Hve Hs1 Hs2 Hws1 Hws2 Ht.
  destruct (format_stamp_digits start Hv)
    as (y1 & y2 & y3 & y4 & o1 & o2 & d1 & d2 & h1 & h2 & m1 & m2 & s1 & s2
        & E19 & E16 & Hdig & Hd).
  destruct (valid_ranges _ Hve) as (_ & _ & _ & Rh & Rm & Rs).
  cbn [on_date hour minute second] in Rh, Rm, Rs.
  destruct (pad2_digits _ Rh) as (e1 & e2 & Eh & Fe1 & Fe2 & Nh).
  destruct (pad2_digits _ Rm) as (f1 & f2 & Em & Ff1 & Ff2 & Nm).
  destruct (pad2_digits _ Rs) as (g1 & g2 & Es & Fg1 & Fg2 & Ns).
  pose proof Hdig as Hdig'. repeat (apply Forall_cons_1 in Hdig' as [? Hdig']).
  set (so := if secs1 then Some (s1, s2) else None).
  set (eo := if secs2 then Some (g1, g2) else None).
  assert (Hw1 : write_stamp secs1 start
                = stamp16 " " y1 y2 y3 y4 o1 o2 d1 d2 h1 h2 m1 m2 ++ opt_sec so).
  { unfold write_stamp, so. destruct secs1; cbn [opt_sec].
    - exact E19.
    - now rewrite app_nil_r. }
  assert (Hw2 : write_time secs2 tod = time5 e1 e2 f1 f2 ++ opt_sec eo).
  { unfold write_time, format_hms, format_hm, eo. rewrite Eh, Em, Es.
    destruct secs2; cbn [opt_sec]; [reflexivity|now rewrite app_nil_r]. }
  assert (Hso : opt_sec_ok so) by (unfold so; destruct secs1; cbn; auto).
  assert (Heo : opt_sec_ok eo) by (unfold eo; destruct secs2; cbn; auto).
  assert (Hvs : opt_sec_val so = second start).
  { unfold so. destruct secs1; cbn [opt_sec_val].
    - rewrite Hd. reflexivity.
    - symmetry. now apply Hs1. }
  assert (Hve' : opt_sec_val eo = second tod).
  { unfold eo. destruct secs2; cbn [opt_sec_val].
    - exact Ns.
    - symmetry. now apply Hs2. }
  rewrite Hw1, Hw2 in Ht.
  rewrite <- (app_nil_r (time5 e1 e2 f1 f2 ++ opt_sec eo)) in Ht.
  rewrite (classify_event_time_range y1 y2 y3 y4 o1 o2 d1 d2 h1 h2 m1 m2
             e1 e2 f1 f2 so eo ws1 ws2 []);
    try assumption; try reflexivity.
  - rewrite Hvs, Hve', Nh, Nm.
    assert (Hf : year start = num4 y1 y2 y3 y4 /\ month start = num2 o1 o2
                 /\ day start = num2 d1 d2 /\ hour start = num2 h1 h2
                 /\ minute start = num2 m1 m2).
    { rewrite Hd. cbn. repeat split. }
    destruct Hf as (<- & <- & <- & <- & <-).
    fold (on_date start tod).
    replace (DT (year start) (month start) (day start) (hour start)
                (minute start) (second start)) with start by (now destruct start).
    rewrite Hv, Hve. reflexivity.
  - repeat constructor; assumption.
  - repeat constructor; assumption.
Qed.

Lemma range_end_reuses_start_date_witness :
  classify_event (mk_event (txt "2024-01-15 14:00:00 - 14:30:00") (txt "Deploy"))
  = Ok ([], [Ranged (DT 2024 1 15 14 0 0) (DT 2024 1 15 14 30 0)
               (mk_event (txt "2024-01-15 14:00:00 - 14:30:00") (txt "Deploy"))]).
Proof.
  apply (range_end_reuses_start_date (DT 2024 1 15 14 0 0) (DT 1 1 1 14 30 0)
           true true (txt " ") (txt " "));
    try reflexivity; try discriminate.
  - repeat constructor.
  - repeat constructor.
Defined.

(** ** Events whose time does not parse *)

Lemma classify_event_unparseable (e : event) :
  unparseable e -> classify_event e = Ok ([], []).
Proof. intros [Hr Hp]. unfold classify_event. now rewrite Hr, Hp. Qed.

Lemma classify_skip (l1 l2 : list event) (e : event) :
  classify_event e = Ok ([], []) ->
  classify (l1 ++ e :: l2) = classify (l1 ++ l2).
Proof.
  intros He. induction l1 as [|x l1 IH]; cbn [app classify].
  - rewrite He. cbn. destruct (classify l2) as [[ps rs]|ex]; reflexivity.
  - now rewrite IH.
Qed.

(** *** The renderer raises nothing *)

Ltac kept := do 2 eexists; eassumption.

Lemma star_greedy_keeps (p : cset) (k : kont) (cs : caps) (m : mres) (a : text) :
  forall b, star_greedy p b a cs k = Some m -> exists b' a', k b' a' cs = Some m.
Proof.
  induction a as [|c a IH]; intros b H; cbn [star_greedy] in H; [kept|].
  destruct (cset_mem p c); [|kept].
  destruct (star_greedy p (c :: b) a cs k) eqn:Hs; cbn [orelse] in H; [|kept].
  injection H as ->. exact (IH _ Hs).
Qed.

Lemma star_lazy_keeps (p : cset) (k : kont) (cs : caps) (m : mres) (a : text) :
  forall b, star_lazy p b a cs k = Some m -> exists b' a', k b' a' cs = Some m.
Proof.
  induction a as [|c a IH]; intros b H; cbn [star_lazy] in H.
  - destruct (k b [] cs) eqn:Hk; [|discriminate]. injection H as ->. kept.
  - destruct (k b (c :: a) cs) eqn:Hk; [injection H as ->; kept|].
    destruct (cset_mem p c); [exact (IH _ H)|discriminate].
Qed.

Lemma run_group_free (r : regex) :
  group_free r = true ->
  forall b a cs k m, run r b a cs k = Some m -> exists b' a', k b' a' cs = Some m.
Proof.
  induction r as [|p|r1 IH1 r2 IH2|r1 IH1 r2 IH2|p|p|n r IH|ml|ml];
    cbn [group_free]; intros Hg b a cs k m H; cbn [run] in H.
  - kept.
  - destruct a as [|c a]; [discriminate|]. destruct (cset_mem p c); [kept|discriminate].
  - apply andb_prop in Hg as [Hg1 Hg2].
    apply (IH1 Hg1) in H as (b1 & a1 & H). now apply (IH2 Hg2) in H.
  - apply andb_prop in Hg as [Hg1 Hg2].
    destruct (run r1 b a cs k) eqn:H1; cbn [orelse] in H.
    + injection H as ->. now apply (IH1 Hg1) in H1.
    + now apply (IH2 Hg2) in H.
  - now apply star_greedy_keeps in H.
  - now apply star_lazy_keeps in H.
  - discriminate.
  - destruct (at_bol ml b); [kept|discriminate].
  - destruct (at_eol ml a); [kept|discriminate].
Qed.

Lemma run_seq_group_free (r1 r2 : regex) (b a : text) (cs : caps) (k : kont)
    (m : mres) :
  group_free r1 = true ->
  run (Seq r1 r2) b a cs k = Some m ->
  exists b' a', run r2 b' a' cs k = Some m.
Proof. intros Hg H. exact (run_group_free r1 Hg _ _ _ _ _ H). Qed.

(** What follows the first group of the range pattern binds group 2 on top
    of the captures it is given. *)
Lemma range_tail_caps (b a : text) (cs : caps) (m : mres) :
  run (Seqs [Star CSpace; Cls (CChar "-"); Star CSpace;
             Group 2 (Alt (HHMM_SS CDigit) (STAMP (CChar " ")))]) b a cs accept
  = Some m ->
  exists x, m_caps m = (2%nat, x) :: cs.
Proof.
  intros H. cbn [Seqs] in H.
  apply run_seq_group_free in H as (b1 & a1 & H); [|reflexivity].
  apply run_seq_group_free in H as (b2 & a2 & H); [|reflexivity].
  apply run_seq_group_free in H as (b3 & a3 & H); [|reflexivity].
  change (run (Alt (HHMM_SS CDigit) (STAMP (CChar " "))) b3 a3 cs
            (fun b' a' cs' => accept b' a' ((2%nat, consumed a3 a') :: cs'))
          = Some m) in H.
  apply run_group_free in H as (b4 & a4 & H); [|reflexivity].
  injection H as <-. eauto.
Qed.

(** Group 1 of a match of the range pattern is a written timestamp. *)
Lemma range_match_start (s : text) (m : mres) :
  rmatch RANGE_RE s = Some m ->
  exists y1 y2 y3 y4 o1 o2 d1 d2 h1 h2 m1 m2 o,
    Forall (fun c => py_isdigit c = true)
           [y1; y2; y3; y4; o1; o2; d1; d2; h1; h2; m1; m2]
    /\ opt_sec_ok o
    /\ group 1 (m_caps m)
       = stamp16 " " y1 y2 y3 y4 o1 o2 d1 d2 h1 h2 m1 m2 ++ opt_sec o.
Proof.
  intros H. unfold rmatch, match_at, RANGE_RE in H.
  change (run (STAMP (CChar " ")) [] s []
            (fun b' a' cs' =>
               run (Seqs [Star CSpace; Cls (CChar "-"); Star CSpace;
                          Group 2 (Alt (HHMM_SS CDigit) (STAMP (CChar " ")))])
                   b' a' ((1%nat, consumed s a') :: cs') accept) = Some m) in H.
  unfold STAMP in H. pose proof H as H'.
  apply run_stamp_inv in H' as
      (sp & y1 & y2 & y3 & y4 & o1 & o2 & d1 & d2 & h1 & h2 & m1 & m2 & a
       & -> & Hsep & Hdig); [|reflexivity].
  cbn [cset_mem] in Hsep. apply Ascii.eqb_eq in Hsep. subst sp.
  rewrite run_stamp in H by (try reflexivity; assumption).
  exists y1, y2, y3, y4, o1, o2, d1, d2, h1, h2, m1, m2.
  set (s16 := stamp16 " " y1 y2 y3 y4 o1 o2 d1 d2 h1 h2 m1 m2) in *.
  assert (Hshort : forall b',
             run (Seqs [Star CSpace; Cls (CChar "-"); Star CSpace;
                        Group 2 (Alt (HHMM_SS CDigit) (STAMP (CChar " ")))])
                 b' a [(1%nat, consumed (s16 ++ a) a)] accept = Some m ->
             group 1 (m_caps m) = s16 ++ opt_sec None).
  { intros b' Hk. apply range_tail_caps in Hk as [x ->].
    cbn [group Nat.eqb opt_sec]. now rewrite consumed_app, app_nil_r. }
  destruct (no_seconds_ahead a) eqn:Ha.
  - rewrite run_seconds_absent in H by (try reflexivity; assumption).
    cbn [orelse] in H. exists None. split; [exact Hdig|]. split; [exact I|].
    now apply Hshort in H.
  - apply seconds_ahead in Ha as (s1 & s2 & a' & -> & H1 & H2).
    rewrite run_seconds_present in H by (try reflexivity; assumption).
    match type of H with orelse ?x _ = _ => destruct x as [m'|] eqn:Hlong end;
      cbn [orelse] in H.
    + injection H as ->. exists (Some (s1, s2)).
      split; [exact Hdig|]. split; [now split|].
      apply range_tail_caps in Hlong as [x ->].
      cbn [group Nat.eqb opt_sec]. now rewrite app_assoc, consumed_app.
    + exists None. split; [exact Hdig|]. split; [exact I|].
      now apply Hshort in H.
Qed.

Lemma classify_event_returns (ev : event) :
  exists lists, classify_event ev = Ok lists.
Proof.
  unfold classify_event.
  destruct (rmatch RANGE_RE (get ev "time")) as [m|] eqn:Hm.
  - apply range_match_start in Hm as
        (y1 & y2 & y3 & y4 & o1 & o2 & d1 & d2 & h1 & h2 & m1 & m2 & o
         & Hdig & Ho & ->).
    rewrite split_ws_written by assumption. cbn [item0].
    destruct (rmatch BARE_TIME_RE (group 2 (m_caps m))); cbn;
      destruct (parse_time _); try destruct (parse_time _); eauto.
  - destruct (parse_time _); eauto.
Qed.

Lemma classify_returns (timeline_events : list event) :
  exists lists, classify timeline_events = Ok lists.
Proof.
  induction timeline_events as [|ev rest [later IH]]; cbn [classify]; [eauto|].
  destruct (classify_event_returns ev) as [here ->]. rewrite IH. cbn. eauto.
Qed.

Lemma render_range_returns (start_time : datetime) (duration : Z) (r : range_event) :
  exists part, render_range start_time duration r = Ok part.
Proof.
  unfold render_range. destruct (Z.ltb_spec 0 duration) as [H|H].
  - rewrite !percent_positive by exact H. cbn. eauto.
  - cbn. eauto.
Qed.

Lemma mapM_returns {A B} (f : A -> res B) (l : list A) :
  (forall x, exists y, f x = Ok y) -> exists ys, mapM f l = Ok ys.
Proof.
  intros Hf. induction l as [|x l [ys IH]]; cbn [mapM]; [cbn; eauto|].
  destruct (Hf x) as [y ->]. cbn. rewrite IH. cbn. eauto.
Qed.

Lemma draw_returns (parsed_events : list parsed_event)
    (range_events : list range_event) :
  exists o, draw parsed_events range_events = Ok o.
Proof.
  unfold draw.
  set (all_times := (pe_dt <$> parsed_events) ++ (re_start <$> range_events)
                    ++ (re_end <$> range_events)).
  assert (Hne : parsed_events = [] /\ range_events = [] \/ all_times <> []).
  { destruct parsed_events; [|now right]. destruct range_events; [now left|now right]. }
  destruct Hne as [[-> ->]|Hne]; [eauto|].
  assert (exists o, (start_time ← dt_min all_times;
                     end_time ← dt_max all_times;
                     let duration := diff end_time start_time in
                     bars ← mapM (render_range start_time duration) range_events;
                     dots ← mapM (render_point start_time duration) parsed_events;
                     Ok (Chart (bars ++ dots))) = Ok o) as [o Ho].
  { destruct all_times as [|d ds]; [congruence|]. cbn [dt_min dt_max]. cbn.
    match goal with
    | |- context [mapM (render_range ?s ?d) _] =>
        destruct (mapM_returns (render_range s d) range_events
                    (render_range_returns s d)) as [bars ->];
        destruct (mapM_returns (render_point s d) parsed_events
                    (fun e => ex_intro _ _ (render_dot_total s d (pe_dt e, pe_data e))))
          as [dots ->]
    end.
    cbn. eauto. }
  exists o. destruct parsed_events as [|p ps]; [|exact Ho].
  destruct range_events as [|r rs]; [now elim Hne|exact Ho].
Qed.

Lemma render_timeline_with_events_returns (timeline_events : list event) :
  exists o, render_timeline_with_events timeline_events = Ok o.
Proof.
  unfold render_timeline_with_events.
  destruct (length timeline_events <? 2)%nat; [eauto|].
  destruct (classify_returns timeline_events) as [lists ->]. cbn.
  apply draw_returns.
Qed.

(** C9.  An event whose time matches neither grammar adds nothing to
    [parsed_events] or [range_events]; the two lists, and with them the
    bounds of the axis and the marks drawn, are those of the other events,
    and the renderer returns without raising. *)
Theorem unparseable_event_is_dropped (l1 l2 : list event) (e : event) :
  unparseable e ->
  classify_event e = Ok ([], [])
  /\ classify (l1 ++ e :: l2) = classify (l1 ++ l2)
  /\ render_timeline_with_events (l1 ++ e :: l2)
     = (if (length (l1 ++ e :: l2) <? 2)%nat
        then Ok (Info "No significant timeline events found for charting.")
        else lists ← classify (l1 ++ l2); draw lists.1 lists.2)
  /\ exists o, render_timeline_with_events (l1 ++ e :: l2) = Ok o.
Proof.
  intros Hu. pose proof (classify_event_unparseable e Hu) as He.
  split; [exact He|]. split; [now apply classify_skip|].
  split; [|apply render_timeline_with_events_returns].
  unfold render_timeline_with_events. now rewrite classify_skip.
Qed.

Lemma unparseable_event_witness :
  let e := mk_event (txt "shortly after the deploy") (txt "B") in
  let l1 := [mk_event (txt "2024-01-15 14:05:00") (txt "A")] in
  let l2 := [mk_event (txt "2024-01-15 14:00 - 14:30") (txt "C")] in
  classify_event e = Ok ([], [])
  /\ classify (l1 ++ e :: l2) = classify (l1 ++ l2)
  /\ render_timeline_with_events (l1 ++ e :: l2)
     = (if (length (l1 ++ e :: l2) <? 2)%nat
        then Ok (Info "No significant timeline events found for charting.")
        else lists ← classify (l1 ++ l2); draw lists.1 lists.2)
  /\ exists o, render_timeline_with_events (l1 ++ e :: l2) = Ok o.
Proof.
  intros e l1 l2. apply unparseable_event_is_dropped.
  split; vm_compute; reflexivity.
Defined.

(** C8.  A valid date and time written as YYYY-MM-DD HH:MM:SS at the start
    of the string is returned field for field, whatever follows it; and
    whatever [parse_time] returns is a valid date and time that is written
    at the very start of the string, with seconds or, for a result on the
    full minute, without. *)
Theorem parse_time_literal_and_anchored :
  (forall (d : datetime) (rest : text),
      valid d = true -> parse_time (format_stamp d ++ rest) = Some d)
  /\ (forall (s : text) (d : datetime),
         parse_time s = Some d ->
         valid d = true
         /\ exists rest,
              s = format_stamp d ++ rest
              \/ (second d = 0 /\ s = format_stamp_minutes d ++ rest)).
Proof.
  split.
  - intros d rest Hv. now apply parse_time_format_stamp.
  - intros s d H. now apply parse_time_inv.
Qed.

Lemma parse_time_literal_witness :
  parse_time (txt "2024-01-15 14:05:00 UTC") = Some (DT 2024 1 15 14 5 0).
Proof.
  apply (proj1 parse_time_literal_and_anchored (DT 2024 1 15 14 5 0) (txt " UTC")).
  reflexivity.
Defined.

(** A timestamp that only appears later in the string gives no point. *)
Example parse_time_mid_string :
  parse_time (txt "at 2024-01-15 14:05:00") = None.
Proof. vm_compute. reflexivity. Qed.

(** ** Shapes: sequences of one-character classes *)

Lemma run_shape (sh : list cset) (k : kont) (cs : caps) :
  forall b a,
    run (Shape sh) b a cs k
    = match split_shape sh a with
      | Some (x, r) => k (rev x ++ b) r cs
      | None => None
      end.
Proof.
  induction sh as [|p sh IH]; intros b a; [reflexivity|].
  unfold Shape. cbn [fmap list_fmap Seqs run split_shape].
  destruct a as [|c a]; [reflexivity|].
  destruct (cset_mem p c); [|reflexivity].
  fold (Shape sh). rewrite IH.
  destruct (split_shape sh a) as [[x r]|]; [|reflexivity].
  cbn [rev]. now rewrite <- app_assoc.
Qed.

Lemma split_shape_app (sh : list cset) (a x r : text) :
  split_shape sh a = Some (x, r) -> a = x ++ r.
Proof.
  revert a x r. induction sh as [|p sh IH]; intros a x r H.
  - cbn in H. now injection H as <- <-.
  - destruct a as [|c a]; [discriminate H|]. cbn [split_shape] in H.
    destruct (cset_mem p c); [|discriminate H].
    destruct (split_shape sh a) as [[x' r']|] eqn:E; [|discriminate H].
    injection H as <- <-. cbn [app]. f_equal. now apply IH.
Qed.

Lemma split_shape_line (sh : list cset) (tail : text) :
  Forall (fun p => cset_mem p NL = false) sh ->
  line_end tail = true ->
  forall l,
    split_shape sh (l ++ tail)
    = match split_shape sh l with
      | Some (x, r) => Some (x, r ++ tail)
      | None => None
      end.
Proof.
  intros Hsh Ht. induction sh as [|p sh IH]; intros l; [reflexivity|].
  apply Forall_cons_1 in Hsh as [Hp Hsh].
  destruct l as [|c l].
  - cbn [app split_shape]. destruct tail as [|c tail]; [reflexivity|].
    cbn [line_end] in Ht. apply Ascii.eqb_eq in Ht as ->. now rewrite Hp.
  - cbn [app split_shape]. destruct (cset_mem p c); [|reflexivity].
    rewrite (IH Hsh). now destruct (split_shape sh l) as [[x r]|].
Qed.

(** ** Reading one line of the timeline section *)

Lemma try_readings_app rs1 rs2 f :
  try_readings (rs1 ++ rs2) f = orelse (try_readings rs1 f) (try_readings rs2 f).
Proof.
  induction rs1 as [|[st after] rs1 IH]; [reflexivity|].
  cbn [app try_readings]. rewrite IH. now destruct (f st after).
Qed.

Lemma try_readings_put_front p rs f :
  try_readings (put_front p <$> rs) f
  = try_readings rs (fun st after => f (p ++ st) after).
Proof.
  induction rs as [|[st after] rs IH]; [reflexivity|].
  cbn [fmap list_fmap try_readings put_front fst snd]. fold (fmap (put_front p) rs).
  now rewrite IH.
Qed.

Lemma orelse_none {A} (x : option A) : orelse x None = x.
Proof. now destruct x. Qed.

(** The optional range of the pattern enumerates [range_readings]. *)
Lemma run_range_readings (b x : text) (cs : caps) (k : kont) :
  run (Opt (Seq (Cls (CChar "-")) (HHMM_SS D09))) b x cs k
  = try_readings (range_readings x) (fun st after => k (rev st ++ b) after cs).
Proof.
  change (run (Opt (Seq (Cls (CChar "-")) (HHMM_SS D09))) b x cs k)
    with (orelse
            (run (Shape DASH_TIME_SHAPE) b x cs
               (fun b1 a1 cs1 =>
                  orelse (run (Shape SECONDS_SHAPE) b1 a1 cs1 k) (k b1 a1 cs1)))
            (k b x cs)).
  unfold range_readings. rewrite run_shape, try_readings_app.
  cbn [try_readings rev app]. rewrite orelse_none. f_equal.
  destruct (split_shape DASH_TIME_SHAPE x) as [[r y1]|]; [|reflexivity].
  rewrite run_shape, try_readings_app. cbn [try_readings]. rewrite orelse_none.
  f_equal.
  destruct (split_shape SECONDS_SHAPE y1) as [[s y2]|]; [|reflexivity].
  cbn [try_readings]. now rewrite orelse_none, rev_app_distr, <- app_assoc.
Qed.

Lemma try_readings_ext rs f g :
  (forall st after, f st after = g st after) ->
  try_readings rs f = try_readings rs g.
Proof.
  intros H. induction rs as [|[st after] rs IH]; [reflexivity|].
  cbn [try_readings]. now rewrite H, IH.
Qed.

(** The time part of the pattern enumerates [readings]. *)
Lemma run_readings (b l : text) (cs : caps) (k : kont) :
  run EVENT_TIME_RE b l cs k
  = try_readings (readings l) (fun st after => k (rev st ++ b) after cs).
Proof.
  set (K := fun b2 a2 cs2 =>
              run (Opt (Seq (Cls (CChar "-")) (HHMM_SS D09))) b2 a2 cs2 k).
  change (run EVENT_TIME_RE b l cs k)
    with (run (Shape STAMP_SHAPE) b l cs
            (fun b1 a1 cs1 =>
               orelse (run (Shape SECONDS_SHAPE) b1 a1 cs1 K) (K b1 a1 cs1))).
  unfold readings. rewrite run_shape.
  destruct (split_shape STAMP_SHAPE l) as [[s a]|]; [|reflexivity].
  rewrite try_readings_app, run_shape. f_equal.
  - destruct (split_shape SECONDS_SHAPE a) as [[sec a1]|]; [|reflexivity].
    unfold K. rewrite run_range_readings, try_readings_put_front.
    apply try_readings_ext. intros st after.
    now rewrite !rev_app_distr, <- !app_assoc.
  - unfold K. rewrite run_range_readings, try_readings_put_front.
    apply try_readings_ext. intros st after.
    now rewrite !rev_app_distr, <- !app_assoc.
Qed.

Lemma shapes_reject_nl :
  Forall (fun p => cset_mem p NL = false) STAMP_SHAPE
  /\ Forall (fun p => cset_mem p NL = false) SECONDS_SHAPE
  /\ Forall (fun p => cset_mem p NL = false) DASH_TIME_SHAPE.
Proof. repeat split; repeat constructor. Qed.

Lemma range_readings_line (tail x : text) :
  line_end tail = true ->
  range_readings (x ++ tail) = add_tail tail <$> range_readings x.
Proof.
  intros Ht. destruct shapes_reject_nl as (_ & Hs & Hd).
  unfold range_readings.
  rewrite (split_shape_line _ _ Hd Ht).
  destruct (split_shape DASH_TIME_SHAPE x) as [[r y1]|]; [|reflexivity].
  rewrite (split_shape_line _ _ Hs Ht).
  destruct (split_shape SECONDS_SHAPE y1) as [[s y2]|]; reflexivity.
Qed.

Lemma add_tail_put_front (tail p : text) (rs : list (text * text)) :
  add_tail tail <$> (put_front p <$> rs) = put_front p <$> (add_tail tail <$> rs).
Proof.
  rewrite <- !list_fmap_compose. apply list_fmap_ext. now intros _ [st after] _.
Qed.

Lemma readings_line (tail l : text) :
  line_end tail = true ->
  readings (l ++ tail) = add_tail tail <$> readings l.
Proof.
  intros Ht. destruct shapes_reject_nl as (Hst & Hs & _).
  unfold readings. rewrite (split_shape_line _ _ Hst Ht).
  destruct (split_shape STAMP_SHAPE l) as [[s a]|]; [|reflexivity].
  rewrite (split_shape_line _ _ Hs Ht), fmap_app, !add_tail_put_front.
  rewrite (range_readings_line tail a Ht).
  destruct (split_shape SECONDS_SHAPE a) as [[sec a1]|]; [|reflexivity].
  now rewrite add_tail_put_front, (range_readings_line tail a1 Ht).
Qed.

Lemma range_readings_sound (x st after : text) :
  (st, after) ∈ range_readings x -> x = st ++ after.
Proof.
  unfold range_readings. intros H.
  apply elem_of_app in H as [H|H].
  - destruct (split_shape DASH_TIME_SHAPE x) as [[r y1]|] eqn:E1;
      [|now apply elem_of_nil in H].
    apply split_shape_app in E1 as ->.
    apply elem_of_app in H as [H|H].
    + destruct (split_shape SECONDS_SHAPE y1) as [[s y2]|] eqn:E2;
        [|now apply elem_of_nil in H].
      apply split_shape_app in E2 as ->.
      apply list_elem_of_singleton in H. injection H as -> ->.
      now rewrite <- app_assoc.
    + apply list_elem_of_singleton in H. now injection H as -> ->.
  - apply list_elem_of_singleton in H. now injection H as -> ->.
Qed.

Lemma readings_sound (l st after : text) :
  (st, after) ∈ readings l -> l = st ++ after.
Proof.
  unfold readings. intros H.
  destruct (split_shape STAMP_SHAPE l) as [[s a]|] eqn:E1;
    [|now apply elem_of_nil in H].
  apply split_shape_app in E1 as ->.
  apply elem_of_app in H as [H|H].
  - destruct (split_shape SECONDS_SHAPE a) as [[sec a1]|] eqn:E2;
      [|now apply elem_of_nil in H].
    apply split_shape_app in E2 as ->.
    apply list_elem_of_fmap in H as ([st' after'] & Heq & Hin).
    injection Heq as -> ->. apply range_readings_sound in Hin as ->.
    cbn [fst snd]. now rewrite <- !app_assoc.
  - apply list_elem_of_fmap in H as ([st' after'] & Heq & Hin).
    injection Heq as -> ->. apply range_readings_sound in Hin as ->.
    cbn [fst snd]. now rewrite <- !app_assoc.
Qed.

(** ** White space at the ends *)

Lemma lstrip_split (s : text) :
  exists ws, s = ws ++ lstrip s /\ Forall (fun c => py_isspace c = true) ws.
Proof.
  induction s as [|c s (ws & IH & Hws)]; [now exists []|].
  cbn [lstrip]. destruct (py_isspace c) eqn:Hc.
  - exists (c :: ws). split; [cbn; now f_equal|now constructor].
  - now exists [].
Qed.

Lemma lstrip_head (s : text) :
  match lstrip s with
  | c :: _ => py_isspace c = false
  | [] => True
  end.
Proof.
  induction s as [|c s IH]; [exact I|].
  cbn [lstrip]. destruct (py_isspace c) eqn:Hc; [exact IH|exact Hc].
Qed.

Lemma lstrip_fixed (s : text) :
  match s with c :: _ => py_isspace c = false | [] => True end -> lstrip s = s.
Proof. destruct s as [|c s]; [reflexivity|]. cbn. now intros ->. Qed.

Lemma lstrip_lstrip (s : text) : lstrip (lstrip s) = lstrip s.
Proof. apply lstrip_fixed, lstrip_head. Qed.

Lemma strip_lstrip (s : text) : strip (lstrip s) = strip s.
Proof. unfold strip. now rewrite lstrip_lstrip. Qed.

(** ** The rest of an event line: colon, white space, text, end of line *)

Lemma event_text_needs_colon (b z : text) (cs : caps) :
  match z with c :: _ => Ascii.eqb c ":" = false | [] => True end ->
  run EVENT_TEXT_RE b z cs accept = None.
Proof.
  intros H. unfold EVENT_TEXT_RE. cbn [Seqs run cset_mem].
  destruct z as [|c z]; [reflexivity|]. now rewrite H.
Qed.

Lemma line_end_stops (tail : text) : line_end tail = true -> stops CNotNL tail = true.
Proof.
  destruct tail as [|c tail]; [reflexivity|]. cbn. intros ->. reflexivity.
Qed.

Lemma event_text_match (b tx tail : text) (cs : caps) :
  NL ∉ tx -> lstrip tx <> [] -> line_end tail = true ->
  run EVENT_TEXT_RE b (":"%char :: tx ++ tail) cs accept
  = Some (MRes (rev tx ++ ":"%char :: b) tail ((2%nat, lstrip tx) :: cs)).
Proof.
  intros Hnl Hne Ht. unfold EVENT_TEXT_RE.
  cbn [Seqs run cset_mem Ascii.eqb Bool.eqb].
  destruct (lstrip_split tx) as (ws & Htx & Hws).
  pose proof (lstrip_head tx) as Hhd.
  set (body := lstrip tx) in *.
  assert (Hbody : Forall (fun c => cset_mem CNotNL c = true) body).
  { apply Forall_forall. intros c Hc. cbn.
    destruct (Ascii.eqb_spec c NL) as [->|]; [|reflexivity].
    exfalso. apply Hnl. rewrite Htx. apply elem_of_app. now right. }
  rewrite Htx at 1. rewrite <- app_assoc.
  apply star_greedy_run; [exact Hws| |].
  { destruct body as [|c body]; [contradiction|]. cbn. now rewrite Hhd. }
  apply star_greedy_run; [exact Hbody|now apply line_end_stops|].
  assert (He : at_eol true tail = true).
  { destruct tail as [|c tail]; [reflexivity|]. cbn in *. now rewrite Ht. }
  rewrite He, consumed_app. unfold accept. do 2 f_equal.
  rewrite Htx at 1. now rewrite rev_app_distr, <- app_assoc.
Qed.

(** ** The event-line pattern at the start of a line *)

Lemma match_event_line_unfold (b a : text) :
  match_at EVENT_LINE_RE b a
  = if at_bol true b
    then run EVENT_TIME_RE b a []
           (fun b' a' cs' =>
              run EVENT_TEXT_RE b' a' ((1%nat, consumed a a') :: cs') accept)
    else None.
Proof. reflexivity. Qed.

Lemma try_readings_line (l tail b : text) (rs : list (text * text)) :
  NL ∉ l -> line_end tail = true ->
  (forall st after, (st, after) ∈ rs -> l = st ++ after) ->
  (forall st tx, first_with_colon rs = Some (st, tx) -> lstrip tx <> []) ->
  try_readings (add_tail tail <$> rs)
    (fun st after =>
       run EVENT_TEXT_RE (rev st ++ b) after
         [(1%nat, consumed (l ++ tail) after)] accept)
  = match first_with_colon rs with
    | Some (st, tx) => Some (MRes (rev l ++ b) tail [(2%nat, lstrip tx); (1%nat, st)])
    | None => None
    end.
Proof.
  intros Hnl Ht. induction rs as [|[st after] rs IH]; intros Hsound Hne;
    [reflexivity|].
  cbn [fmap list_fmap try_readings add_tail fst snd first_with_colon].
  fold (fmap (add_tail tail) rs).
  assert (Hl : l = st ++ after) by (apply Hsound; apply list_elem_of_here).
  assert (Hrs : forall st' after', (st', after') ∈ rs -> l = st' ++ after')
    by (intros; apply Hsound; now apply list_elem_of_further).
  destruct after as [|c tx].
  - rewrite event_text_needs_colon.
    + cbn [orelse]. apply IH; [exact Hrs|exact Hne].
    + cbn [app]. destruct tail as [|c tail]; [exact I|].
      cbn in Ht. apply Ascii.eqb_eq in Ht as ->. reflexivity.
  - cbn [app]. destruct (Ascii.eqb_spec c ":") as [->|Hc].
    + cbn [first_with_colon] in Hne. rewrite Ascii.eqb_refl in Hne.
      rewrite event_text_match; [| |now apply (Hne st)|exact Ht].
      * cbn [orelse]. do 2 f_equal.
        -- rewrite Hl, rev_app_distr. cbn [rev]. now rewrite <- !app_assoc.
        -- rewrite Hl, <- app_assoc. cbn [app]. now rewrite consumed_app.
      * intros Hin. apply Hnl. rewrite Hl. apply elem_of_app. right.
        now apply list_elem_of_further.
    + rewrite event_text_needs_colon
        by (now apply Ascii.eqb_neq).
      cbn [orelse]. apply IH; [exact Hrs|].
      intros st' tx' H. apply (Hne st'). cbn [first_with_colon].
      apply Ascii.eqb_neq in Hc. now rewrite Hc.
Qed.

Lemma match_event_line (l tail b : text) :
  at_bol true b = true -> NL ∉ l -> line_end tail = true -> text_not_blank l ->
  match_at EVENT_LINE_RE b (l ++ tail)
  = match read_line l with
    | Some (st, tx) => Some (MRes (rev l ++ b) tail [(2%nat, lstrip tx); (1%nat, st)])
    | None => None
    end.
Proof.
  intros Hb Hnl Ht Hne.
  rewrite match_event_line_unfold, Hb, run_readings, (readings_line tail l Ht).
  apply try_readings_line; try assumption.
  intros st after. apply readings_sound.
Qed.

(** ** Scanning the section line by line *)

Lemma match_event_line_not_bol (b a : text) :
  at_bol true b = false -> match_at EVENT_LINE_RE b a = None.
Proof. intros H. now rewrite match_event_line_unfold, H. Qed.

Lemma findall_scan_skip (r : regex) (x tail : text) :
  forall b,
    findall_scan r (length x) b (x ++ tail) = findall_scan r 0 (rev x ++ b) tail.
Proof.
  induction x as [|c x IH]; intros b; [reflexivity|].
  cbn [length app findall_scan rev]. rewrite IH. now rewrite <- app_assoc.
Qed.

Lemma not_bol_inside (x : text) :
  forall c b, NL ∉ x -> c <> NL -> at_bol true (rev x ++ c :: b) = false.
Proof.
  induction x as [|y x IH]; intros c b Hx Hc.
  - cbn. now apply Ascii.eqb_neq.
  - cbn [rev]. rewrite <- app_assoc. cbn [app]. apply IH.
    + intros H. apply Hx. now apply list_elem_of_further.
    + intros ->. apply Hx. apply list_elem_of_here.
Qed.

Lemma findall_scan_inside (x tail : text) :
  forall c b,
    NL ∉ x -> c <> NL ->
    findall_scan EVENT_LINE_RE 0 (c :: b) (x ++ tail)
    = findall_scan EVENT_LINE_RE 0 (rev x ++ c :: b) tail.
Proof.
  induction x as [|y x IH]; intros c b Hx Hc; [reflexivity|].
  cbn [app findall_scan].
  rewrite match_event_line_not_bol by (cbn; now apply Ascii.eqb_neq).
  rewrite IH.
  - cbn [rev]. now rewrite <- app_assoc.
  - intros H. apply Hx. now apply list_elem_of_further.
  - intros ->. apply Hx. apply list_elem_of_here.
Qed.

Lemma findall_scan_line_end (b tail : text) :
  at_bol true b = false ->
  findall_scan EVENT_LINE_RE 0 b tail = scan_on b tail.
Proof.
  intros Hb. destruct tail as [|c rest]; cbn [findall_scan scan_on];
    now rewrite match_event_line_not_bol.
Qed.

Lemma read_line_nil : read_line [] = None.
Proof. reflexivity. Qed.

Lemma findall_scan_line (l tail b : text) :
  at_bol true b = true -> NL ∉ l -> line_end tail = true -> text_not_blank l ->
  findall_scan EVENT_LINE_RE 0 b (l ++ tail)
  = line_caps l ++ scan_on (rev l ++ b) tail.
Proof.
  intros Hb Hnl Ht Hne.
  pose proof (match_event_line l tail b Hb Hnl Ht Hne) as Hm.
  destruct l as [|c l].
  - cbn [app rev] in *. unfold line_caps. rewrite read_line_nil in *.
    destruct tail as [|c rest]; cbn [findall_scan scan_on app]; now rewrite Hm.
  - assert (Hc : c <> NL) by (intros ->; apply Hnl; apply list_elem_of_here).
    assert (Hl : NL ∉ l) by (intros H; apply Hnl; now apply list_elem_of_further).
    assert (Hend : at_bol true (rev (c :: l) ++ b) = false).
    { cbn [rev]. rewrite <- app_assoc. now apply not_bol_inside. }
    cbn [app findall_scan]. cbn [app] in Hm. rewrite Hm. unfold line_caps.
    destruct (read_line (c :: l)) as [[st tx]|].
    + cbn [m_caps m_after app]. f_equal.
      replace (pred (length (c :: l ++ tail) - length tail)) with (length l)
        by (cbn [length]; rewrite length_app; lia).
      rewrite findall_scan_skip.
      replace (rev l ++ c :: b) with (rev (c :: l) ++ b)
        by (cbn [rev]; now rewrite <- app_assoc).
      now apply findall_scan_line_end.
    + rewrite findall_scan_inside by assumption.
      replace (rev l ++ c :: b) with (rev (c :: l) ++ b)
        by (cbn [rev]; now rewrite <- app_assoc).
      now apply findall_scan_line_end.
Qed.

Lemma findall_scan_lines (ls : list text) :
  forall b,
    at_bol true b = true ->
    Forall (fun l => NL ∉ l) ls -> Forall text_not_blank ls ->
    findall_scan EVENT_LINE_RE 0 b (join_lines ls) = concat (line_caps <$> ls).
Proof.
  induction ls as [|l ls IH]; intros b Hb Hnl Hne.
  - cbn [join_lines findall_scan fmap list_fmap concat].
    pose proof (match_event_line [] [] b Hb) as Hm. cbn [app] in Hm.
    rewrite Hm; [reflexivity| |reflexivity|].
    + apply not_elem_of_nil.
    + intros st tx H. discriminate H.
  - apply Forall_cons_1 in Hnl as [Hl Hnl]. apply Forall_cons_1 in Hne as [Hel Hne].
    cbn [fmap list_fmap concat]. fold (fmap line_caps ls).
    destruct ls as [|l2 ls].
    + cbn [join_lines fmap list_fmap concat]. rewrite app_nil_r.
      rewrite <- (app_nil_r l) at 1.
      rewrite findall_scan_line by (try assumption; reflexivity).
      cbn [scan_on]. now rewrite app_nil_r.
    + change (join_lines (l :: l2 :: ls)) with (l ++ NL :: join_lines (l2 :: ls)).
      rewrite findall_scan_line by (try assumption; reflexivity).
      cbn [scan_on]. f_equal. now apply IH.
Qed.

(** C7, as the code has it.  The events of a section are those of its lines,
    taken one by one: a line that begins with YYYY-MM-DD HH:MM, optional
    seconds and an optional dash with a time of day HH:MM[:SS], followed by a
    colon, gives the event whose time is the longest such reading and whose
    text is what follows the colon, stripped; every other line gives
    nothing.  The free text of the event lines is taken not to be blank. *)
Theorem section_events_lines (ls : list text) :
  Forall (fun l => NL ∉ l) ls -> Forall text_not_blank ls ->
  section_events (join_lines ls) = omap line_event ls.
Proof.
  intros Hnl Hne. unfold section_events, findall.
  rewrite findall_scan_lines by (try assumption; reflexivity).
  clear Hnl Hne. induction ls as [|l ls IH]; [reflexivity|].
  cbn [fmap list_fmap concat omap list_omap]. fold (fmap line_caps ls).
  rewrite map_app, IH. unfold line_caps, line_event.
  destruct (read_line l) as [[st tx]|]; [|reflexivity].
  cbn [map app group Nat.eqb]. now rewrite strip_lstrip.
Qed.

Example line_event_seconds :
  line_event (txt "2024-01-15 14:05:00:  auth-service high memory ")
  = Some (mk_event (txt "2024-01-15 14:05:00") (txt "auth-service high memory")).
Proof. vm_compute. reflexivity. Qed.

Example line_event_range :
  line_event (txt "2024-01-15 16:30-17:15: Outage")
  = Some (mk_event (txt "2024-01-15 16:30-17:15") (txt "Outage")).
Proof. vm_compute. reflexivity. Qed.

Example line_event_bullet :
  line_event (txt "- **2024-01-15 14:05:00:** auth-service reports high memory")
  = None.
Proof. vm_compute. reflexivity. Qed.

Example line_event_full_range :
  line_event (txt "2024-01-15 16:30-2024-01-15 17:15: Outage") = None.
Proof. vm_compute. reflexivity. Qed.

Lemma section_events_lines_witness :
  section_events (join_lines sample_section) = omap line_event sample_section.
Proof.
  apply section_events_lines.
  - repeat constructor; vm_compute; intros H;
      repeat (apply elem_of_cons in H as [H|H]; [discriminate H|]);
      now apply elem_of_nil in H.
  - repeat constructor; intros st tx H; vm_compute in H;
      try discriminate H; injection H as <- <-; discriminate.
Defined.

Example sample_section_events :
  section_events (join_lines sample_section)
  = [mk_event (txt "2024-01-15 14:05:00") (txt "auth-service high memory");
     mk_event (txt "2024-01-15 14:10-14:20") (txt "restart");
     mk_event (txt "2024-01-15 14:30") (txt "recovered")].
Proof. vm_compute. reflexivity. Qed.

(** The claim of C7 as stated fails on a line whose range ends in a second
    full timestamp: the line gives no event. *)
Lemma full_timestamp_range_line_is_ignored :
  section_events (txt "2024-01-15 16:30-2024-01-15 17:15: Outage") = []
  /\ section_events (txt "2024-01-15 16:30-2024-01-15 17:15: Outage")
     <> [mk_event (txt "2024-01-15 16:30-2024-01-15 17:15") (txt "Outage")].
Proof. split; [vm_compute; reflexivity | vm_compute; discriminate]. Qed.

(** An event line with blank text takes the next line as its text. *)
Example blank_text_takes_next_line :
  section_events (q "2024-01-15 14:05:00:|2024-01-15 14:06:00: b")
  = [mk_event (txt "2024-01-15 14:05:00") (txt "2024-01-15 14:06:00: b")].
Proof. vm_compute. reflexivity. Qed.

(** ** Sentinel markers *)

Lemma run_lit_no_prefix (p : text) (k : kont) (cs : caps) :
  forall b a, is_prefix p a = false -> run (Lit p) b a cs k = None.
Proof.
  induction p as [|c p IH]; intros b a H; [discriminate H|].
  cbn [Lit run cset_mem]. destruct a as [|d a]; [reflexivity|].
  cbn [is_prefix] in H. rewrite (Ascii.eqb_sym c d) in H.
  destruct (Ascii.eqb d c); [|reflexivity]. now apply IH.
Qed.

(** A pattern that starts with a literal finds nothing in a text that does
    not contain the literal. *)
Section LiteralLed.
Variables (p : text) (r : regex).

Lemma match_at_lit_led (b a : text) :
  is_prefix p a = false -> match_at (Seq (Lit p) r) b a = None.
Proof. intros H. unfold match_at. cbn [run]. now apply run_lit_no_prefix. Qed.

Lemma search_from_lit_led (a : text) :
  forall b, contains p a = false -> search_from (Seq (Lit p) r) b a = None.
Proof.
  induction a as [|c a IH]; intros b H; cbn [contains] in H;
    apply orb_false_elim in H as [H1 H2]; cbn [search_from];
    rewrite match_at_lit_led by exact H1; [reflexivity|now apply IH].
Qed.

Lemma sub_scan_lit_led (a : text) :
  forall b, contains p a = false -> sub_scan (Seq (Lit p) r) 0 b a = a.
Proof.
  induction a as [|c a IH]; intros b H; [reflexivity|].
  cbn [contains] in H. apply orb_false_elim in H as [H1 H2].
  cbn [sub_scan]. rewrite match_at_lit_led by exact H1.
  f_equal. now apply IH.
Qed.
End LiteralLed.

Lemma search_channel_absent (name : string) (t : text) :
  contains (opening name) t = false -> search (channel_re name) t = None.
Proof. intros H. now apply search_from_lit_led. Qed.

Lemma sub_channel_absent (name : string) (t : text) :
  contains (opening name) t = false -> sub_empty (channel_sub_re name) t = t.
Proof. intros H. now apply sub_scan_lit_led. Qed.

(** ** [strip] twice *)

Lemma lstrip_app_keep (a x : text) (c : ascii) :
  py_isspace c = false -> lstrip (a ++ c :: x) = lstrip a ++ c :: x.
Proof.
  intros Hc. induction a as [|d a IH]; cbn [app lstrip].
  - now rewrite Hc.
  - destruct (py_isspace d); [exact IH|reflexivity].
Qed.

Lemma rstrip_rstrip (s : text) : rstrip (rstrip s) = rstrip s.
Proof. unfold rstrip. now rewrite rev_involutive, lstrip_lstrip. Qed.

Lemma rstrip_head (c : ascii) (s : text) :
  py_isspace c = false -> exists s', rstrip (c :: s) = c :: s'.
Proof.
  intros Hc. unfold rstrip. cbn [rev].
  assert (H : exists w, lstrip (rev s ++ [c]) = w ++ [c]).
  { rewrite lstrip_app_keep by exact Hc. now exists (lstrip (rev s)). }
  destruct H as [w ->]. rewrite rev_app_distr. now exists (rev w).
Qed.

Lemma lstrip_rstrip_lstrip (s : text) : lstrip (rstrip (lstrip s)) = rstrip (lstrip s).
Proof.
  pose proof (lstrip_head s) as H. destruct (lstrip s) as [|c y]; [reflexivity|].
  destruct (rstrip_head c y H) as [s' ->]. cbn. now rewrite H.
Qed.

Lemma strip_strip (s : text) : strip (strip s) = strip s.
Proof. unfold strip. now rewrite lstrip_rstrip_lstrip, rstrip_rstrip. Qed.

(** ** Blobs with well-formed channels *)

Lemma run_lit (p : text) (k : kont) (cs : caps) (a : text) :
  forall b, run (Lit p) b (p ++ a) cs k = k (rev p ++ b) a cs.
Proof.
  induction p as [|c p IH]; intros b; [reflexivity|].
  cbn [Lit run app cset_mem rev]. rewrite Ascii.eqb_refl, IH.
  now rewrite <- app_assoc.
Qed.

Lemma no_start_sound (p : text) :
  forall s y, no_start p s = true -> after_marker y = true ->
              is_prefix p (s ++ y) = false.
Proof.
  induction p as [|c p IH]; intros s y H Hy; [discriminate H|].
  destruct s as [|d s]; cbn [no_start app is_prefix] in *.
  - destruct y as [|e y]; [reflexivity|]. cbn [after_marker is_prefix] in *.
    apply andb_prop in Hy as [H1 H2].
    apply orb_prop in H as [H|H]; apply Ascii.eqb_eq in H; subst c.
    + apply negb_true_iff in H1. rewrite Ascii.eqb_sym, H1. reflexivity.
    + apply negb_true_iff in H2. rewrite Ascii.eqb_sym, H2. reflexivity.
  - apply orb_prop in H as [H|H].
    + apply negb_true_iff in H. now rewrite H.
    + rewrite (IH s y H Hy). apply andb_false_r.
Qed.

Lemma never_quiet (p x y : text) :
  quiet p x = true -> after_marker y = true -> never p x y = true.
Proof.
  intros H Hy. induction x as [|c x IH]; [reflexivity|].
  cbn [quiet] in H. apply andb_prop in H as [H1 H2]. cbn [never].
  rewrite (no_start_sound p (c :: x) y H1 Hy). now rewrite IH.
Qed.

Ltac cbn_prefix :=
  cbn [is_prefix app txt list_ascii_of_string marker_led contains] in *.

Lemma prefix_blocked (p' s y : text) :
  is_prefix (txt "===") s = false -> s <> [] -> marker_led y = true ->
  is_prefix (txt "=== " ++ p') (s ++ y) = false.
Proof.
  intros Hs Hne Hy.
  assert (Hy' : y = [] \/ exists y', y = txt "=== " ++ y').
  { destruct y as [|y1 [|y2 [|y3 [|y4 y]]]]; [left; reflexivity|cbn_prefix..].
    - now rewrite andb_false_r in Hy.
    - now rewrite !andb_false_r in Hy.
    - now rewrite !andb_false_r in Hy.
    - right. exists y.
      repeat (apply andb_prop in Hy as [?%Ascii.eqb_eq Hy]). now subst. }
  destruct s as [|a [|b [|c s]]]; [congruence| | |].
  - destruct Hy' as [->|[y' ->]]; cbn_prefix.
    + apply andb_false_r.
    + now destruct (Ascii.eqb "=" a).
  - destruct Hy' as [->|[y' ->]]; cbn_prefix.
    + now rewrite !andb_false_r.
    + now destruct (Ascii.eqb "=" a), (Ascii.eqb "=" b).
  - cbn_prefix. destruct (Ascii.eqb "=" a); [|reflexivity].
    destruct (Ascii.eqb "=" b); [|reflexivity].
    destruct (Ascii.eqb "=" c); [discriminate Hs|reflexivity].
Qed.

Lemma plain_cons (c : ascii) (t : text) :
  plain (c :: t) = true ->
  is_prefix (txt "===") (c :: t) = false /\ plain t = true.
Proof.
  unfold plain. cbn [contains]. intros H. apply negb_true_iff in H.
  apply orb_false_elim in H as [H1 H2]. split; [exact H1|now rewrite H2].
Qed.

Lemma never_plain (p' t y : text) :
  plain t = true -> marker_led y = true -> never (txt "=== " ++ p') t y = true.
Proof.
  intros Ht Hy. induction t as [|c t IH]; [reflexivity|].
  apply plain_cons in Ht as [H1 H2]. cbn [never].
  rewrite (prefix_blocked p' (c :: t) y H1) by (congruence || assumption).
  now rewrite IH.
Qed.

(** *** Scanning past text in which the pattern cannot start *)

Section LiteralLedScan.
Variables (p : text) (r : regex).

Lemma sub_scan_never (x y : text) :
  never p x y = true ->
  forall b, sub_scan (Seq (Lit p) r) 0 b (x ++ y)
            = x ++ sub_scan (Seq (Lit p) r) 0 (rev x ++ b) y.
Proof.
  induction x as [|c x IH]; intros H b; [reflexivity|].
  cbn [never] in H. apply andb_prop in H as [H1 H2].
  apply negb_true_iff in H1. cbn [app] in H1.
  cbn [app sub_scan]. rewrite (match_at_lit_led p r b _ H1).
  cbn [rev]. rewrite <- app_assoc. f_equal. now apply IH.
Qed.

(** Once a match is found the scan resumes after it. *)
Lemma sub_scan_skip (x y : text) :
  forall b, sub_scan (Seq (Lit p) r) (length x) b (x ++ y)
            = sub_scan (Seq (Lit p) r) 0 (rev x ++ b) y.
Proof.
  induction x as [|c x IH]; intros b; [reflexivity|].
  cbn [length app sub_scan rev]. rewrite <- app_assoc. apply IH.
Qed.

Lemma sub_scan_match (x y b : text) (m : mres) :
  x <> [] ->
  match_at (Seq (Lit p) r) b (x ++ y) = Some m ->
  m_after m = y ->
  sub_scan (Seq (Lit p) r) 0 b (x ++ y)
  = sub_scan (Seq (Lit p) r) 0 (rev x ++ b) y.
Proof.
  intros Hx Hm Hy. destruct x as [|c x]; [congruence|].
  cbn [app] in *. cbn [sub_scan]. rewrite Hm, Hy.
  replace (length (c :: x ++ y) - length y)%nat with (S (length x))
    by (cbn [length]; rewrite length_app; lia).
  cbn [rev]. rewrite <- app_assoc. apply sub_scan_skip.
Qed.

Lemma search_from_later (x y : text) :
  (forall b, search_from (Seq (Lit p) r) b y <> None) ->
  forall b, search_from (Seq (Lit p) r) b (x ++ y) <> None.
Proof.
  intros Hy. induction x as [|c x IH]; intros b; [apply Hy|].
  cbn [app search_from].
  destruct (match_at (Seq (Lit p) r) b (c :: x ++ y)); [discriminate|apply IH].
Qed.
End LiteralLedScan.

(** *** The match of a channel *)

Lemma star_lazy_here (p : cset) (b a : text) (cs : caps) (k : kont) (m : mres) :
  k b a cs = Some m -> star_lazy p b a cs k = Some m.
Proof. intros H. destruct a; cbn [star_lazy]; now rewrite H. Qed.

Section ChannelMatch.
(** [c] is the closing marker, [y] the text after it. *)
Variables (c y : text).
Hypothesis Hc : match c with d :: _ => py_isspace d = false | [] => False end.

Lemma star_space_stops (b : text) (cs : caps) (k : kont) :
  star_greedy CSpace b (c ++ y) cs k = k b (c ++ y) cs.
Proof.
  destruct c as [|d c']; [contradiction|].
  cbn [app star_greedy cset_mem]. now rewrite Hc.
Qed.

(** The closing marker is matched where it stands. *)
Lemma close_here (b : text) (cs : caps) :
  run (Seqs [Star CSpace; Lit c]) b (c ++ y) cs accept
  = Some (MRes (rev c ++ b) y cs).
Proof.
  cbn [Seqs run]. rewrite star_space_stops, run_lit. reflexivity.
Qed.

(** ... and nowhere before, in a body that does not contain it. *)
Lemma lit_end (s b : text) (cs : caps) (m : mres) :
  never c s (c ++ y) = true ->
  run (Seq (Lit c) Eps) b (s ++ c ++ y) cs accept = Some m ->
  m_after m = y.
Proof.
  intros Hn H. destruct s as [|d s].
  - cbn [app] in H. cbn [run] in H. rewrite run_lit in H.
    cbn [run accept] in H. now injection H as <-.
  - cbn [never] in Hn. apply andb_prop in Hn as [Hn _].
    apply negb_true_iff in Hn.
    cbn [run] in H. now rewrite run_lit_no_prefix in H.
Qed.

Lemma close_end (s : text) (cs : caps) (m : mres) :
  never c s (c ++ y) = true ->
  forall b, run (Seqs [Star CSpace; Lit c]) b (s ++ c ++ y) cs accept = Some m ->
            m_after m = y.
Proof.
  intros Hn. cbn [Seqs]. induction s as [|d s IH]; intros b H.
  - cbn [app] in H. cbn [run] in H. rewrite star_space_stops in H.
    now apply (lit_end [] b cs m).
  - pose proof Hn as Hn'. cbn [never] in Hn'. apply andb_prop in Hn' as [_ Hs].
    cbn [run] in H. cbn [app star_greedy] in H.
    destruct (cset_mem CSpace d).
    + match type of H with orelse ?x _ = _ => destruct x as [m'|] eqn:Hx end;
        cbn [orelse] in H.
      * injection H as ->. now apply (IH Hs (d :: b)).
      * now apply (lit_end (d :: s) b cs m).
    + now apply (lit_end (d :: s) b cs m).
Qed.

(** The lazy scan stops at the first closing marker. *)
Section Lazy.
Variable k : kont.
Hypothesis Hk_here : forall b cs, exists m, k b (c ++ y) cs = Some m /\ m_after m = y.
Hypothesis Hk_end :
  forall s b cs m, never c s (c ++ y) = true ->
                   k b (s ++ c ++ y) cs = Some m -> m_after m = y.

Lemma lazy_end (s : text) (cs : caps) :
  never c s (c ++ y) = true ->
  forall b, exists m, star_lazy CAny b (s ++ c ++ y) cs k = Some m /\ m_after m = y.
Proof.
  intros Hn. induction s as [|d s IH]; intros b.
  - destruct (Hk_here b cs) as (m & Hm & Hy). exists m. split; [|exact Hy].
    now apply star_lazy_here.
  - pose proof Hn as Hn'. cbn [never] in Hn'. apply andb_prop in Hn' as [_ Hs].
    cbn [app star_lazy]. destruct (k b (d :: s ++ c ++ y) cs) as [m|] eqn:Hm.
    + exists m. split; [reflexivity|]. exact (Hk_end (d :: s) b cs m Hn Hm).
    + cbn [cset_mem]. apply (IH Hs).
Qed.

Lemma space_lazy_end (s : text) (cs : caps) :
  never c s (c ++ y) = true ->
  forall b, exists m,
    star_greedy CSpace b (s ++ c ++ y) cs
      (fun b' a' cs' => star_lazy CAny b' a' cs' k) = Some m
    /\ m_after m = y.
Proof.
  intros Hn. induction s as [|d s IH]; intros b.
  - cbn [app]. rewrite star_space_stops. exact (lazy_end [] cs Hn b).
  - pose proof Hn as Hn'. cbn [never] in Hn'. apply andb_prop in Hn' as [_ Hs].
    cbn [app star_greedy]. destruct (cset_mem CSpace d).
    + destruct (IH Hs (d :: b)) as (m & -> & Hy). cbn [orelse]. now exists m.
    + exact (lazy_end (d :: s) cs Hn b).
Qed.

(** Without the condition on the body a match is still found. *)
Lemma lazy_some (s : text) (cs : caps) :
  forall b, star_lazy CAny b (s ++ c ++ y) cs k <> None.
Proof.
  induction s as [|d s IH]; intros b.
  - destruct (Hk_here b cs) as (m & Hm & _).
    cbn [app]. now rewrite (star_lazy_here CAny b (c ++ y) cs k m Hm).
  - cbn [app star_lazy]. destruct (k b (d :: s ++ c ++ y) cs); [discriminate|].
    cbn [cset_mem]. apply IH.
Qed.

End Lazy.

(** The same when the scan is a group, whose capture starts where the
    white space ends. *)
Lemma space_lazy_group_some (k : text -> kont) (s : text) (cs : caps) :
  (forall a0 b cs', exists m, k a0 b (c ++ y) cs' = Some m /\ m_after m = y) ->
  forall b, star_greedy CSpace b (s ++ c ++ y) cs
              (fun b' a' cs' => star_lazy CAny b' a' cs' (k a')) <> None.
Proof.
  intros Hk. induction s as [|d s IH]; intros b.
  - cbn [app]. rewrite star_space_stops. exact (lazy_some (k _) (Hk _) [] cs b).
  - cbn [app star_greedy]. destruct (cset_mem CSpace d).
    + specialize (IH (d :: b)).
      destruct (star_greedy _ _ _ _ _); [discriminate|now elim IH].
    + exact (lazy_some (k _) (Hk _) (d :: s) cs b).
Qed.
End ChannelMatch.

Lemma closing_head (name : string) :
  match closing name with d :: _ => py_isspace d = false | [] => False end.
Proof. reflexivity. Qed.

(** The pattern of [re.sub] takes a channel from its opening marker to the
    end of its closing marker. *)
Lemma channel_sub_match (name : string) (body y b : text) :
  never (closing name) body (closing name ++ y) = true ->
  exists m,
    match_at (channel_sub_re name) b (opening name ++ body ++ closing name ++ y)
    = Some m
    /\ m_after m = y.
Proof.
  intros Hn. unfold match_at, channel_sub_re. fold (opening name) (closing name).
  cbn [Seqs]. cbn [run]. rewrite run_lit.
  apply (space_lazy_end (closing name) y (closing_head name)
           (fun b a cs => run (Seqs [Star CSpace; Lit (closing name)]) b a cs accept)).
  - intros b' cs. eexists. split; [apply close_here, closing_head|reflexivity].
  - intros s b' cs m Hs H. exact (close_end (closing name) y (closing_head name) s cs m Hs b' H).
  - exact Hn.
Qed.

(** The pattern of [re.search] finds a channel where it stands. *)
Lemma channel_match_some (name : string) (body y b : text) :
  match_at (channel_re name) b (opening name ++ body ++ closing name ++ y) <> None.
Proof.
  unfold match_at, channel_re. fold (opening name) (closing name).
  cbn [Seqs]. cbn [run]. rewrite run_lit.
  apply (space_lazy_group_some (closing name) y (closing_head name)
           (fun a0 b' a' cs' =>
              run (Seqs [Star CSpace; Lit (closing name)]) b' a'
                  ((1%nat, consumed a0 a') :: cs') accept)).
  intros a0 b' cs. eexists. split; [apply close_here, closing_head|reflexivity].
Qed.

(** *** Facts on markers *)

Lemma channel_names_inv (name : string) :
  existsb (String.eqb name) channel_names = true ->
  name = "TIMELINE_JSON"%string \/ name = "MONITORING_CODE"%string
  \/ name = "REGRESSION_TEST"%string.
Proof.
  cbn [existsb channel_names]. intros H.
  apply orb_prop in H as [H|H]; [left; now apply String.eqb_eq|].
  apply orb_prop in H as [H|H]; [right; left; now apply String.eqb_eq|].
  apply orb_prop in H as [H|H]; [right; right; now apply String.eqb_eq|discriminate].
Qed.

Lemma quiet_markers (name other : string) :
  existsb (String.eqb name) channel_names = true ->
  existsb (String.eqb other) channel_names = true ->
  quiet (opening name) (closing other) = true
  /\ (other <> name -> quiet (opening name) (opening other) = true).
Proof.
  intros H1 H2. apply channel_names_inv in H1, H2.
  destruct H1 as [ -> | [ -> | -> ] ], H2 as [ -> | [ -> | -> ] ];
    (split; [vm_compute; reflexivity|]); intros Hne;
    first [now elim Hne | vm_compute; reflexivity].
Qed.

Lemma after_marker_keep (x y z : text) :
  after_marker (x ++ y) = true -> x <> [] -> after_marker (x ++ z) = true.
Proof. destruct x as [|c x]; [congruence|]. cbn. auto. Qed.

Lemma after_marker_body (name : string) (body z : text) :
  after_marker (body ++ closing name) = true -> after_marker (body ++ z) = true.
Proof.
  intros H. apply (after_marker_keep body (closing name)); [exact H|].
  intros ->. discriminate H.
Qed.

Lemma marker_led_channels (chans : list channel) :
  marker_led (chans_text chans) = true.
Proof. destruct chans as [|ch rest]; reflexivity. Qed.

Lemma marker_led_closing (name : string) (y : text) :
  marker_led (closing name ++ y) = true.
Proof. reflexivity. Qed.

Lemma never_opening_plain (name : string) (t y : text) :
  plain t = true -> marker_led y = true -> never (opening name) t y = true.
Proof. exact (never_plain (txt (name ++ " ===")) t y). Qed.

Lemma never_closing_plain (name : string) (t y : text) :
  plain t = true -> marker_led y = true -> never (closing name) t y = true.
Proof. exact (never_plain (txt ("END_" ++ name ++ " ===")) t y). Qed.

(** *** Removing a channel from a well-formed blob *)

Lemma well_formed_channels_cons (ch : channel) (rest : list channel) :
  well_formed_channels (ch :: rest) = true ->
  existsb (String.eqb (ch_name ch)) channel_names = true
  /\ plain (ch_body ch) = true
  /\ after_marker (ch_body ch ++ closing (ch_name ch)) = true
  /\ plain (ch_after ch) = true
  /\ after_marker (ch_after ch ++ chans_text rest) = true
  /\ well_formed_channels rest = true.
Proof.
  cbn [well_formed_channels]. intros H.
  repeat (apply andb_prop in H as [H ?]). auto 10.
Qed.

Lemma drop_channel_acc (name : string) (x : text) (chans : list channel) :
  forall t, drop_channel name (x ++ t) chans
            = (x ++ (drop_channel name t chans).1, (drop_channel name t chans).2).
Proof.
  induction chans as [|ch rest IH]; intros t; cbn [drop_channel]; [reflexivity|].
  destruct (String.eqb (ch_name ch) name); [|reflexivity].
  rewrite <- app_assoc. apply IH.
Qed.

Lemma sub_channels (name : string) (chans : list channel) :
  existsb (String.eqb name) channel_names = true ->
  well_formed_channels chans = true ->
  forall t0 b, plain t0 = true ->
    sub_scan (channel_sub_re name) 0 b (t0 ++ chans_text chans)
    = (drop_channel name t0 chans).1 ++ chans_text (drop_channel name t0 chans).2.
Proof.
  intros Hname. induction chans as [|ch rest IH]; intros Hwf t0 b Ht0.
  - cbn [chans_text drop_channel fst snd].
    unfold channel_sub_re. cbn [Seqs]. fold (opening name).
    rewrite sub_scan_never by now apply never_opening_plain.
    cbn [sub_scan]. reflexivity.
  - apply well_formed_channels_cons in Hwf as (Hn & Hb & Hab & Ha & Haa & Hrest).
    destruct ch as [n body after]. cbn [ch_name ch_body ch_after] in *.
    specialize (IH Hrest after).
    unfold channel_sub_re in *. cbn [Seqs] in *. fold (opening name) in *.
    set (tail := Seq (Star CSpace) _) in *.
    rewrite sub_scan_never
      by (apply never_opening_plain; [exact Ht0|apply marker_led_channels]).
    cbn [chans_text ch_name ch_body ch_after drop_channel].
    destruct (String.eqb_spec n name) as [ -> | Hne].
    + rewrite (drop_channel_acc name t0 rest after). cbn [fst snd].
      rewrite <- app_assoc. f_equal.
      destruct (channel_sub_match name body (after ++ chans_text rest) (rev t0 ++ b))
        as (m & Hm & Hy).
      { apply never_closing_plain; [exact Hb|apply marker_led_closing]. }
      unfold channel_sub_re in Hm. cbn [Seqs] in Hm.
      fold (opening name) in Hm. fold tail in Hm.
      assert (E : opening name ++ body ++ closing name ++ after ++ chans_text rest
                  = (opening name ++ body ++ closing name) ++ after ++ chans_text rest)
        by (now rewrite <- !app_assoc).
      rewrite E in Hm |- *.
      rewrite (sub_scan_match _ _ _ _ _ m) by
        (try exact Hm; try exact Hy; discriminate).
      now apply IH.
    + cbn [fst snd chans_text ch_name ch_body ch_after]. f_equal.
      destruct (quiet_markers name n Hname Hn) as [Hqc Hqo].
      rewrite sub_scan_never
        by (apply never_quiet; [now apply Hqo|now apply (after_marker_body n)]).
      f_equal.
      rewrite sub_scan_never
        by (apply never_opening_plain; [exact Hb|apply marker_led_closing]).
      f_equal.
      rewrite sub_scan_never by (apply never_quiet; [exact Hqc|exact Haa]).
      f_equal. now apply IH.
Qed.

(** *** Finding a channel *)

Lemma search_from_here (r : regex) (b a : text) :
  match_at r b a <> None -> search_from r b a <> None.
Proof.
  intros H. destruct a; cbn [search_from]; now destruct (match_at r b _).
Qed.

Lemma search_channels (name : string) (chans : list channel) :
  has_channel name chans = true ->
  forall t0 b, search_from (channel_re name) b (t0 ++ chans_text chans) <> None.
Proof.
  intros H t0. unfold channel_re. cbn [Seqs]. fold (opening name).
  set (tail := Seq (Star CSpace) _).
  apply search_from_later. clear t0.
  induction chans as [|[n body after] rest IH]; [discriminate H|].
  cbn [has_channel existsb ch_name] in H. intros b.
  cbn [chans_text ch_name ch_body ch_after].
  destruct (String.eqb_spec n name) as [ -> | Hne].
  - apply search_from_here.
    exact (channel_match_some name body (after ++ chans_text rest) b).
  - cbn [orb] in H.
    replace (opening n ++ body ++ closing n ++ after ++ chans_text rest)
      with ((opening n ++ body ++ closing n ++ after) ++ chans_text rest)
      by (now rewrite <- !app_assoc).
    apply search_from_later. now apply IH.
Qed.

(** *** The structure that is left *)

Lemma is_prefix_app (p x y : text) :
  is_prefix p x = true -> is_prefix p (x ++ y) = true.
Proof.
  revert x. induction p as [|c p IH]; intros x H; [reflexivity|].
  destruct x as [|d x]; [discriminate H|]. cbn [is_prefix app] in *.
  apply andb_prop in H as [-> H]. now rewrite IH.
Qed.

Lemma contains_app_l (p x y : text) :
  contains p x = true -> contains p (x ++ y) = true.
Proof.
  induction x as [|d x IH]; intros H.
  - cbn [contains] in H. rewrite orb_false_r in H.
    destruct p; [|discriminate H]. now destruct y.
  - cbn [contains app] in *. apply orb_prop in H as [H|H].
    + pose proof (is_prefix_app p (d :: x) y H) as H'. cbn [app] in H'.
      now rewrite H'.
    + rewrite (IH H). apply orb_true_r.
Qed.

Lemma contains_app_r (p x y : text) :
  contains p y = true -> contains p (x ++ y) = true.
Proof.
  intros H. induction x as [|d x IH]; [exact H|].
  cbn [contains app]. rewrite IH. apply orb_true_r.
Qed.

Lemma plain_prefix (x y : text) : plain (x ++ y) = true -> plain x = true.
Proof.
  unfold plain. intros H. apply negb_true_iff in H. apply negb_true_iff.
  destruct (contains (txt "===") x) eqn:E; [|reflexivity].
  now rewrite (contains_app_l _ x y E) in H.
Qed.

Lemma plain_suffix (x y : text) : plain (x ++ y) = true -> plain y = true.
Proof.
  unfold plain. intros H. apply negb_true_iff in H. apply negb_true_iff.
  destruct (contains (txt "===") y) eqn:E; [|reflexivity].
  now rewrite (contains_app_r _ x y E) in H.
Qed.

(** Prose that may follow a marker can be appended to plain prose. *)
Lemma plain_app (x y z : text) :
  plain x = true -> plain y = true -> after_marker (y ++ z) = true ->
  plain (x ++ y) = true.
Proof.
  intros Hx Hy Hz. destruct y as [|c y]; [now rewrite app_nil_r|].
  cbn [app after_marker] in Hz. apply andb_prop in Hz as [_ Hc].
  apply negb_true_iff in Hc. rewrite Ascii.eqb_sym in Hc.
  induction x as [|a x IH]; [exact Hy|].
  apply plain_cons in Hx as [Ha Hx]. specialize (IH Hx).
  unfold plain in *. cbn [app contains]. apply negb_true_iff in IH.
  rewrite IH, orb_false_r. apply negb_true_iff.
  destruct x as [|a2 [|a3 x]]; cbn_prefix.
  - rewrite Hc. now rewrite andb_false_r.
  - rewrite Hc. now rewrite !andb_false_r.
  - exact Ha.
Qed.

Lemma drop_channel_well_formed (name : string) (chans : list channel) :
  forall t0,
    plain t0 = true -> well_formed_channels chans = true ->
    plain (drop_channel name t0 chans).1 = true
    /\ well_formed_channels (drop_channel name t0 chans).2 = true
    /\ (after_marker (t0 ++ chans_text chans) = true ->
        after_marker ((drop_channel name t0 chans).1
                      ++ chans_text (drop_channel name t0 chans).2) = true).
Proof.
  induction chans as [|[n body after] rest IH]; intros t0 Ht0 Hwf.
  - cbn [drop_channel fst snd]. auto.
  - apply well_formed_channels_cons in Hwf as (Hn & Hb & Hab & Ha & Haa & Hrest).
    cbn [ch_name ch_body ch_after] in *. cbn [drop_channel ch_name ch_body ch_after].
    destruct (String.eqb n name).
    + destruct (IH (t0 ++ after)) as (H1 & H2 & H3);
        [now apply (plain_app t0 after (chans_text rest))|exact Hrest|].
      split; [exact H1|]. split; [exact H2|].
      intros H. apply H3. destruct t0 as [|c t0]; [discriminate H|exact H].
    + destruct (IH after Ha Hrest) as (H1 & H2 & H3).
      cbn [fst snd]. split; [exact Ht0|]. split.
      * cbn [well_formed_channels ch_name ch_body ch_after].
        rewrite Hn, Hb, Hab, H1, H2, (H3 Haa). reflexivity.
      * intros H. cbn [chans_text ch_name ch_body ch_after] in *.
        rewrite app_assoc in H |- *.
        apply (after_marker_keep _ _ _ H). now destruct t0.
Qed.

Lemma drop_channel_has (name other : string) (chans : list channel) :
  forall t0,
    has_channel name (drop_channel name t0 chans).2 = false
    /\ (has_channel other chans = false ->
        has_channel other (drop_channel name t0 chans).2 = false).
Proof.
  induction chans as [|[n body after] rest IH]; intros t0;
    cbn [drop_channel ch_name ch_body ch_after].
  - split; [reflexivity|auto].
  - cbn [has_channel existsb ch_name].
    destruct (String.eqb n name) eqn:E.
    + destruct (IH (t0 ++ after)) as [H1 H2]. split; [exact H1|].
      intros H. apply orb_false_elim in H as [_ H]. now apply H2.
    + destruct (IH after) as [H1 H2]. cbn [snd has_channel existsb ch_name].
      split; [now rewrite E|].
      intros H. apply orb_false_elim in H as [-> H]. now apply H2.
Qed.

(** *** Stripping a well-formed blob *)

Lemma rstrip_split (s : text) : exists w, s = rstrip s ++ w.
Proof.
  unfold rstrip. destruct (lstrip_split (rev s)) as (ws & H & _).
  exists (rev ws). rewrite <- rev_app_distr, <- H. now rewrite rev_involutive.
Qed.

Lemma rstrip_app_keep (x y : text) (c : ascii) :
  py_isspace c = false -> rstrip (x ++ c :: y) = x ++ c :: rstrip y.
Proof.
  intros Hc. unfold rstrip. rewrite rev_app_distr. cbn [rev].
  rewrite <- app_assoc. cbn [app]. rewrite lstrip_app_keep by exact Hc.
  rewrite rev_app_distr. cbn [rev]. rewrite rev_involutive.
  now rewrite <- app_assoc.
Qed.

Lemma txt_app (s1 s2 : string) : txt (s1 ++ s2) = txt s1 ++ txt s2.
Proof.
  unfold txt. induction s1 as [|c s1 IH]; [reflexivity|].
  change (c :: list_ascii_of_string (s1 ++ s2)
          = c :: (list_ascii_of_string s1 ++ list_ascii_of_string s2)).
  now rewrite IH.
Qed.

Lemma closing_last (name : string) : exists x, closing name = x ++ ["="%char].
Proof.
  exists (txt ("=== END_" ++ name ++ " ==")). unfold closing.
  change (txt ("=== END_" ++ name ++ " ==="))
    with (txt "=== END_" ++ txt (name ++ " ===")).
  change (txt ("=== END_" ++ name ++ " =="))
    with (txt "=== END_" ++ txt (name ++ " ==")).
  rewrite !txt_app, <- !app_assoc. reflexivity.
Qed.

Lemma after_marker_prefix (x w : text) :
  after_marker (x ++ w) = true -> after_marker x = true.
Proof. destruct x; [reflexivity|exact id]. Qed.

Lemma lstrip_blob (t0 : text) (chans : list channel) :
  lstrip (t0 ++ chans_text chans) = lstrip t0 ++ chans_text chans.
Proof.
  destruct chans as [|ch rest]; [now rewrite !app_nil_r|].
  cbn [chans_text]. unfold opening at 1.
  change (txt ("=== " ++ ch_name ch ++ " ==="))
    with ("="%char :: txt ("== " ++ ch_name ch ++ " ===")).
  cbn [app]. now apply lstrip_app_keep.
Qed.

Lemma rstrip_blob (chans : list channel) :
  forall t0,
    plain t0 = true -> well_formed_channels chans = true ->
    exists t0' chans',
      plain t0' = true /\ well_formed_channels chans' = true
      /\ t0' ++ chans_text chans' = rstrip (t0 ++ chans_text chans)
      /\ forall name, has_channel name chans' = has_channel name chans.
Proof.
  induction chans as [|[n body after] rest IH]; intros t0 Ht0 Hwf.
  - exists (rstrip t0), []. cbn [chans_text]. rewrite !app_nil_r.
    destruct (rstrip_split t0) as [w Hw].
    split; [|auto]. rewrite Hw in Ht0. now apply plain_prefix in Ht0.
  - apply well_formed_channels_cons in Hwf as (Hn & Hb & Hab & Ha & Haa & Hrest).
    cbn [ch_name ch_body ch_after] in *.
    destruct (IH after Ha Hrest) as (a' & rest' & Ha' & Hrest' & Htext & Hhas).
    exists t0, (Channel n body a' :: rest').
    split; [exact Ht0|]. split; [|split].
    + cbn [well_formed_channels ch_name ch_body ch_after].
      rewrite Hn, Hb, Hab, Ha', Hrest', Htext.
      destruct (rstrip_split (after ++ chans_text rest)) as [w Hw].
      rewrite Hw in Haa. now rewrite (after_marker_prefix _ _ Haa).
    + cbn [chans_text ch_name ch_body ch_after]. rewrite Htext.
      destruct (closing_last n) as [x ->].
      rewrite <- !app_assoc. cbn [app].
      rewrite !app_assoc. rewrite rstrip_app_keep by reflexivity.
      reflexivity.
    + intros name. cbn [has_channel existsb ch_name].
      f_equal. apply Hhas.
Qed.

(** *** The invariant of the three removals *)

Lemma segmented_strip (removed : list string) (x : text) :
  segmented removed x -> segmented removed (strip x).
Proof.
  intros (t0 & chans & Hwf & -> & Hrem).
  unfold well_formed in Hwf. apply andb_prop in Hwf as [Ht0 Hch].
  unfold strip, blob_of. rewrite lstrip_blob.
  assert (Hl : plain (lstrip t0) = true).
  { destruct (lstrip_split t0) as (ws & H & _). rewrite H in Ht0.
    now apply plain_suffix in Ht0. }
  destruct (rstrip_blob chans (lstrip t0) Hl Hch)
    as (t0' & chans' & H1 & H2 & H3 & H4).
  exists t0', chans'. unfold well_formed, blob_of. rewrite H1, H2.
  split; [reflexivity|]. split; [now rewrite H3|].
  eapply Forall_impl; [exact Hrem|]. intros name H. now rewrite H4.
Qed.

Lemma segmented_sub (removed : list string) (name : string) (x : text) :
  existsb (String.eqb name) channel_names = true ->
  segmented removed x ->
  segmented (name :: removed) (sub_empty (channel_sub_re name) x).
Proof.
  intros Hname (t0 & chans & Hwf & -> & Hrem).
  unfold well_formed in Hwf. apply andb_prop in Hwf as [Ht0 Hch].
  unfold sub_empty, blob_of. rewrite (sub_channels name chans Hname Hch t0 [] Ht0).
  destruct (drop_channel_well_formed name chans t0 Ht0 Hch) as (H1 & H2 & _).
  exists (drop_channel name t0 chans).1, (drop_channel name t0 chans).2.
  unfold well_formed, blob_of. rewrite H1, H2.
  split; [reflexivity|]. split; [reflexivity|].
  constructor.
  - exact (proj1 (drop_channel_has name name chans t0)).
  - eapply Forall_impl; [exact Hrem|]. intros other H.
    exact (proj2 (drop_channel_has name other chans t0) H).
Qed.

Lemma segmented_extract (removed : list string) (name : string) (x : text) :
  existsb (String.eqb name) channel_names = true ->
  segmented removed x ->
  segmented (name :: removed) (extract_channel name x).2.
Proof.
  intros Hname Hx. unfold extract_channel.
  destruct (search (channel_re name) x) as [m|] eqn:Hs; cbn [snd].
  - now apply segmented_strip, segmented_sub.
  - destruct Hx as (t0 & chans & Hwf & -> & Hrem).
    exists t0, chans. split; [exact Hwf|]. split; [reflexivity|].
    constructor; [|exact Hrem].
    destruct (has_channel name chans) eqn:Hh; [|reflexivity].
    now elim (search_channels name chans Hh t0 []).
Qed.

Lemma segmented_all (x : text) :
  segmented ["REGRESSION_TEST"; "MONITORING_CODE"; "TIMELINE_JSON"]%string x ->
  plain x = true.
Proof.
  intros (t0 & chans & Hwf & -> & Hrem).
  unfold well_formed in Hwf. apply andb_prop in Hwf as [Ht0 Hch].
  destruct chans as [|[n body after] rest].
  - unfold blob_of. cbn [chans_text]. now rewrite app_nil_r.
  - exfalso. apply well_formed_channels_cons in Hch as (Hn & _).
    cbn [ch_name] in Hn. apply channel_names_inv in Hn.
    apply Forall_cons_1 in Hrem as [P1 Hrem].
    apply Forall_cons_1 in Hrem as [P2 Hrem].
    apply Forall_cons_1 in Hrem as [P3 _].
    cbn [has_channel existsb ch_name] in P1, P2, P3.
    destruct Hn as [ -> | [ -> | -> ] ];
      [rewrite String.eqb_refl in P3|rewrite String.eqb_refl in P2
      |rewrite String.eqb_refl in P1]; discriminate.
Qed.

Lemma is_prefix_trans (p1 p2 s : text) :
  is_prefix p1 p2 = true -> is_prefix p2 s = true -> is_prefix p1 s = true.
Proof.
  revert p2 s. induction p1 as [|c p1 IH]; intros p2 s H1 H2; [reflexivity|].
  destruct p2 as [|d p2]; [discriminate H1|].
  destruct s as [|e s]; [discriminate H2|]. cbn [is_prefix] in *.
  apply andb_prop in H1 as [E1 H1]. apply andb_prop in H2 as [E2 H2].
  apply Ascii.eqb_eq in E1, E2. subst. rewrite Ascii.eqb_refl.
  exact (IH _ _ H1 H2).
Qed.

Lemma contains_longer (p1 p2 t : text) :
  is_prefix p1 p2 = true -> contains p1 t = false -> contains p2 t = false.
Proof.
  intros Hp. induction t as [|c t IH]; cbn [contains]; intros H;
    apply orb_false_elim in H as [H1 H2].
  - destruct (is_prefix p2 []) eqn:E; [|reflexivity].
    now rewrite (is_prefix_trans _ _ _ Hp E) in H1.
  - rewrite (IH H2), orb_false_r.
    destruct (is_prefix p2 (c :: t)) eqn:E; [|reflexivity].
    now rewrite (is_prefix_trans _ _ _ Hp E) in H1.
Qed.

Lemma plain_marker_free (t : text) : plain t = true -> marker_free t = true.
Proof.
  unfold plain. intros H. apply negb_true_iff in H.
  unfold marker_free, channel_names. cbn [forallb].
  rewrite !(contains_longer (txt "===") _ t) by (reflexivity || exact H).
  reflexivity.
Qed.

(** ** Segmenting twice *)

Section Segmenter.
Variable json_loads : text -> res pyval.

Lemma generate_report_parts (blob : text) :
  let t1 := without_timeline blob in
  let m := extract_channel "MONITORING_CODE" t1 in
  let r := extract_channel "REGRESSION_TEST" m.2 in
  exists events,
    generate_report json_loads blob = Ok (Report r.2 events m.1 r.1).
Proof.
  intros t1 m r. unfold generate_report, generate_report_body.
  fold t1. fold m. destruct m as [mc t2] eqn:Em. cbn [fst snd] in r.
  fold r. destruct r as [rc t3] eqn:Er. eexists. reflexivity.
Qed.

Lemma extract_channel_absent (name : string) (t : text) :
  contains (opening name) t = false -> extract_channel name t = ([], t).
Proof.
  intros H. unfold extract_channel. now rewrite search_channel_absent.
Qed.

Lemma extract_channel_stripped (name : string) (t : text) :
  strip t = t -> strip (extract_channel name t).2 = (extract_channel name t).2.
Proof.
  intros H. unfold extract_channel.
  destruct (search (channel_re name) t); cbn [snd]; [apply strip_strip|exact H].
Qed.

(** The narrative of a report has no white space at its ends. *)
Lemma report_markdown_stripped (blob : text) (r : report) :
  generate_report json_loads blob = Ok r ->
  strip (report_markdown r) = report_markdown r.
Proof.
  intros H. destruct (generate_report_parts blob) as (events & Hr).
  cbv zeta in Hr. rewrite Hr in H. injection H as <-. cbn [report_markdown].
  apply extract_channel_stripped, extract_channel_stripped.
  apply strip_strip.
Qed.

Lemma segmented_report (blob : text) (r : report) :
  segmented [] blob ->
  generate_report json_loads blob = Ok r ->
  plain (report_markdown r) = true.
Proof.
  intros Hb H. destruct (generate_report_parts blob) as (events & Hr).
  cbv zeta in Hr. rewrite Hr in H. injection H as <-. cbn [report_markdown].
  apply segmented_all.
  apply segmented_extract; [reflexivity|].
  apply segmented_extract; [reflexivity|].
  unfold without_timeline. apply segmented_strip.
  now apply segmented_sub.
Qed.

Lemma clean_narrative_resegments (blob : text) (r1 : report) :
  generate_report json_loads blob = Ok r1 ->
  contains (opening "TIMELINE_JSON") (report_markdown r1) = false ->
  contains (opening "MONITORING_CODE") (report_markdown r1) = false ->
  contains (opening "REGRESSION_TEST") (report_markdown r1) = false ->
  resegments_to_itself json_loads (report_markdown r1).
Proof.
  intros H1 HT HM HR.
  pose proof (report_markdown_stripped blob r1 H1) as Hs.
  set (n := report_markdown r1) in *.
  repeat split; try (now apply search_channel_absent).
  destruct (generate_report_parts n) as (events & Hr). cbv zeta in Hr.
  assert (Hw : without_timeline n = n).
  { unfold without_timeline. now rewrite sub_channel_absent. }
  rewrite Hw in Hr.
  rewrite (extract_channel_absent "MONITORING_CODE" n HM) in Hr.
  cbn [fst snd] in Hr.
  rewrite (extract_channel_absent "REGRESSION_TEST" n HR) in Hr.
  cbn [fst snd] in Hr.
  eexists. split; [exact Hr|]. repeat split.
Qed.

(** C5, as the code has it.  When the narrative of a report holds none of
    the three opening markers, segmenting it again finds no channel and
    returns the same narrative with both code channels empty.  This is the
    case of every blob with well-formed channels, whose narrative contains no
    marker at all. *)
Theorem resegmenting_clean_narrative (blob : text) (r1 : report) :
  generate_report json_loads blob = Ok r1 ->
  (contains (opening "TIMELINE_JSON") (report_markdown r1) = false ->
   contains (opening "MONITORING_CODE") (report_markdown r1) = false ->
   contains (opening "REGRESSION_TEST") (report_markdown r1) = false ->
   resegments_to_itself json_loads (report_markdown r1))
  /\ (forall t0 chans,
        well_formed t0 chans = true -> blob = blob_of t0 chans ->
        marker_free (report_markdown r1) = true
        /\ resegments_to_itself json_loads (report_markdown r1)).
Proof.
  intros H1. split; [now apply (clean_narrative_resegments blob)|].
  intros t0 chans Hwf Hb.
  assert (Hp : plain (report_markdown r1) = true).
  { apply (segmented_report blob r1); [|exact H1].
    exists t0, chans. auto. }
  pose proof (plain_marker_free _ Hp) as Hf. split; [exact Hf|].
  unfold marker_free, channel_names in Hf. cbn [forallb] in Hf.
  apply andb_prop in Hf as [F1 Hf]. apply andb_prop in Hf as [F2 Hf].
  apply andb_prop in Hf as [F3 _].
  apply andb_prop in F1 as [F1%negb_true_iff _].
  apply andb_prop in F2 as [F2%negb_true_iff _].
  apply andb_prop in F3 as [F3%negb_true_iff _].
  now apply (clean_narrative_resegments blob).
Qed.
End Segmenter.

Lemma resegmenting_clean_narrative_witness :
  let n := q "# Post-Mortem|All good." in
  resegments_to_itself Json.json_loads n
  /\ marker_free n = true /\ resegments_to_itself Json.json_loads n.
Proof.
  exact (let H := resegmenting_clean_narrative Json.json_loads sample_report
                    (Report (q "# Post-Mortem|All good.")
                       (events_value
                          [mk_event (txt "2024-01-15 16:30:00")
                             (txt "Database connection timeouts begin.");
                           mk_event (txt "2024-01-15 16:33:00")
                             (txt "Error rate spikes.")])
                       (txt "resource {}") (txt "def test(): pass"))
                    generate_report_sample in
         conj (proj1 H eq_refl eq_refl eq_refl)
              (proj2 H sample_prose sample_channels eq_refl eq_refl)).
Defined.

(** The claim of C5 as stated fails on [spliced_blob]: its narrative is a
    complete TIMELINE_JSON channel, which a second segmentation finds and
    removes. *)
Lemma resegmenting_spliced_blob_changes_it :
  exists r1 r2,
    generate_report Json.json_loads spliced_blob = Ok r1
    /\ report_markdown r1 = txt "=== TIMELINE_JSON === x === END_TIMELINE_JSON ==="
    /\ search (channel_re "TIMELINE_JSON") (report_markdown r1) <> None
    /\ generate_report Json.json_loads (report_markdown r1) = Ok r2
    /\ report_markdown r2 <> report_markdown r1.
Proof.
  eexists. eexists.
  split; [vm_compute; reflexivity|].
  split; [vm_compute; reflexivity|].
  split; [vm_compute; discriminate|].
  split; [vm_compute; reflexivity|].
  vm_compute. discriminate.
Qed.

(** ** What a chart shows *)

(** *** Escaped texts *)

Lemma escape_char_markup_free (c : ascii) : markup_free (escape_char c) = true.
Proof.
  unfold escape_char.
  destruct (Ascii.eqb c "&"); [reflexivity|].
  destruct (Ascii.eqb c "<") eqn:E1; [reflexivity|].
  destruct (Ascii.eqb c ">") eqn:E2; [reflexivity|].
  destruct (Ascii.eqb c DQ) eqn:E3; [reflexivity|].
  destruct (Ascii.eqb c "'") eqn:E4; [reflexivity|].
  cbn [markup_free forallb]. unfold markup_char. now rewrite E1, E2, E3, E4.
Qed.

Lemma html_escape_markup_free (s : text) : markup_free (html_escape s) = true.
Proof.
  unfold html_escape, markup_free. induction s as [|c s IH]; [reflexivity|].
  cbn [flat_map]. rewrite forallb_app, IH, andb_true_r.
  apply escape_char_markup_free.
Qed.

Lemma mapM_ok_inv {A B} (f : A -> res B) (l : list A) :
  forall ys, mapM f l = Ok ys -> Forall2 (fun x y => f x = Ok y) l ys.
Proof.
  induction l as [|x l IH]; intros ys H; cbn [mapM] in H.
  - injection H as <-. constructor.
  - destruct (f x) as [y|e] eqn:Hx; [|discriminate H]. cbn in H.
    destruct (mapM f l) as [ys'|e] eqn:Hl; [|discriminate H]. cbn in H.
    injection H as <-. constructor; [exact Hx|now apply IH].
Qed.

Lemma render_dot_markup_free s d e p :
  render_dot s d e = Ok p -> part_markup_free p = true.
Proof.
  rewrite render_dot_total. intros [= <-]. unfold dot_at. cbn [part_markup_free].
  now rewrite !html_escape_markup_free.
Qed.

Lemma render_range_total s d r :
  render_range s d r
  = Ok (TimelineRange
          (if 0 <? d then Qred (inject_Z (diff (re_start r) s) / inject_Z d * 100)
           else 0%Q)
          (Qred ((if 0 <? d
                  then Qred (inject_Z (diff (re_end r) s) / inject_Z d * 100)
                  else 100%Q)
                 - (if 0 <? d
                    then Qred (inject_Z (diff (re_start r) s) / inject_Z d * 100)
                    else 0%Q)))
          (html_escape (get (re_data r) "time"))
          (html_escape (get (re_data r) "event"))).
Proof.
  unfold render_range. destruct (Z.ltb_spec 0 d) as [H|H].
  - now rewrite !percent_positive.
  - reflexivity.
Qed.

Lemma render_range_markup_free s d r p :
  render_range s d r = Ok p -> part_markup_free p = true.
Proof.
  rewrite render_range_total. intros [= <-]. cbn [part_markup_free].
  now rewrite !html_escape_markup_free.
Qed.

Lemma forallb_Forall2 {A B} (P : A -> B -> Prop) (q : B -> bool) l ys :
  Forall2 P l ys -> (forall x y, P x y -> q y = true) -> forallb q ys = true.
Proof.
  intros H Hq. induction H as [|x y l ys Hxy _ IH]; [reflexivity|].
  cbn [forallb]. now rewrite (Hq x y Hxy), IH.
Qed.

Lemma draw_inv ps rs parts :
  draw ps rs = Ok (Chart parts) ->
  exists s d bars dots,
    mapM (render_range s d) rs = Ok bars
    /\ mapM (render_point s d) ps = Ok dots
    /\ parts = bars ++ dots
    /\ dt_min ((pe_dt <$> ps) ++ (re_start <$> rs) ++ (re_end <$> rs)) = Ok s
    /\ exists e, dt_max ((pe_dt <$> ps) ++ (re_start <$> rs) ++ (re_end <$> rs)) = Ok e
                 /\ d = diff e s.
Proof.
  unfold draw. intros H.
  set (all := (pe_dt <$> ps) ++ (re_start <$> rs) ++ (re_end <$> rs)) in *.
  assert (H' : (start_time ← dt_min all;
                end_time ← dt_max all;
                let duration := diff end_time start_time in
                bars ← mapM (render_range start_time duration) rs;
                dots ← mapM (render_point start_time duration) ps;
                Ok (Chart (bars ++ dots))) = Ok (Chart parts)).
  { destruct ps, rs; first [discriminate H|exact H]. }
  clear H.
  destruct (dt_min all) as [s|] eqn:Hs; [|discriminate H']. cbn in H'.
  destruct (dt_max all) as [e|] eqn:He; [|discriminate H']. cbn in H'.
  destruct (mapM (render_range s (diff e s)) rs) as [bars|] eqn:Hb;
    [|discriminate H']. cbn in H'.
  destruct (mapM (render_point s (diff e s)) ps) as [dots|] eqn:Hd;
    [|discriminate H']. cbn in H'.
  injection H' as <-. exists s, (diff e s), bars, dots. eauto 10.
Qed.

Lemma render_timeline_with_events_inv evs parts :
  render_timeline_with_events evs = Ok (Chart parts) ->
  exists ps rs, classify evs = Ok (ps, rs) /\ draw ps rs = Ok (Chart parts).
Proof.
  unfold render_timeline_with_events.
  destruct (length evs <? 2)%nat; [discriminate|].
  destruct (classify evs) as [[ps rs]|]; [|discriminate]. cbn.
  intros H. now exists ps, rs.
Qed.

Lemma render_horizontal_timeline_inv evs parts :
  render_horizontal_timeline evs = Some (Ok (Chart parts)) ->
  exists s e markers labels dots,
    dt_min (parsed_starts evs).*1 = Ok s
    /\ dt_max (parsed_starts evs).*1 = Ok e
    /\ make_markers s e = Some (Ok markers)
    /\ render_labels markers s (diff e s) = Ok labels
    /\ mapM (render_dot s (diff e s)) (parsed_starts evs) = Ok dots
    /\ parts = labels ++ dots.
Proof.
  unfold render_horizontal_timeline. destruct evs as [|ev evs]; [discriminate|].
  generalize (parsed_starts (ev :: evs)). intros ps.
  destruct (length ps <? 2)%nat; [discriminate|].
  destruct (dt_min ps.*1) as [s|] eqn:Hs;
    [|destruct (dt_max ps.*1); discriminate].
  destruct (dt_max ps.*1) as [e|] eqn:He; [|discriminate].
  destruct (make_markers s e) as [[ms|]|] eqn:Hm; [|discriminate..].
  destruct (render_labels ms s (diff e s)) as [labels|] eqn:Hl; [|discriminate].
  cbn [mbind res_bind].
  destruct (mapM (render_dot s (diff e s)) ps) as [dots|] eqn:Hd;
    [|discriminate].
  cbn [mbind res_bind]. intros [= <-]. exists s, e, ms, labels, dots. auto 10.
Qed.

Lemma render_labels_inv markers s d labels :
  render_labels markers s d = Ok labels ->
  Forall (fun p => exists pos l, p = TimelineLabel pos l
                   /\ Qle_bool 0 pos = true /\ Qle_bool pos 100 = true) labels.
Proof.
  unfold render_labels. destruct (0 <? d); [|intros [= <-]; constructor].
  revert labels. induction markers as [|mk ms IH]; intros labels H; cbn [foldr] in H.
  - injection H as <-. constructor.
  - destruct (foldr _ _ ms) as [rest|] eqn:Hr; [|discriminate H]. cbn in H.
    destruct (percent _ d) as [pos|]; [|discriminate H]. cbn in H.
    destruct (Qle_bool 0 pos && Qle_bool pos 100) eqn:Hp; injection H as <-.
    + apply andb_prop in Hp as [H0 H1]. constructor; [|now apply IH].
      now exists pos, (marker_label mk).
    + now apply IH.
Qed.

(** X1.  Whatever the events hold, the time and the event text of every
    mark of a chart, from either renderer, have been through [html.escape]:
    they contain no angle bracket, no double quote and no apostrophe. *)
Theorem chart_texts_are_escaped (timeline_events : list event)
    (parts : list html_part) :
  render_timeline_with_events timeline_events = Ok (Chart parts)
  \/ render_horizontal_timeline timeline_events = Some (Ok (Chart parts)) ->
  forallb part_markup_free parts = true.
Proof.
  intros [H|H].
  - apply render_timeline_with_events_inv in H as (ps & rs & _ & H).
    apply draw_inv in H as (s & d & bars & dots & Hb & Hd & -> & _).
    rewrite forallb_app. apply andb_true_intro. split.
    + eapply forallb_Forall2; [exact (mapM_ok_inv _ _ _ Hb)|].
      intros x y. apply render_range_markup_free.
    + eapply forallb_Forall2; [exact (mapM_ok_inv _ _ _ Hd)|].
      intros x y. apply render_dot_markup_free.
  - apply render_horizontal_timeline_inv in H
      as (s & e & ms & labels & dots & _ & _ & _ & Hl & Hd & ->).
    rewrite forallb_app. apply andb_true_intro. split.
    + apply render_labels_inv in Hl.
      induction Hl as [|p labels (pos & l & -> & _) _ IH]; [reflexivity|exact IH].
    + eapply forallb_Forall2; [exact (mapM_ok_inv _ _ _ Hd)|].
      intros x y. apply render_dot_markup_free.
Qed.

(** *** Marks on the axis *)

Lemma fold_min_le (ds : list datetime) :
  forall d0,
    to_seconds (fold_left (fun acc x => if ltb x acc then x else acc) ds d0)
    <= to_seconds d0
    /\ Forall (fun d => to_seconds (fold_left (fun acc x => if ltb x acc then x else acc) ds d0)
                        <= to_seconds d) ds.
Proof.
  induction ds as [|x ds IH]; intros d0; cbn [fold_left]; [split; [lia|constructor]|].
  set (a := if ltb x d0 then x else d0).
  assert (Ha : to_seconds a <= to_seconds d0 /\ to_seconds a <= to_seconds x).
  { subst a. unfold ltb. destruct (Z.ltb_spec (to_seconds x) (to_seconds d0)); lia. }
  destruct (IH a) as [I1 I2]. split; [lia|]. constructor; [lia|exact I2].
Qed.

Lemma fold_max_ge (ds : list datetime) :
  forall d0,
    to_seconds d0
    <= to_seconds (fold_left (fun acc x => if ltb acc x then x else acc) ds d0)
    /\ Forall (fun d => to_seconds d
                        <= to_seconds (fold_left (fun acc x => if ltb acc x then x else acc) ds d0)) ds.
Proof.
  induction ds as [|x ds IH]; intros d0; cbn [fold_left]; [split; [lia|constructor]|].
  set (a := if ltb d0 x then x else d0).
  assert (Ha : to_seconds d0 <= to_seconds a /\ to_seconds x <= to_seconds a).
  { subst a. unfold ltb. destruct (Z.ltb_spec (to_seconds d0) (to_seconds x)); lia. }
  destruct (IH a) as [I1 I2]. split; [lia|]. constructor; [lia|exact I2].
Qed.

Lemma dt_min_le (ds : list datetime) (m : datetime) :
  dt_min ds = Ok m -> Forall (fun d => to_seconds m <= to_seconds d) ds.
Proof.
  destruct ds as [|d0 ds]; [discriminate|]. cbn [dt_min]. intros [= <-].
  destruct (fold_min_le ds d0) as [H1 H2]. now constructor.
Qed.

Lemma dt_max_ge (ds : list datetime) (m : datetime) :
  dt_max ds = Ok m -> Forall (fun d => to_seconds d <= to_seconds m) ds.
Proof.
  destruct ds as [|d0 ds]; [discriminate|]. cbn [dt_max]. intros [= <-].
  destruct (fold_max_ge ds d0) as [H1 H2]. now constructor.
Qed.

Lemma fraction_on_axis (x d : Z) :
  0 <= x <= d -> 0 < d -> on_axis (inject_Z x / inject_Z d * 100).
Proof.
  intros Hx Hd. destruct d as [|p|p]; try lia.
  unfold on_axis, Qle, Qdiv, Qmult, Qinv, inject_Z. cbn. split; nia.
Qed.

Lemma on_axis_Qred (q : Q) : on_axis q -> on_axis (Qred q).
Proof. unfold on_axis. now rewrite Qred_correct. Qed.

Lemma dot_position_on_axis (x d : Z) :
  0 <= x <= d -> on_axis (dot_position x d).
Proof.
  intros Hx. unfold dot_position. destruct (Z.ltb_spec 0 d).
  - now apply on_axis_Qred, fraction_on_axis.
  - split; discriminate.
Qed.

Lemma on_axis_eq (p q : Q) : (p == q)%Q -> on_axis p -> on_axis q.
Proof. unfold on_axis. intros ->. auto. Qed.

Lemma render_range_on_axis (s e : datetime) (r : range_event) (p : html_part) :
  to_seconds s <= to_seconds (re_start r) <= to_seconds e ->
  to_seconds s <= to_seconds (re_end r) <= to_seconds e ->
  render_range s (diff e s) r = Ok p -> part_on_axis p.
Proof.
  intros H1 H2. rewrite render_range_total. intros [= <-].
  cbn [part_on_axis]. unfold diff.
  destruct (Z.ltb_spec 0 (to_seconds e - to_seconds s)) as [Hd|Hd].
  - split.
    + apply on_axis_Qred, fraction_on_axis; lia.
    + eapply on_axis_eq;
        [|apply (fraction_on_axis (to_seconds (re_end r) - to_seconds s)
                   (to_seconds e - to_seconds s)); lia].
      rewrite !Qred_correct. ring.
  - split; [split; discriminate|].
    eapply (on_axis_eq 100); [rewrite Qred_correct; ring|split; discriminate].
Qed.

Lemma render_dot_on_axis (s e : datetime) (x : datetime * event) (p : html_part) :
  to_seconds s <= to_seconds x.1 <= to_seconds e ->
  render_dot s (diff e s) x = Ok p -> part_on_axis p.
Proof.
  intros H. rewrite render_dot_total. intros [= <-]. unfold dot_at.
  cbn [part_on_axis]. apply dot_position_on_axis. unfold diff. lia.
Qed.

Lemma Forall2_Forall_r {A B} (P : A -> B -> Prop) (Q1 : A -> Prop) (Q2 : B -> Prop)
    (l : list A) (ys : list B) :
  Forall2 P l ys -> Forall Q1 l -> (forall x y, Q1 x -> P x y -> Q2 y) ->
  Forall Q2 ys.
Proof.
  intros H HQ Himp. induction H as [|x y l ys Hxy _ IH]; [constructor|].
  apply Forall_cons_1 in HQ as [Hx HQ]. constructor; eauto.
Qed.

(** X2.  Every mark of a chart, from either renderer, lies on the axis:
    a label and a point sit between 0 and 100 per cent, and so do both ends
    of a bar. *)
Theorem chart_marks_on_axis (timeline_events : list event)
    (parts : list html_part) :
  render_timeline_with_events timeline_events = Ok (Chart parts)
  \/ render_horizontal_timeline timeline_events = Some (Ok (Chart parts)) ->
  Forall part_on_axis parts.
Proof.
  intros [H|H].
  - apply render_timeline_with_events_inv in H as (ps & rs & _ & H).
    apply draw_inv in H as (s & d & bars & dots & Hb & Hd & -> & Hs & e & He & ->).
    apply dt_min_le in Hs. apply dt_max_ge in He.
    apply Forall_app in Hs as [Hs1 Hs2]. apply Forall_app in Hs2 as [Hs2 Hs3].
    apply Forall_app in He as [He1 He2]. apply Forall_app in He2 as [He2 He3].
    rewrite Forall_fmap in Hs1. rewrite Forall_fmap in Hs2.
    rewrite Forall_fmap in Hs3. rewrite Forall_fmap in He1.
    rewrite Forall_fmap in He2. rewrite Forall_fmap in He3.
    apply Forall_app. split.
    + apply (Forall2_Forall_r _
               (fun r => (to_seconds s <= to_seconds (re_start r) <= to_seconds e)
                         /\ (to_seconds s <= to_seconds (re_end r) <= to_seconds e))
               _ _ _ (mapM_ok_inv _ _ _ Hb)).
      * rewrite Forall_forall in *. intros r Hr. cbn in *.
        specialize (Hs2 r Hr). specialize (Hs3 r Hr).
        specialize (He2 r Hr). specialize (He3 r Hr). lia.
      * intros r p [H1 H2]. now apply render_range_on_axis.
    + apply (Forall2_Forall_r _
               (fun x => to_seconds s <= to_seconds (pe_dt x) <= to_seconds e)
               _ _ _ (mapM_ok_inv _ _ _ Hd)).
      * rewrite Forall_forall in *. intros x Hx. cbn in *.
        specialize (Hs1 x Hx). specialize (He1 x Hx). lia.
      * intros x p Hx. unfold render_point. now apply render_dot_on_axis.
  - apply render_horizontal_timeline_inv in H
      as (s & e & ms & labels & dots & Hs & He & _ & Hl & Hd & ->).
    apply dt_min_le in Hs. apply dt_max_ge in He.
    rewrite Forall_fmap in Hs. rewrite Forall_fmap in He.
    apply Forall_app. split.
    + apply render_labels_inv in Hl. eapply Forall_impl; [exact Hl|].
      intros p (pos & l & -> & H0 & H1). cbn [part_on_axis].
      split; now apply Qle_bool_iff.
    + apply (Forall2_Forall_r _
               (fun x => to_seconds s <= to_seconds x.1 <= to_seconds e)
               _ _ _ (mapM_ok_inv _ _ _ Hd)).
      * rewrite Forall_forall in *. intros x Hx. cbn in *.
        specialize (Hs x Hx). specialize (He x Hx). lia.
      * intros x p Hx. now apply render_dot_on_axis.
Qed.

(** *** The ticks of the axis *)

(** The exact bounds of a valid datetime's fields. *)
Lemma valid_bounds (d : datetime) :
  valid d = true ->
  1 <= year d <= 9999 /\ 1 <= month d <= 12
  /\ 1 <= day d <= days_in_month (year d) (month d)
  /\ 0 <= hour d <= 23 /\ 0 <= minute d <= 59 /\ 0 <= second d <= 59.
Proof.
  unfold valid. intros Hv. repeat (apply andb_prop in Hv as [Hv ?]). lia.
Qed.

Lemma marker_loop_spec (start_time end_time step : Z) (fmt : label_format) :
  0 < step ->
  forall (fuel : nat) (cur : Z) (ms : list marker),
    marker_loop fuel start_time end_time step fmt cur = Some (Ok ms) ->
    forall t l,
      Marker t l ∈ ms
      <-> (exists k, 0 <= k /\ t = cur + k * step)
          /\ start_time - step <= t <= end_time + step
          /\ exists d, of_seconds t = Ok d /\ l = strftime d fmt.
Proof.
  intros Hstep fuel. induction fuel as [|fuel IH]; intros cur ms H; [discriminate H|].
  cbn [marker_loop] in H.
  destruct (checked (end_time + step)) as [limit|] eqn:Hl; [|discriminate H].
  apply checked_ok in Hl. subst limit.
  destruct (Z.leb_spec cur (end_time + step)) as [Hc|Hc].
  2:{ injection H as <-. intros t l. split.
      - intros Hin. inversion Hin.
      - intros ((k & Hk & ->) & Hb & _). nia. }
  destruct (checked (start_time - step)) as [lo|] eqn:Hlo; [|discriminate H].
  apply checked_ok in Hlo. subst lo.
  destruct (checked (cur + step)) as [next|] eqn:Hn.
  2:{ destruct (if start_time - step <=? cur then _ else _); discriminate H. }
  apply checked_ok in Hn. subst next.
  set (here := if start_time - step <=? cur
               then d ← of_seconds cur; Ok [Marker cur (strftime d fmt)]
               else Ok []) in H.
  destruct here as [hs|] eqn:Hh; [|discriminate H].
  destruct (marker_loop fuel start_time end_time step fmt (cur + step))
    as [[rest|]|] eqn:Hr; [|discriminate H..].
  injection H as <-. specialize (IH _ _ Hr).
  intros t l. rewrite elem_of_app, IH. clear IH. subst here. split.
  - intros [Hin|((k & Hk & ->) & Hb & Hd)].
    + destruct (Z.leb_spec (start_time - step) cur) as [Hlo|Hlo].
      * destruct (of_seconds cur) as [d|] eqn:Hd; [|discriminate Hh].
        cbn in Hh. injection Hh as <-.
        apply list_elem_of_singleton in Hin. injection Hin as -> ->.
        split; [exists 0; lia|]. split; [lia|]. now exists d.
      * injection Hh as <-. inversion Hin.
    + split; [exists (k + 1); lia|]. split; [lia|exact Hd].
  - intros ((k & Hk & ->) & Hb & d & Hd & ->).
    destruct (Z.eq_dec k 0) as [->|Hk0].
    + left. destruct (Z.leb_spec (start_time - step) cur) as [Hlo|Hlo]; [|lia].
      replace (cur + 0 * step) with cur in * by lia.
      rewrite Hd in Hh. cbn in Hh. injection Hh as <-. apply list_elem_of_here.
    + right. split; [exists (k - 1); lia|]. split; [lia|]. now exists d.
Qed.

Lemma grid_from (sm step lo hi t : Z) :
  0 < step -> sm mod step = 0 -> lo - step < sm <= lo ->
  ((exists k, 0 <= k /\ t = sm + k * step) /\ lo - step <= t <= hi)
  <-> (t mod step = 0 /\ lo - step < t <= hi).
Proof.
  intros Hs Hsm Hlo. split.
  - intros ((k & Hk & ->) & Hb). split; [|nia].
    now rewrite Z.mod_add by lia.
  - intros (Ht & Hb).
    apply Z.mod_divide in Hsm as [a Ha]; [|lia].
    apply Z.mod_divide in Ht as [b Hb']; [|lia].
    subst. split; [|lia]. exists (b - a). split; nia.
Qed.

Lemma start_marker_minutes (o h m s : Z) :
  0 <= m -> 0 <= s <= 59 ->
  let x := o * 86400 + h * 3600 + m * 60 + s in
  let sm := o * 86400 + h * 3600 + m * 60 + 0 - 60 * (m mod 10) in
  sm mod 600 = 0 /\ x - 600 < sm <= x.
Proof.
  intros Hm Hs x sm. subst x sm. split.
  - apply Z.mod_divide; [lia|]. exists (o * 144 + h * 6 + m / 10).
    Z.to_euclidean_division_equations. lia.
  - Z.to_euclidean_division_equations. lia.
Qed.

Lemma make_markers_spec (start_time end_time : datetime) (ms : list marker) :
  valid start_time = true ->
  1 < diff end_time start_time ->
  make_markers start_time end_time = Some (Ok ms) ->
  let step := axis_step (diff end_time start_time) in
  let fmt := axis_format (diff end_time start_time) in
  forall t l,
    Marker t l ∈ ms
    <-> t mod step = 0
        /\ to_seconds start_time - step < t <= to_seconds end_time + step
        /\ exists d, of_seconds t = Ok d /\ l = strftime d fmt.
Proof.
  intros Hv Hd H step fmt t l. subst step fmt.
  apply valid_bounds in Hv as (_ & _ & _ & Hh & Hm & Hs).
  unfold make_markers in H. unfold axis_step, axis_format.
  destruct (Z.ltb_spec 1 (diff end_time start_time)); [|lia].
  set (lo := to_seconds start_time) in *.
  assert (Hgrid : forall step sm fmt,
             0 < step -> sm mod step = 0 -> lo - step < sm <= lo ->
             marker_loop (S (Z.to_nat ((to_seconds end_time + step - sm) / step + 1)))
               lo (to_seconds end_time) step fmt sm = Some (Ok ms) ->
             Marker t l ∈ ms
             <-> t mod step = 0
                 /\ lo - step < t <= to_seconds end_time + step
                 /\ exists d, of_seconds t = Ok d /\ l = strftime d fmt).
  { intros step sm fmt G0 G1 G2 Hloop.
    rewrite (marker_loop_spec _ _ step _ G0 _ _ _ Hloop t l).
    pose proof (grid_from sm step lo (to_seconds end_time + step) t G0 G1 G2).
    tauto. }
  destruct (diff end_time start_time <? 2 * 3600).
  - destruct (checked _) as [sm|] eqn:Hsm; [|discriminate H].
    apply checked_ok in Hsm. subst sm.
    pose proof (start_marker_minutes
                  (ymd2ord (year start_time) (month start_time) (day start_time))
                  (hour start_time) (minute start_time) (second start_time)
                  ltac:(lia) ltac:(lia)) as A.
    cbv zeta in A. destruct A as [A1 A2].
    refine (Hgrid 600 _ Fmt_HM _ _ _ H); [lia|exact A1|exact A2].
  - destruct (diff end_time start_time <? 2 * 86400).
    + refine (Hgrid 3600 _ Fmt_H00 _ _ _ H); [lia|..];
        subst lo; unfold to_seconds, replace_minute0;
        cbn [year month day hour minute second].
      * apply Z.mod_divide; [lia|].
        exists (ymd2ord (year start_time) (month start_time) (day start_time) * 24
                + hour start_time). lia.
      * lia.
    + refine (Hgrid 86400 _ Fmt_bd _ _ _ H); [lia|..];
        subst lo; unfold to_seconds, replace_hour0;
        cbn [year month day hour minute second].
      * apply Z.mod_divide; [lia|].
        exists (ymd2ord (year start_time) (month start_time) (day start_time)). lia.
      * lia.
Qed.

Lemma fraction_on_axis_iff (x d : Z) :
  0 < d ->
  Qle_bool 0 (Qred (inject_Z x / inject_Z d * 100))
  && Qle_bool (Qred (inject_Z x / inject_Z d * 100)) 100 = true
  <-> 0 <= x <= d.
Proof.
  intros Hd. rewrite andb_true_iff, !Qle_bool_iff, !Qred_correct.
  destruct d as [|p|p]; try lia.
  unfold Qle, Qdiv, Qmult, Qinv, inject_Z. cbn. lia.
Qed.

Lemma render_labels_spec (ms : list marker) (s : datetime) (d : Z)
    (labels : list html_part) :
  0 < d ->
  render_labels ms s d = Ok labels ->
  forall pos l,
    TimelineLabel pos l ∈ labels
    <-> exists t, Marker t l ∈ ms
                  /\ pos = Qred (inject_Z (t - to_seconds s) / inject_Z d * 100)
                  /\ 0 <= t - to_seconds s <= d.
Proof.
  intros Hd. unfold render_labels. destruct (Z.ltb_spec 0 d) as [_|?]; [|lia].
  revert labels. induction ms as [|[t0 l0] ms IH]; intros labels H pos l; cbn [foldr] in H.
  - injection H as <-. split; [intros Hin; inversion Hin|].
    intros (t & Hin & _). inversion Hin.
  - destruct (foldr _ _ ms) as [rest|] eqn:Hr; [|discriminate H].
    cbn [mbind res_bind] in H. cbn [marker_dt marker_label] in H.
    rewrite percent_positive in H by exact Hd. cbn [mbind res_bind] in H.
    specialize (IH rest eq_refl pos l).
    pose proof (fraction_on_axis_iff (t0 - to_seconds s) d Hd) as Hax.
    destruct (Qle_bool 0 _ && Qle_bool _ 100) eqn:Hp; injection H as <-.
    + rewrite elem_of_cons, IH. split.
      * intros [Heq|(t & Hin & Ht)].
        -- injection Heq as -> ->. exists t0. split; [apply list_elem_of_here|].
           split; [reflexivity|]. now apply Hax.
        -- exists t. split; [now apply list_elem_of_further|exact Ht].
      * intros (t & Hin & -> & Ht). apply elem_of_cons in Hin as [Heq|Hin].
        -- injection Heq as -> ->. now left.
        -- right. now exists t.
    + rewrite IH. split.
      * intros (t & Hin & Ht). exists t. split; [now apply list_elem_of_further|exact Ht].
      * intros (t & Hin & -> & Ht). apply elem_of_cons in Hin as [Heq|Hin].
        -- injection Heq as -> ->. apply Hax in Ht. congruence.
        -- now exists t.
Qed.

Lemma fold_min_in (ds : list datetime) :
  forall d0, fold_left (fun acc x => if ltb x acc then x else acc) ds d0 ∈ d0 :: ds.
Proof.
  induction ds as [|x ds IH]; intros d0; cbn [fold_left]; [apply list_elem_of_here|].
  specialize (IH (if ltb x d0 then x else d0)).
  apply elem_of_cons in IH as [Heq|Hin].
  - rewrite Heq. destruct (ltb x d0).
    + apply list_elem_of_further, list_elem_of_here.
    + apply list_elem_of_here.
  - now apply list_elem_of_further, list_elem_of_further.
Qed.

Lemma dt_min_in (ds : list datetime) (m : datetime) : dt_min ds = Ok m -> m ∈ ds.
Proof.
  destruct ds as [|d0 ds]; [discriminate|]. cbn [dt_min]. intros [= <-].
  apply fold_min_in.
Qed.

Lemma strptime_valid (s : text) (fmt : list directive) (d : datetime) :
  strptime s fmt = Some d -> valid d = true.
Proof.
  unfold strptime. destruct (strptime_fields _ _ _) as [d'|]; [|discriminate].
  destruct (valid d') eqn:Hv; [|discriminate]. now intros [= <-].
Qed.

Lemma try_formats_valid (s : text) (d : datetime) :
  try_formats s = Some d -> valid d = true.
Proof.
  unfold try_formats. destruct (strptime s fmt_YmdHMS) as [d'|] eqn:H1.
  - intros [= <-]. now apply strptime_valid in H1.
  - apply strptime_valid.
Qed.

Lemma parse_start_time_valid (s : text) (d : datetime) :
  parse_start_time s = Some d -> valid d = true.
Proof.
  unfold parse_start_time. destruct (rmatch _ s); [|discriminate].
  apply try_formats_valid.
Qed.

Lemma parsed_starts_valid (evs : list event) :
  Forall (fun x => valid x.1 = true) (parsed_starts evs).
Proof.
  unfold parsed_starts. induction evs as [|ev evs IH]; [constructor|].
  cbn [omap list_omap].
  destruct (parse_start_time (get ev "time")) as [d|] eqn:Hd; cbn; [|exact IH].
  constructor; [now apply parse_start_time_valid in Hd|exact IH].
Qed.

(** X3.  The ticks of [render_horizontal_timeline].  With start and end
    the earliest and the latest timestamp, a label is drawn exactly for every
    instant between them that is a multiple of the tick distance -- ten
    minutes on an axis of less than two hours, an hour on one of less than
    two days, a day otherwise -- provided the axis spans more than a second;
    it shows the time of the instant in the format of that distance and sits
    at the instant's share of the axis. *)
Theorem axis_ticks (timeline_events : list event) (parts : list html_part)
    (start_time end_time : datetime) :
  render_horizontal_timeline timeline_events = Some (Ok (Chart parts)) ->
  dt_min (parsed_starts timeline_events).*1 = Ok start_time ->
  dt_max (parsed_starts timeline_events).*1 = Ok end_time ->
  let duration := diff end_time start_time in
  forall pos l,
    TimelineLabel pos l ∈ parts
    <-> 1 < duration
        /\ exists t d,
             t mod axis_step duration = 0
             /\ to_seconds start_time <= t <= to_seconds end_time
             /\ of_seconds t = Ok d
             /\ l = strftime d (axis_format duration)
             /\ pos = Qred (inject_Z (t - to_seconds start_time)
                            / inject_Z duration * 100).
Proof.
  intros H Hs He duration pos l.
  apply render_horizontal_timeline_inv in H
    as (s & e & ms & labels & dots & Hs' & He' & Hm & Hl & Hd & ->).
  rewrite Hs in Hs'. rewrite He in He'. injection Hs' as <-. injection He' as <-.
  fold duration in Hl, Hd.
  assert (Hv : valid start_time = true).
  { apply dt_min_in in Hs. apply list_elem_of_fmap in Hs as (x & -> & Hx).
    pose proof (parsed_starts_valid timeline_events) as Hall.
    rewrite Forall_forall in Hall. now apply Hall. }
  assert (Hdots : TimelineLabel pos l ∉ dots).
  { intros Hin. apply mapM_ok_inv in Hd.
    apply (Forall2_Forall_r _ (fun _ => True) (fun p => p <> TimelineLabel pos l)) in Hd.
    - rewrite Forall_forall in Hd. now apply (Hd _ Hin).
    - now apply Forall_forall.
    - intros x y _. rewrite render_dot_total. intros [= <-]. discriminate. }
  rewrite elem_of_app. split.
  - intros [Hin|Hin]; [|now elim Hdots].
    destruct (Z.ltb_spec 1 duration) as [H1|H1].
    + split; [exact H1|].
      apply (render_labels_spec ms start_time duration labels ltac:(lia) Hl) in Hin
        as (t & Hin & -> & Ht).
      apply (make_markers_spec start_time end_time ms Hv H1 Hm) in Hin
        as (Hg & Hb & d & Hd1 & ->).
      exists t, d. unfold duration, diff in Ht. repeat split; try assumption; lia.
    + unfold make_markers in Hm. fold duration in Hm.
      destruct (Z.ltb_spec 1 duration); [lia|]. injection Hm as <-.
      rewrite render_labels_nil in Hl. injection Hl as <-. inversion Hin.
  - intros (H1 & t & d & Hg & Hb & Hd1 & -> & ->). left.
    apply (render_labels_spec ms start_time duration labels ltac:(lia) Hl).
    exists t. split; [|split; [reflexivity|unfold duration, diff; lia]].
    apply (make_markers_spec start_time end_time ms Hv H1 Hm).
    fold duration. split; [exact Hg|]. split; [|now exists d].
    unfold axis_step. destruct (duration <? 2 * 3600); [lia|].
    destruct (duration <? 2 * 86400); lia.
Qed.

(** *** The date arithmetic of the ticks *)

Lemma in_range_iff (z : Z) :
  in_range z = true <-> 86400 <= z < (MAXORDINAL + 1) * 86400.
Proof.
  unfold in_range, MAXORDINAL. rewrite andb_true_iff, Z.ltb_lt, Z.leb_le.
  Z.to_euclidean_division_equations. lia.
Qed.

Lemma checked_in_range (z : Z) :
  86400 <= z < (MAXORDINAL + 1) * 86400 -> checked z = Ok z.
Proof. intros H. unfold checked. now rewrite (proj2 (in_range_iff z) H). Qed.

Lemma of_seconds_in_range (z : Z) :
  86400 <= z < (MAXORDINAL + 1) * 86400 -> exists d, of_seconds z = Ok d.
Proof.
  intros H. apply in_range_iff in H. unfold in_range in H. unfold of_seconds.
  rewrite H. destruct (ord2ymd _) as [[y m] d]. eauto.
Qed.

Lemma marker_loop_no_raise (start_time end_time step : Z) (fmt : label_format) :
  0 < step ->
  start_time <= end_time ->
  86400 <= start_time - step ->
  end_time + 2 * step < (MAXORDINAL + 1) * 86400 ->
  forall (fuel : nat) (cur : Z) (e : exn),
    start_time - step <= cur ->
    marker_loop fuel start_time end_time step fmt cur <> Some (Raise e).
Proof.
  intros Hstep Hse Hlo Hhi fuel.
  induction fuel as [|fuel IH]; intros cur e Hcur; [discriminate|].
  cbn [marker_loop].
  rewrite (checked_in_range (end_time + step)) by lia.
  destruct (Z.leb_spec cur (end_time + step)) as [Hc|Hc]; [|discriminate].
  rewrite (checked_in_range (start_time - step)) by lia.
  rewrite (checked_in_range (cur + step)) by lia.
  destruct (Z.leb_spec (start_time - step) cur); [|lia].
  destruct (of_seconds_in_range cur ltac:(lia)) as [d ->]. cbn [mbind res_bind].
  specialize (IH (cur + step)).
  destruct (marker_loop fuel start_time end_time step fmt (cur + step))
    as [[rest|e']|]; [discriminate| |discriminate].
  now elim (IH e' ltac:(lia)).
Qed.

Lemma days_before_year_bounds (y : Z) :
  2 <= y <= 9998 -> 365 <= days_before_year y <= 3651329.
Proof.
  intros H. unfold days_before_year. Z.to_euclidean_division_equations. lia.
Qed.

Lemma day_of_year_bounds (y m d : Z) :
  1 <= m <= 12 -> 1 <= d <= days_in_month y m ->
  1 <= days_before_month y m + d <= 366.
Proof.
  intros Hm Hd. unfold days_before_month, days_in_month in *.
  assert (Hk : (1 <= Z.to_nat m <= 12)%nat) by lia.
  assert (Hz : m = Z.of_nat (Z.to_nat m)) by lia.
  revert Hk Hz Hd. generalize (Z.to_nat m). intros k Hk Hz.
  destruct (is_leap y);
    do 13 (destruct k as [|k];
           [try lia; cbn [nth];
            match goal with
            | |- context [m =? 2] => destruct (Z.eqb_spec m 2)
            end;
            match goal with
            | |- context [2 <? m] => destruct (Z.ltb_spec 2 m)
            end; cbn [andb]; lia|]);
    lia.
Qed.

(** A datetime of the years 2 to 9998 is more than a day away from both
    ends of what [datetime] can hold. *)
Lemma to_seconds_window (d : datetime) :
  valid d = true -> 2 <= year d <= 9998 ->
  366 * 86400 <= to_seconds d < 3651696 * 86400.
Proof.
  intros Hv Hy. apply valid_bounds in Hv as (_ & Hm & Hd & Hh & Hmi & Hs).
  pose proof (days_before_year_bounds (year d) Hy).
  pose proof (day_of_year_bounds (year d) (month d) (day d) Hm Hd).
  unfold to_seconds, ymd2ord. lia.
Qed.

Lemma fold_max_in (ds : list datetime) :
  forall d0, fold_left (fun acc x => if ltb acc x then x else acc) ds d0 ∈ d0 :: ds.
Proof.
  induction ds as [|x ds IH]; intros d0; cbn [fold_left]; [apply list_elem_of_here|].
  specialize (IH (if ltb d0 x then x else d0)).
  apply elem_of_cons in IH as [Heq|Hin].
  - rewrite Heq. destruct (ltb d0 x).
    + apply list_elem_of_further, list_elem_of_here.
    + apply list_elem_of_here.
  - now apply list_elem_of_further, list_elem_of_further.
Qed.

Lemma dt_max_in (ds : list datetime) (m : datetime) : dt_max ds = Ok m -> m ∈ ds.
Proof.
  destruct ds as [|d0 ds]; [discriminate|]. cbn [dt_max]. intros [= <-].
  apply fold_max_in.
Qed.

Lemma render_labels_returns (ms : list marker) (s : datetime) (d : Z) :
  exists labels, render_labels ms s d = Ok labels.
Proof.
  unfold render_labels. destruct (Z.ltb_spec 0 d) as [Hd|Hd]; [|eauto].
  induction ms as [|mk ms [labels IH]]; cbn [foldr]; [eauto|].
  rewrite IH. cbn [mbind res_bind]. rewrite percent_positive by exact Hd.
  cbn [mbind res_bind]. destruct (_ && _); eauto.
Qed.

Lemma make_markers_in_window (start_time end_time : datetime) :
  valid start_time = true ->
  to_seconds start_time <= to_seconds end_time ->
  2 * 86400 <= to_seconds start_time ->
  to_seconds end_time + 2 * 86400 < (MAXORDINAL + 1) * 86400 ->
  exists ms, make_markers start_time end_time = Some (Ok ms).
Proof.
  intros Hv Hse Hlo Hhi.
  pose proof (make_markers_returns start_time end_time) as Hsome.
  destruct (make_markers start_time end_time) as [[ms|e]|] eqn:Hm;
    [eauto| |now elim Hsome].
  exfalso. clear Hsome. unfold make_markers in Hm.
  apply valid_bounds in Hv as (_ & _ & _ & Hh & Hmi & Hs).
  destruct (1 <? diff end_time start_time); [|discriminate Hm].
  destruct (diff end_time start_time <? 2 * 3600).
  - pose proof (start_marker_minutes
                  (ymd2ord (year start_time) (month start_time) (day start_time))
                  (hour start_time) (minute start_time) (second start_time)
                  ltac:(lia) ltac:(lia)) as A.
    cbv zeta in A. destruct A as [_ A].
    change (ymd2ord (year start_time) (month start_time) (day start_time) * 86400
            + hour start_time * 3600 + minute start_time * 60 + second start_time)
      with (to_seconds start_time) in A.
    change (ymd2ord (year start_time) (month start_time) (day start_time) * 86400
            + hour start_time * 3600 + minute start_time * 60 + 0)
      with (to_seconds (replace_second0 start_time)) in A.
    rewrite checked_in_range in Hm by lia.
    revert Hm. apply marker_loop_no_raise; lia.
  - destruct (diff end_time start_time <? 2 * 86400);
      revert Hm; apply marker_loop_no_raise; try lia;
      unfold to_seconds, replace_minute0, replace_hour0 in *;
      cbn [year month day hour minute second]; lia.
Qed.

(** X4.  With every timestamp in the years 2 to 9998
    [render_horizontal_timeline] returns its placeholder or its chart: the
    loop over the ticks comes to an end, and its date arithmetic stays inside
    what [datetime] can hold. *)
Theorem horizontal_timeline_returns (timeline_events : list event) :
  (forall ev d, ev ∈ timeline_events ->
                parse_start_time (get ev "time") = Some d -> 2 <= year d <= 9998) ->
  exists o, render_horizontal_timeline timeline_events = Some (Ok o).
Proof.
  intros Hy. unfold render_horizontal_timeline.
  destruct timeline_events as [|ev0 evs]; [eauto|].
  set (evs0 := ev0 :: evs) in *.
  assert (Hwin : Forall (fun x => valid x.1 = true /\ 2 <= year x.1 <= 9998)
                        (parsed_starts evs0)).
  { apply Forall_forall. intros [d ev] Hin. unfold parsed_starts in Hin.
    apply list_elem_of_omap in Hin as (ev' & Hev & Hp).
    destruct (parse_start_time (get ev' "time")) as [d'|] eqn:Hd; [|discriminate Hp].
    cbn in Hp. injection Hp as <- <-. cbn [fst].
    split; [now apply parse_start_time_valid in Hd|now apply (Hy ev')]. }
  generalize dependent (parsed_starts evs0). intros ps Hwin.
  destruct (Nat.ltb_spec (length ps) 2) as [Hlen|Hlen]; [eauto|].
  destruct ps as [|p0 ps]; [cbn in Hlen; lia|].
  destruct (dt_min (p0 :: ps).*1) as [s|] eqn:Hs; [|discriminate Hs].
  destruct (dt_max (p0 :: ps).*1) as [e|] eqn:He; [|discriminate He].
  rewrite Forall_forall in Hwin.
  pose proof (dt_min_in _ _ Hs) as Hsin. pose proof (dt_max_in _ _ He) as Hein.
  apply list_elem_of_fmap in Hsin as (xs & -> & Hxs).
  apply list_elem_of_fmap in Hein as (xe & -> & Hxe).
  destruct (Hwin _ Hxs) as [Hvs Hys]. destruct (Hwin _ Hxe) as [Hve Hye].
  pose proof (to_seconds_window _ Hvs Hys) as Hws.
  pose proof (to_seconds_window _ Hve Hye) as Hwe.
  assert (Hse : to_seconds xs.1 <= to_seconds xe.1).
  { apply dt_min_le in Hs. rewrite Forall_forall in Hs. apply Hs.
    apply list_elem_of_fmap. now exists xe. }
  destruct (make_markers_in_window xs.1 xe.1 Hvs Hse) as [ms ->];
    [lia|unfold MAXORDINAL; lia|].
  destruct (render_labels_returns ms xs.1 (diff xe.1 xs.1)) as [labels ->].
  cbn [mbind res_bind].
  rewrite (mapM_total _ _ _ (render_dot_total xs.1 (diff xe.1 xs.1))).
  cbn [mbind res_bind]. eauto.
Qed.

Lemma chart_texts_are_escaped_witness :
  exists parts,
    render_timeline_with_events markup_events = Ok (Chart parts)
    /\ forallb part_markup_free parts = true.
Proof.
  eexists. split; [vm_compute; reflexivity|].
  apply (chart_texts_are_escaped markup_events). left. vm_compute. reflexivity.
Defined.

Lemma chart_marks_on_axis_witness :
  exists parts,
    render_horizontal_timeline markup_events = Some (Ok (Chart parts))
    /\ Forall part_on_axis parts.
Proof.
  eexists. split; [vm_compute; reflexivity|].
  apply (chart_marks_on_axis markup_events). right. vm_compute. reflexivity.
Defined.

Lemma axis_ticks_witness :
  exists parts,
    render_horizontal_timeline half_hour_events = Some (Ok (Chart parts))
    /\ let start_time := DT 2024 1 15 16 30 0 in
       let end_time := DT 2024 1 15 16 55 0 in
       let duration := diff end_time start_time in
       (TimelineLabel 40 (txt "16:40") ∈ parts
        <-> 1 < duration
            /\ exists t d,
                 t mod axis_step duration = 0
                 /\ to_seconds start_time <= t <= to_seconds end_time
                 /\ of_seconds t = Ok d
                 /\ txt "16:40" = strftime d (axis_format duration)
                 /\ 40%Q = Qred (inject_Z (t - to_seconds start_time)
                                 / inject_Z duration * 100)).
Proof.
  eexists. split; [vm_compute; reflexivity|].
  apply (axis_ticks half_hour_events _ (DT 2024 1 15 16 30 0) (DT 2024 1 15 16 55 0)).
  - vm_compute. reflexivity.
  - vm_compute. reflexivity.
  - vm_compute. reflexivity.
Defined.

Lemma horizontal_timeline_returns_witness :
  exists o, render_horizontal_timeline half_hour_events = Some (Ok o).
Proof.
  apply (horizontal_timeline_returns half_hour_events).
  intros ev d Hin Hp. unfold half_hour_events in Hin.
  apply elem_of_cons in Hin as [->|Hin];
    [|apply elem_of_cons in Hin as [->|Hin]; [|inversion Hin]];
    vm_compute in Hp; injection Hp as <-; cbn [year]; lia.
Defined.

(** ** The two point parsers *)

Lemma parse_start_time_seconds sp y1 y2 y3 y4 o1 o2 d1 d2 h1 h2 m1 m2 s1 s2 rest :
  py_isspace sp = true ->
  Forall (fun c => py_isdigit c = true)
         [y1; y2; y3; y4; o1; o2; d1; d2; h1; h2; m1; m2; s1; s2] ->
  let d := DT (num4 y1 y2 y3 y4) (num2 o1 o2) (num2 d1 d2)
              (num2 h1 h2) (num2 m1 m2) (num2 s1 s2) in
  parse_start_time (stamp19 sp y1 y2 y3 y4 o1 o2 d1 d2 h1 h2 m1 m2 s1 s2 ++ rest)
  = if valid d then Some d else None.
Proof.
  intros Hsp H d. unfold parse_start_time.
  assert (H12 : Forall (fun c => py_isdigit c = true)
                  [y1; y2; y3; y4; o1; o2; d1; d2; h1; h2; m1; m2]).
  { repeat (apply Forall_cons_1 in H as [? H]). repeat constructor; assumption. }
  assert (Hs : py_isdigit s1 = true /\ py_isdigit s2 = true).
  { repeat (apply Forall_cons_1 in H as [? H]). split; assumption. }
  rewrite rmatch_stamp_seconds by (try exact Hsp; tauto).
  cbn [m_caps group Nat.eqb].
  now rewrite try_formats_seconds.
Qed.

Lemma parse_start_time_minutes sp y1 y2 y3 y4 o1 o2 d1 d2 h1 h2 m1 m2 rest :
  py_isspace sp = true ->
  Forall (fun c => py_isdigit c = true)
         [y1; y2; y3; y4; o1; o2; d1; d2; h1; h2; m1; m2] ->
  no_seconds_ahead rest = true ->
  let d := DT (num4 y1 y2 y3 y4) (num2 o1 o2) (num2 d1 d2)
              (num2 h1 h2) (num2 m1 m2) 0 in
  parse_start_time (stamp16 sp y1 y2 y3 y4 o1 o2 d1 d2 h1 h2 m1 m2 ++ rest)
  = if valid d then Some d else None.
Proof.
  intros Hsp H Hr d. unfold parse_start_time.
  rewrite rmatch_stamp_minutes by (try exact Hsp; assumption).
  cbn [m_caps group Nat.eqb].
  now rewrite try_formats_minutes.
Qed.

(** X6.  The point parser of [render_horizontal_timeline] accepts what
    the one of [render_timeline_with_events] accepts, with the same result,
    and besides any other white-space character between date and time: what
    it accepts reads the same once that character is a blank. *)
Theorem point_parsers_differ_in_separator :
  (forall s d, parse_time s = Some d -> parse_start_time s = Some d)
  /\ (forall s d,
        parse_start_time s = Some d ->
        exists date sp tail,
          s = date ++ sp :: tail /\ length date = 10%nat
          /\ py_isspace sp = true
          /\ parse_time (date ++ " "%char :: tail) = Some d).
Proof.
  split.
  - intros s d H. pose proof H as H0. unfold parse_time in H.
    destruct (rmatch (Group 1 (STAMP (CChar " "))) s) as [m|] eqn:Hm; [|discriminate].
    apply rmatch_stamp_inv in Hm as
        (sp & y1 & y2 & y3 & y4 & o1 & o2 & d1 & d2 & h1 & h2 & m1 & m2
         & Hsep & Hdig & Hcase).
    apply Ascii.eqb_eq in Hsep as ->.
    pose proof Hdig as Hdig'.
    repeat (apply Forall_cons_1 in Hdig' as [? Hdig']).
    destruct Hcase as [(s1 & s2 & rest & Hs1 & Hs2 & -> & Hg) | (rest & Hr & -> & Hg)].
    + rewrite parse_time_seconds in H0 by (repeat constructor; assumption).
      now rewrite parse_start_time_seconds
        by (try reflexivity; repeat constructor; assumption).
    + rewrite parse_time_minutes in H0 by assumption.
      now rewrite parse_start_time_minutes by (try reflexivity; assumption).
  - intros s d H. pose proof H as H0. unfold parse_start_time in H.
    destruct (rmatch (Group 1 (STAMP CSpace)) s) as [m|] eqn:Hm; [|discriminate].
    apply rmatch_stamp_inv in Hm as
        (sp & y1 & y2 & y3 & y4 & o1 & o2 & d1 & d2 & h1 & h2 & m1 & m2
         & Hsep & Hdig & Hcase).
    cbn [cset_mem] in Hsep.
    pose proof Hdig as Hdig'.
    repeat (apply Forall_cons_1 in Hdig' as [? Hdig']).
    exists (date10 y1 y2 y3 y4 o1 o2 d1 d2), sp.
    destruct Hcase as [(s1 & s2 & rest & Hs1 & Hs2 & -> & Hg) | (rest & Hr & -> & Hg)].
    + exists ([h1; h2; ":"; m1; m2; ":"; s1; s2]%char ++ rest).
      split; [reflexivity|]. split; [reflexivity|]. split; [exact Hsep|].
      rewrite parse_start_time_seconds in H0
        by (try assumption; repeat constructor; assumption).
      change (date10 y1 y2 y3 y4 o1 o2 d1 d2
              ++ " "%char :: [h1; h2; ":"; m1; m2; ":"; s1; s2]%char ++ rest)
        with (stamp19 " " y1 y2 y3 y4 o1 o2 d1 d2 h1 h2 m1 m2 s1 s2 ++ rest).
      now rewrite parse_time_seconds by (repeat constructor; assumption).
    + exists ([h1; h2; ":"; m1; m2]%char ++ rest).
      split; [reflexivity|]. split; [reflexivity|]. split; [exact Hsep|].
      rewrite parse_start_time_minutes in H0 by assumption.
      change (date10 y1 y2 y3 y4 o1 o2 d1 d2
              ++ " "%char :: [h1; h2; ":"; m1; m2]%char ++ rest)
        with (stamp16 " " y1 y2 y3 y4 o1 o2 d1 d2 h1 h2 m1 m2 ++ rest).
      now rewrite parse_time_minutes by assumption.
Qed.

(** ** Ranges that end with a full timestamp *)

Lemma digit_not_colon (c : ascii) : py_isdigit c = true -> Ascii.eqb c ":" = false.
Proof.
  destruct c as [[] [] [] [] [] [] [] []]; intros H; try discriminate H; reflexivity.
Qed.

(** The pattern of a time of day fails where a year is written. *)
Lemma run_time_on_year (dc : cset) (y1 y2 y3 : ascii) (b a : text) (cs : caps)
    (k : kont) :
  py_isdigit y3 = true ->
  run (HHMM_SS dc) b (y1 :: y2 :: y3 :: a) cs k = None.
Proof.
  intros H3. cbn [run Seqs HHMM_SS Rep cset_mem].
  rewrite (digit_not_colon _ H3).
  destruct (cset_mem dc y1); [|reflexivity].
  destruct (cset_mem dc y2); reflexivity.
Qed.

Section FullRangeMatch.
Variables (y1 y2 y3 y4 o1 o2 d1 d2 h1 h2 m1 m2 : ascii).
Variables (z1 z2 z3 z4 p1 p2 e1 e2 g1 g2 n1 n2 : ascii).
Variables (so eo : option (ascii * ascii)) (ws1 ws2 rest : text).
Hypothesis Hstart :
  Forall (fun c => py_isdigit c = true)
         [y1; y2; y3; y4; o1; o2; d1; d2; h1; h2; m1; m2].
Hypothesis Hend :
  Forall (fun c => py_isdigit c = true)
         [z1; z2; z3; z4; p1; p2; e1; e2; g1; g2; n1; n2].
Hypothesis Hso : opt_sec_ok so.
Hypothesis Heo : opt_sec_ok eo.
Hypothesis Hws1 : Forall (fun c => py_isspace c = true) ws1.
Hypothesis Hws2 : Forall (fun c => py_isspace c = true) ws2.
Hypothesis Hrest : eo = None -> no_seconds_ahead rest = true.

Let L := stamp16 " " y1 y2 y3 y4 o1 o2 d1 d2 h1 h2 m1 m2 ++ opt_sec so.
Let R := stamp16 " " z1 z2 z3 z4 p1 p2 e1 e2 g1 g2 n1 n2 ++ opt_sec eo.

Lemma run_full_end (b : text) (cs : caps) (k : kont) (m : mres) :
  k (rev R ++ b) rest ((2%nat, R) :: cs) = Some m ->
  run (Group 2 (Alt (HHMM_SS CDigit) (STAMP (CChar " ")))) b (R ++ rest) cs k
  = Some m.
Proof.
  intros Hk.
  pose proof Hend as Hend'. repeat (apply Forall_cons_1 in Hend' as [? Hend']).
  cbn [run].
  assert (Hno : forall k', run (HHMM_SS CDigit) b (R ++ rest) cs k' = None).
  { intros k'. subst R. unfold stamp16. cbn [app].
    now apply run_time_on_year. }
  rewrite Hno. unfold orelse, STAMP, R.
  apply run_stamp_ok; try assumption; try reflexivity.
  fold R. now rewrite consumed_app.
Qed.

Lemma rmatch_full_range :
  exists m, rmatch RANGE_RE (L ++ ws1 ++ "-"%char :: ws2 ++ R ++ rest) = Some m
            /\ group 1 (m_caps m) = L /\ group 2 (m_caps m) = R.
Proof.
  unfold rmatch, match_at, RANGE_RE, STAMP.
  set (G2 := Group 2 _). cbn [Seqs run].
  exists (MRes (rev R ++ rev ws2 ++ "-"%char :: rev ws1 ++ rev L ++ []) rest
               [(2%nat, R); (1%nat, L)]).
  split; [|split; reflexivity].
  pose proof Hend as Hend'. repeat (apply Forall_cons_1 in Hend' as [? Hend']).
  apply run_stamp_ok; try assumption; try reflexivity.
  { intros _. now apply no_seconds_ahead_ws. }
  fold L. rewrite consumed_app.
  apply star_greedy_run; [assumption|reflexivity|].
  cbn [cset_mem Ascii.eqb Bool.eqb].
  apply star_greedy_run; [assumption| |].
  { subst R. unfold stamp16. cbn [app stops cset_mem].
    now rewrite digit_not_space. }
  subst G2. now apply run_full_end.
Qed.

Lemma rmatch_bare_time_full : rmatch BARE_TIME_RE R = None.
Proof.
  pose proof Hend as Hend'. repeat (apply Forall_cons_1 in Hend' as [? Hend']).
  unfold rmatch, match_at, BARE_TIME_RE. cbn [Seqs run at_bol].
  subst R. unfold stamp16. cbn [app]. now apply run_time_on_year.
Qed.

Lemma classify_event_full_range (ev : event) :
  rest = [] ->
  get ev "time" = L ++ ws1 ++ "-"%char :: ws2 ++ R ++ rest ->
  let s := DT (num4 y1 y2 y3 y4) (num2 o1 o2) (num2 d1 d2)
              (num2 h1 h2) (num2 m1 m2) (opt_sec_val so) in
  let e := DT (num4 z1 z2 z3 z4) (num2 p1 p2) (num2 e1 e2)
              (num2 g1 g2) (num2 n1 n2) (opt_sec_val eo) in
  classify_event ev
  = Ok ([], if valid s && valid e then [Ranged s e ev] else []).
Proof.
  intros Hr Ht s e. unfold classify_event. rewrite Ht.
  destruct rmatch_full_range as (m & -> & -> & ->).
  rewrite rmatch_bare_time_full.
  cbn [mbind res_bind].
  rewrite <- (app_nil_r L), <- (app_nil_r R). unfold L, R.
  rewrite !parse_time_written by (try assumption; reflexivity).
  fold s e. destruct (valid s), (valid e); reflexivity.
Qed.
End FullRangeMatch.

Lemma write_stamp_digits (secs : bool) (d : datetime) :
  valid d = true ->
  (secs = false -> second d = 0) ->
  exists y1 y2 y3 y4 o1 o2 d1 d2 h1 h2 m1 m2 o,
    write_stamp secs d = stamp16 " " y1 y2 y3 y4 o1 o2 d1 d2 h1 h2 m1 m2 ++ opt_sec o
    /\ Forall (fun c => py_isdigit c = true)
              [y1; y2; y3; y4; o1; o2; d1; d2; h1; h2; m1; m2]
    /\ opt_sec_ok o
    /\ d = DT (num4 y1 y2 y3 y4) (num2 o1 o2) (num2 d1 d2)
              (num2 h1 h2) (num2 m1 m2) (opt_sec_val o).
Proof.
  intros Hv Hs.
  destruct (format_stamp_digits d Hv)
    as (y1 & y2 & y3 & y4 & o1 & o2 & d1 & d2 & h1 & h2 & m1 & m2 & s1 & s2
        & E19 & E16 & Hdig & Hd).
  pose proof Hdig as Hdig'. repeat (apply Forall_cons_1 in Hdig' as [? Hdig']).
  exists y1, y2, y3, y4, o1, o2, d1, d2, h1, h2, m1, m2,
         (if secs then Some (s1, s2) else None).
  split; [|split; [|split]].
  - unfold write_stamp. destruct secs; cbn [opt_sec]; [exact E19|].
    now rewrite app_nil_r.
  - repeat constructor; assumption.
  - destruct secs; cbn; auto.
  - destruct secs; cbn [opt_sec_val]; [exact Hd|].
    rewrite Hd in Hs |- *. cbn [second] in Hs. now rewrite (Hs eq_refl).
Qed.

(** X7.  A range whose right-hand side is a full timestamp is classified
    as one range event from the first written instant to the second, white
    space or none around the dash, seconds written or not on either side;
    the two instants are not compared, so the end may lie before the
    start. *)
Theorem range_with_full_end
    (start stop : datetime) (secs1 secs2 : bool) (ws1 ws2 : text) (ev : event) :
  valid start = true ->
  valid stop = true ->
  (secs1 = false -> second start = 0) ->
  (secs2 = false -> second stop = 0) ->
  Forall (fun c => py_isspace c = true) ws1 ->
  Forall (fun c => py_isspace c = true) ws2 ->
  get ev "time"
  = write_stamp secs1 start ++ ws1 ++ txt "-" ++ ws2 ++ write_stamp secs2 stop ->
  classify_event ev = Ok ([], [Ranged start stop ev]).
Proof.
  intros Hv1 Hv2 Hs1 Hs2 Hws1 Hws2 Ht.
  destruct (write_stamp_digits secs1 start Hv1 Hs1)
    as (y1 & y2 & y3 & y4 & o1 & o2 & d1 & d2 & h1 & h2 & m1 & m2 & so
        & E1 & D1 & O1 & F1).
  destruct (write_stamp_digits secs2 stop Hv2 Hs2)
    as (z1 & z2 & z3 & z4 & p1 & p2 & e1 & e2 & g1 & g2 & n1 & n2 & eo
        & E2 & D2 & O2 & F2).
  rewrite E1, E2 in Ht.
  rewrite <- (app_nil_r (stamp16 " " z1 z2 z3 z4 p1 p2 e1 e2 g1 g2 n1 n2 ++ opt_sec eo))
    in Ht.
  rewrite (classify_event_full_range y1 y2 y3 y4 o1 o2 d1 d2 h1 h2 m1 m2
             z1 z2 z3 z4 p1 p2 e1 e2 g1 g2 n1 n2 so eo ws1 ws2 []
             D1 D2 O1 O2 Hws1 Hws2 (fun _ => eq_refl) ev eq_refl Ht).
  rewrite <- F1, <- F2, Hv1, Hv2. reflexivity.
Qed.

Lemma range_with_full_end_witness :
  classify_event (mk_event (txt "2024-01-15 14:00 - 2024-01-14 09:30:00") (txt "Rollback"))
  = Ok ([], [Ranged (DT 2024 1 15 14 0 0) (DT 2024 1 14 9 30 0)
               (mk_event (txt "2024-01-15 14:00 - 2024-01-14 09:30:00") (txt "Rollback"))]).
Proof.
  apply (range_with_full_end (DT 2024 1 15 14 0 0) (DT 2024 1 14 9 30 0)
           false true (txt " ") (txt " "));
    try reflexivity; try discriminate.
  - repeat constructor.
  - repeat constructor.
Defined.

(** *** Every outcome of [render_timeline_with_events] *)





(** *** A range that ends before it starts *)

Lemma classify_app (l1 l2 : list event) :
  forall p1 r1 p2 r2,
    classify l1 = Ok (p1, r1) -> classify l2 = Ok (p2, r2) ->
    classify (l1 ++ l2) = Ok (p1 ++ p2, r1 ++ r2).
Proof.
  induction l1 as [|ev l1 IH]; intros p1 r1 p2 r2 H1 H2; cbn [app classify] in *.
  - injection H1 as <- <-. exact H2.
  - destruct (classify_event ev) as [[pe re]|]; [|discriminate H1].
    cbn [mbind res_bind] in *.
    destruct (classify l1) as [[pl rl]|]; [|discriminate H1].
    cbn [mbind res_bind fst snd] in H1. injection H1 as <- <-.
    rewrite (IH pl rl p2 r2 eq_refl H2). cbn [mbind res_bind fst snd].
    now rewrite !app_assoc.
Qed.

Lemma fraction_lt (x y d : Z) :
  x < y -> 0 < d ->
  (Qred (Qred (inject_Z x / inject_Z d * 100) - Qred (inject_Z y / inject_Z d * 100))
   < 0)%Q.
Proof.
  intros Hxy Hd. rewrite !Qred_correct.
  destruct d as [|p|p]; try lia.
  unfold Qlt, Qminus, Qplus, Qopp, Qdiv, Qmult, Qinv, inject_Z. cbn. nia.
Qed.

(** X9.  A range event whose end lies before its start is drawn all the
    same, as a bar of negative width. *)
Theorem reversed_range_has_negative_width
    (l1 l2 : list event) (ev : event) (start stop : datetime) :
  classify_event ev = Ok ([], [Ranged start stop ev]) ->
  to_seconds stop < to_seconds start ->
  (2 <= length (l1 ++ ev :: l2))%nat ->
  exists parts lo width,
    render_timeline_with_events (l1 ++ ev :: l2) = Ok (Chart parts)
    /\ TimelineRange lo width (html_escape (get ev "time"))
                     (html_escape (get ev "event")) ∈ parts
    /\ (width < 0)%Q.
Proof.
  intros Hev Hlt Hlen.
  destruct (classify_returns l1) as [[p1 r1] H1].
  destruct (classify_returns l2) as [[p2 r2] H2].
  assert (Hc : classify (l1 ++ ev :: l2)
               = Ok (p1 ++ p2, r1 ++ Ranged start stop ev :: r2)).
  { apply (classify_app l1 (ev :: l2) p1 r1 p2 (Ranged start stop ev :: r2) H1).
    cbn [classify]. rewrite Hev, H2. reflexivity. }
  set (ps := p1 ++ p2) in *. set (rs := r1 ++ Ranged start stop ev :: r2) in *.
  assert (Hin : Ranged start stop ev ∈ rs).
  { subst rs. apply elem_of_app. right. apply list_elem_of_here. }
  destruct (draw_returns ps rs) as [[msg|parts] Hd].
  { exfalso. unfold draw in Hd.
    destruct rs as [|r rs']; [inversion Hin|].
    destruct (dt_min _); [|destruct ps; discriminate Hd].
    destruct (dt_max _); [|destruct ps; discriminate Hd].
    cbn [mbind res_bind] in Hd.
    destruct (mapM _ (r :: rs')); [|destruct ps; discriminate Hd].
    cbn [mbind res_bind] in Hd.
    destruct (mapM _ ps); destruct ps; discriminate Hd. }
  pose proof Hd as Hd'.
  apply draw_inv in Hd' as (s & d & bars & dots & Hb & Hdots & -> & Hs & e & He & ->).
  apply dt_min_le in Hs. apply dt_max_ge in He.
  apply Forall_app in Hs as [_ Hs]. apply Forall_app in Hs as [_ Hs].
  apply Forall_app in He as [_ He]. apply Forall_app in He as [He _].
  rewrite Forall_fmap in Hs. rewrite Forall_fmap in He.
  rewrite Forall_forall in Hs, He.
  specialize (Hs _ Hin). specialize (He _ Hin). cbn in Hs, He.
  assert (Hpos : 0 < diff e s) by (unfold diff; lia).
  assert (Hbar : forall r, r ∈ rs ->
            exists p, p ∈ bars /\ render_range s (diff e s) r = Ok p).
  { apply mapM_ok_inv in Hb. clear -Hb.
    induction Hb as [|x y l ys Hxy _ IH]; intros r Hr; [inversion Hr|].
    apply elem_of_cons in Hr as [->|Hr].
    - exists y. split; [apply list_elem_of_here|exact Hxy].
    - destruct (IH r Hr) as (p & Hp & Hrp). exists p.
      split; [now apply list_elem_of_further|exact Hrp]. }
  destruct (Hbar _ Hin) as (p & Hp & Hrp).
  rewrite render_range_total in Hrp. cbn [re_start re_end re_data] in Hrp.
  destruct (Z.ltb_spec 0 (diff e s)); [|lia].
  eexists (bars ++ dots), _, _. split.
  - unfold render_timeline_with_events.
    destruct (Nat.ltb_spec (length (l1 ++ ev :: l2)) 2); [lia|].
    rewrite Hc. exact Hd.
  - injection Hrp as <-. split.
    + apply elem_of_app. left. exact Hp.
    + apply fraction_lt; [unfold diff; lia|exact Hpos].
Qed.

Lemma reversed_range_has_negative_width_witness :
  exists parts lo width,
    render_timeline_with_events
      ([mk_event (txt "2024-01-15 13:00:00") (txt "Alert")]
       ++ mk_event (txt "2024-01-15 14:30 - 14:00") (txt "Rollback") :: [])
    = Ok (Chart parts)
    /\ TimelineRange lo width
         (html_escape (get (mk_event (txt "2024-01-15 14:30 - 14:00") (txt "Rollback")) "time"))
         (html_escape (get (mk_event (txt "2024-01-15 14:30 - 14:00") (txt "Rollback")) "event"))
       ∈ parts
    /\ (width < 0)%Q.
Proof.
  apply (reversed_range_has_negative_width
           [mk_event (txt "2024-01-15 13:00:00") (txt "Alert")] []
           (mk_event (txt "2024-01-15 14:30 - 14:00") (txt "Rollback"))
           (DT 2024 1 15 14 30 0) (DT 2024 1 15 14 0 0)).
  - vm_compute. reflexivity.
  - vm_compute. reflexivity.
  - cbn. lia.
Defined.

(** *** The first day that [datetime] can hold *)

(** X5.  When the earliest timestamp lies less than one tick distance
    after the first instant [datetime] can hold, and the events span more
    than a second, [render_horizontal_timeline] raises [OverflowError]: the
    loop over the ticks subtracts the tick distance from the earliest
    timestamp. *)
Theorem horizontal_timeline_overflows_at_the_first_day
    (timeline_events : list event) (start_time end_time : datetime) :
  (2 <= length (parsed_starts timeline_events))%nat ->
  dt_min (parsed_starts timeline_events).*1 = Ok start_time ->
  dt_max (parsed_starts timeline_events).*1 = Ok end_time ->
  1 < diff end_time start_time ->
  to_seconds start_time - axis_step (diff end_time start_time) < 86400 ->
  render_horizontal_timeline timeline_events = Some (Raise OverflowError).
Proof.
  intros Hlen Hs He Hd Hlow.
  assert (Hv : valid start_time = true).
  { apply dt_min_in in Hs. apply list_elem_of_fmap in Hs as (x & -> & Hx).
    pose proof (parsed_starts_valid timeline_events) as Hall.
    rewrite Forall_forall in Hall. now apply Hall. }
  apply valid_bounds in Hv as (_ & _ & _ & Hh & Hm & Hsec).
  unfold render_horizontal_timeline.
  destruct timeline_events as [|ev0 evs]; [cbn in Hlen; lia|].
  destruct (Nat.ltb_spec (length (parsed_starts (ev0 :: evs))) 2); [lia|].
  rewrite Hs, He.
  assert (Hloop : forall fuel step fmt sm,
             sm <= to_seconds start_time ->
             0 < step ->
             to_seconds start_time - step < 86400 ->
             marker_loop (S fuel) (to_seconds start_time) (to_seconds end_time)
               step fmt sm = Some (Raise OverflowError)).
  { intros fuel step fmt sm Hsm Hstep Hl. cbn [marker_loop].
    unfold checked at 1. destruct (in_range (to_seconds end_time + step));
      [|reflexivity].
    destruct (Z.leb_spec sm (to_seconds end_time + step)) as [_|Hc];
      [|unfold diff in Hd; lia].
    unfold checked at 1.
    destruct (in_range (to_seconds start_time - step)) eqn:Hr; [|reflexivity].
    apply in_range_iff in Hr. lia. }
  assert (Hmk : make_markers start_time end_time = Some (Raise OverflowError)).
  { unfold make_markers. unfold axis_step in Hlow.
    destruct (Z.ltb_spec 1 (diff end_time start_time)); [|lia].
    destruct (diff end_time start_time <? 2 * 3600).
    - unfold checked at 1. destruct (in_range _); [|reflexivity].
      apply Hloop; [|lia|exact Hlow].
      unfold to_seconds, replace_second0. cbn [year month day hour minute second].
      Z.to_euclidean_division_equations. lia.
    - destruct (diff end_time start_time <? 2 * 86400);
        (apply Hloop; [|lia|exact Hlow]);
        unfold to_seconds, replace_minute0, replace_hour0;
        cbn [year month day hour minute second]; lia. }
  now rewrite Hmk.
Qed.

Lemma horizontal_timeline_overflows_witness :
  render_horizontal_timeline
    [mk_event (txt "0001-01-01 00:05:00") (txt "Founding");
     mk_event (txt "0001-01-01 00:30:00") (txt "First incident")]
  = Some (Raise OverflowError).
Proof.
  apply (horizontal_timeline_overflows_at_the_first_day _
           (DT 1 1 1 0 5 0) (DT 1 1 1 0 30 0)).
  - vm_compute. lia.
  - vm_compute. reflexivity.
  - vm_compute. reflexivity.
  - vm_compute. reflexivity.
  - vm_compute. reflexivity.
Defined.

Local Close Scope Z_scope.

(** ** Blocks between markers *)

(** *** White space around a text *)

Lemma lstrip_space_app (w x : text) :
  Forall (fun c => py_isspace c = true) w -> lstrip (w ++ x) = lstrip x.
Proof.
  induction w as [|c w IH]; intros H; [reflexivity|].
  apply Forall_cons_1 in H as [Hc H]. cbn [app lstrip]. rewrite Hc. now apply IH.
Qed.

Lemma rstrip_space_app (x w : text) :
  Forall (fun c => py_isspace c = true) w -> rstrip (x ++ w) = rstrip x.
Proof.
  intros H. unfold rstrip. rewrite rev_app_distr.
  rewrite lstrip_space_app; [reflexivity|]. now apply Forall_rev.
Qed.

Lemma rstrip_split_space (s : text) :
  exists w, s = rstrip s ++ w /\ Forall (fun c => py_isspace c = true) w.
Proof.
  unfold rstrip. destruct (lstrip_split (rev s)) as (ws & H & Hws).
  exists (rev ws). split; [|now apply Forall_rev].
  rewrite <- rev_app_distr, <- H. now rewrite rev_involutive.
Qed.

Lemma strip_split (s : text) :
  exists ws1 ws2,
    s = ws1 ++ strip s ++ ws2
    /\ Forall (fun c => py_isspace c = true) ws1
    /\ Forall (fun c => py_isspace c = true) ws2.
Proof.
  destruct (lstrip_split s) as (ws1 & H1 & Hw1).
  destruct (rstrip_split_space (lstrip s)) as (ws2 & H2 & Hw2).
  exists ws1, ws2. unfold strip. rewrite <- H2. auto.
Qed.

(** A stripped text is empty, or starts and ends with a character that is
    no white space. *)
Lemma strip_ends (s : text) :
  strip s = []
  \/ exists g0 l, strip s = g0 ++ [l] /\ py_isspace l = false
                  /\ stops CSpace (strip s) = true.
Proof.
  unfold strip. pose proof (lstrip_head s) as Hh.
  destruct (lstrip s) as [|c y]; [now left|]. right.
  destruct (rstrip_head c y Hh) as [s' Hs'].
  pose proof (lstrip_head (rev (c :: y))) as Hl.
  assert (Hr : rstrip (c :: y) = rev (lstrip (rev (c :: y)))) by reflexivity.
  destruct (lstrip (rev (c :: y))) as [|l u].
  - rewrite Hs' in Hr. discriminate Hr.
  - exists (rev u), l. split; [exact Hr|]. split; [exact Hl|].
    rewrite Hs'. cbn [stops cset_mem]. now rewrite Hh.
Qed.

(** *** The first match of a lazy scan *)

Lemma star_lazy_first (g a : text) (cs : caps) (k : kont) (m : mres) :
  forall b,
    (forall g1 g2, g = g1 ++ g2 -> g2 <> [] ->
                   k (rev g1 ++ b) (g2 ++ a) cs = None) ->
    k (rev g ++ b) a cs = Some m ->
    star_lazy CAny b (g ++ a) cs k = Some m.
Proof.
  induction g as [|c g IH]; intros b Hnone Hk.
  - now apply star_lazy_here.
  - cbn [app star_lazy].
    pose proof (Hnone [] (c :: g) eq_refl ltac:(discriminate)) as H0.
    cbn [rev app] in H0. rewrite H0.
    cbn [cset_mem]. apply IH.
    + intros g1 g2 -> Hg2. specialize (Hnone (c :: g1) g2 eq_refl Hg2).
      cbn [rev] in Hnone. now rewrite <- app_assoc in Hnone.
    + cbn [rev] in Hk. now rewrite <- app_assoc in Hk.
Qed.

Lemma never_split (p x s tail : text) :
  never p (x ++ s) tail = true -> s <> [] -> is_prefix p (s ++ tail) = false.
Proof.
  intros H Hs. induction x as [|d x IH].
  - destruct s as [|c s]; [congruence|]. cbn [app never] in H.
    apply andb_prop in H as [H _]. now apply negb_true_iff in H.
  - cbn [app never] in H. apply andb_prop in H as [_ H]. now apply IH.
Qed.

Lemma search_from_match (r : regex) (b a : text) (m : mres) :
  match_at r b a = Some m -> search_from r b a = Some m.
Proof. intros H. destruct a; cbn [search_from]; now rewrite H. Qed.

Lemma search_from_never (p : text) (r : regex) (x y : text) :
  never p x y = true ->
  forall b, search_from (Seq (Lit p) r) b (x ++ y)
            = search_from (Seq (Lit p) r) (rev x ++ b) y.
Proof.
  induction x as [|c x IH]; intros H b; [reflexivity|].
  cbn [never] in H. apply andb_prop in H as [H1 H2].
  apply negb_true_iff in H1. cbn [app] in H1.
  cbn [app search_from]. rewrite (match_at_lit_led p r b _ H1).
  cbn [rev]. rewrite <- app_assoc. now apply IH.
Qed.

Lemma star_greedy_all_none (p : cset) (k : kont) (x0 : text) (l : ascii)
    (tail : text) (cs : caps) :
  cset_mem p l = false ->
  forall b,
    (forall x1 x2, x0 ++ [l] = x1 ++ x2 -> x2 <> [] ->
                   k (rev x1 ++ b) (x2 ++ tail) cs = None) ->
    star_greedy p b ((x0 ++ [l]) ++ tail) cs k = None.
Proof.
  intros Hl. induction x0 as [|c x0 IH]; intros b Hno.
  - cbn [app star_greedy]. rewrite Hl.
    exact (Hno [] [l] eq_refl ltac:(discriminate)).
  - cbn [app star_greedy].
    pose proof (Hno [] (c :: x0 ++ [l]) eq_refl ltac:(discriminate)) as Hhere.
    cbn [rev app] in Hhere. rewrite Hhere.
    destruct (cset_mem p c); [|reflexivity].
    rewrite IH; [reflexivity|].
    intros x1 x2 E Hx2. specialize (Hno (c :: x1) x2).
    cbn [rev app] in Hno. rewrite <- app_assoc in Hno. cbn [app] in Hno.
    apply Hno; [now rewrite E|exact Hx2].
Qed.

(** *** The match of a block *)

Section Block.
Variables (o cl : text).
Hypothesis Hcl : match cl with d :: _ => py_isspace d = false | [] => False end.

Lemma stops_close (y : text) : stops CSpace (cl ++ y) = true.
Proof.
  destruct cl as [|d c']; [contradiction|]. cbn [app stops cset_mem].
  now rewrite Hcl.
Qed.

(** In front of text that ends with a character other than white space,
    and inside which the closing literal starts nowhere, white space and
    the closing literal do not match. *)
Lemma space_close_none (x0 : text) (l : ascii) (tail : text) (cs : caps) :
  py_isspace l = false ->
  forall b,
    (forall x1 x2, x0 ++ [l] = x1 ++ x2 -> x2 <> [] ->
                   is_prefix cl (x2 ++ tail) = false) ->
    run (Seqs [Star CSpace; Lit cl]) b ((x0 ++ [l]) ++ tail) cs accept = None.
Proof.
  intros Hl b Hno. cbn [Seqs run].
  apply star_greedy_all_none; [exact Hl|].
  intros x1 x2 E Hx2. apply run_lit_no_prefix. now apply (Hno x1 x2).
Qed.

Lemma block_match_text (ws1 g0 : text) (l : ascii) (ws2 y b : text) :
  Forall (fun c => py_isspace c = true) ws1 ->
  Forall (fun c => py_isspace c = true) ws2 ->
  py_isspace l = false ->
  stops CSpace (g0 ++ [l]) = true ->
  (forall g1 g2, g0 ++ [l] = g1 ++ g2 -> g2 <> [] ->
                 is_prefix cl (g2 ++ ws2 ++ cl ++ y) = false) ->
  exists m,
    match_at (block_re o cl) b (o ++ ws1 ++ (g0 ++ [l]) ++ ws2 ++ cl ++ y) = Some m
    /\ m_after m = y /\ group 1 (m_caps m) = g0 ++ [l].
Proof.
  intros Hw1 Hw2 Hl Hstop Hno.
  assert (Hstop' : stops CSpace ((g0 ++ [l]) ++ ws2 ++ cl ++ y) = true)
    by (destruct g0; exact Hstop).
  set (g := g0 ++ [l]) in *.
  exists (MRes (rev cl ++ rev ws2 ++ rev g ++ rev ws1 ++ rev o ++ b) y [(1%nat, g)]).
  split; [|split; reflexivity].
  unfold match_at, block_re. cbn [Seqs]. cbn [run]. rewrite run_lit.
  apply star_greedy_run; [exact Hw1|exact Hstop'|].
  apply star_lazy_first.
  - intros g1 g2 Hg Hg2.
    assert (Hlast : exists x0, g2 = x0 ++ [l]).
    { destruct (exists_last Hg2) as (x0 & l' & ->).
      exists x0. unfold g in Hg. rewrite app_assoc in Hg.
      apply app_inj_tail in Hg as [_ ->]. reflexivity. }
    destruct Hlast as [x0 ->].
    change (run (Seqs [Star CSpace; Lit cl]) (rev g1 ++ rev ws1 ++ rev o ++ b)
              ((x0 ++ [l]) ++ ws2 ++ cl ++ y)
              [(1%nat, consumed (g ++ ws2 ++ cl ++ y) ((x0 ++ [l]) ++ ws2 ++ cl ++ y))]
              accept = None).
    apply space_close_none; [exact Hl|].
    intros x1 x2 E Hx2. apply (Hno (g1 ++ x1) x2); [|exact Hx2].
    rewrite Hg, E. now rewrite app_assoc.
  - change (run (Seqs [Star CSpace; Lit cl]) (rev g ++ rev ws1 ++ rev o ++ b)
              (ws2 ++ cl ++ y)
              [(1%nat, consumed (g ++ ws2 ++ cl ++ y) (ws2 ++ cl ++ y))] accept
            = Some (MRes (rev cl ++ rev ws2 ++ rev g ++ rev ws1 ++ rev o ++ b) y
                      [(1%nat, g)])).
    rewrite consumed_app. cbn [Seqs run].
    apply star_greedy_run; [exact Hw2|apply stops_close|].
    now rewrite run_lit.
Qed.

Lemma block_match_blank (ws y b : text) :
  Forall (fun c => py_isspace c = true) ws ->
  exists m,
    match_at (block_re o cl) b (o ++ ws ++ cl ++ y) = Some m
    /\ m_after m = y /\ group 1 (m_caps m) = [].
Proof.
  intros Hw.
  exists (MRes (rev cl ++ rev ws ++ rev o ++ b) y [(1%nat, [])]).
  split; [|split; reflexivity].
  unfold match_at, block_re. cbn [Seqs]. cbn [run]. rewrite run_lit.
  apply star_greedy_run; [exact Hw|apply stops_close|].
  apply star_lazy_here.
  change (run (Seqs [Star CSpace; Lit cl]) (rev ws ++ rev o ++ b) (cl ++ y)
            [(1%nat, consumed (cl ++ y) (cl ++ y))] accept
          = Some (MRes (rev cl ++ rev ws ++ rev o ++ b) y [(1%nat, [])])).
  replace (consumed (cl ++ y) (cl ++ y)) with (@nil ascii)
    by (symmetry; apply (consumed_app [] (cl ++ y))).
  cbn [Seqs run]. rewrite star_space_stops by exact Hcl.
  now rewrite run_lit.
Qed.

(** A block whose content holds no start of the closing literal is matched
    from its opening to its first closing literal; the group holds the
    content without the white space at its ends. *)
Lemma block_match (c y b : text) :
  never cl c (cl ++ y) = true ->
  exists m,
    match_at (block_re o cl) b (o ++ c ++ cl ++ y) = Some m
    /\ m_after m = y /\ group 1 (m_caps m) = strip c.
Proof.
  intros Hn. destruct (strip_split c) as (ws1 & ws2 & Hc & Hw1 & Hw2).
  destruct (strip_ends c) as [He|(g0 & l & Hg & Hl & Hstop)].
  - rewrite He in Hc |- *. cbn [app] in Hc. rewrite Hc.
    apply (block_match_blank (ws1 ++ ws2)).
    apply Forall_app. now split.
  - rewrite Hg in Hc, Hstop |- *.
    assert (E : o ++ c ++ cl ++ y = o ++ ws1 ++ (g0 ++ [l]) ++ ws2 ++ cl ++ y).
    { rewrite Hc at 1. now rewrite <- !app_assoc. }
    rewrite E. apply block_match_text; try assumption.
    intros g1 g2 Hgg Hg2.
    replace (g2 ++ ws2 ++ cl ++ y) with ((g2 ++ ws2) ++ cl ++ y)
      by (now rewrite <- app_assoc).
    apply (never_split cl (ws1 ++ g1) (g2 ++ ws2)).
    + replace ((ws1 ++ g1) ++ g2 ++ ws2) with c; [exact Hn|].
      rewrite Hc at 1. rewrite Hgg. now rewrite <- !app_assoc.
    + destruct g2; [congruence|discriminate].
Qed.
End Block.

(** ** The channels of a well-formed blob *)

(** *** The first channel of a name *)

Lemma channel_match_body (name : string) (body y b : text) :
  never (closing name) body (closing name ++ y) = true ->
  exists m,
    match_at (channel_re name) b (opening name ++ body ++ closing name ++ y)
    = Some m
    /\ m_after m = y /\ group 1 (m_caps m) = strip body.
Proof.
  exact (block_match (opening name) (closing name) (closing_head name) body y b).
Qed.

Lemma search_channel_blob (name : string) (chans : list channel) :
  existsb (String.eqb name) channel_names = true ->
  well_formed_channels chans = true ->
  forall t0 b, plain t0 = true ->
    match first_body name chans with
    | Some body =>
        exists m, search_from (channel_re name) b (t0 ++ chans_text chans) = Some m
                  /\ group 1 (m_caps m) = strip body
    | None => search_from (channel_re name) b (t0 ++ chans_text chans) = None
    end.
Proof.
  intros Hname. induction chans as [|[n body after] rest IH]; intros Hwf t0 b Ht0.
  - cbn [first_body chans_text]. rewrite app_nil_r.
    apply (search_from_lit_led (opening name)).
    unfold plain in Ht0. apply negb_true_iff in Ht0.
    apply (contains_longer (txt "===") (opening name) t0); [reflexivity|exact Ht0].
  - apply well_formed_channels_cons in Hwf as (Hn & Hb & Hab & Ha & Haa & Hrest).
    cbn [ch_name ch_body ch_after] in *.
    assert (E0 : search_from (channel_re name) b
                   (t0 ++ chans_text (Channel n body after :: rest))
                 = search_from (channel_re name) (rev t0 ++ b)
                     (chans_text (Channel n body after :: rest))).
    { apply (search_from_never (opening name)).
      apply never_opening_plain; [exact Ht0|apply marker_led_channels]. }
    rewrite E0. cbn [first_body chans_text ch_name ch_body ch_after].
    destruct (String.eqb_spec n name) as [ -> | Hne].
    + destruct (channel_match_body name body (after ++ chans_text rest) (rev t0 ++ b))
        as (m & Hm & _ & Hg).
      { apply never_closing_plain; [exact Hb|apply marker_led_closing]. }
      exists m. split; [now apply search_from_match|exact Hg].
    + destruct (quiet_markers name n Hname Hn) as [Hqc Hqo].
      assert (E1 : search_from (channel_re name) (rev t0 ++ b)
                     (opening n ++ body ++ closing n ++ after ++ chans_text rest)
                   = search_from (channel_re name)
                       (rev (closing n) ++ rev body ++ rev (opening n) ++ rev t0 ++ b)
                       (after ++ chans_text rest)).
      { unfold channel_re. cbn [Seqs]. fold (opening name).
        rewrite (search_from_never (opening name) _ (opening n))
          by (apply never_quiet; [now apply Hqo|now apply (after_marker_body n)]).
        rewrite (search_from_never (opening name) _ body)
          by (apply never_opening_plain; [exact Hb|apply marker_led_closing]).
        rewrite (search_from_never (opening name) _ (closing n))
          by (apply never_quiet; [exact Hqc|exact Haa]).
        reflexivity. }
      rewrite E1. now apply IH.
Qed.

(** *** What the removals keep *)

Lemma drop_channel_first_body (name other : string) (chans : list channel) :
  other <> name ->
  forall t0, first_body other (drop_channel name t0 chans).2 = first_body other chans.
Proof.
  intros Hne. induction chans as [|[n body after] rest IH]; intros t0;
    cbn [drop_channel ch_name ch_body ch_after]; [reflexivity|].
  destruct (String.eqb_spec n name) as [ -> | Hn].
  - rewrite IH. cbn [first_body ch_name].
    destruct (String.eqb_spec name other); [congruence|reflexivity].
  - cbn [snd first_body ch_name ch_body]. destruct (String.eqb n other); [reflexivity|].
    apply IH.
Qed.

Lemma rstrip_blob_first_body (chans : list channel) :
  forall t0,
    plain t0 = true -> well_formed_channels chans = true ->
    exists t0' chans',
      plain t0' = true /\ well_formed_channels chans' = true
      /\ t0' ++ chans_text chans' = rstrip (t0 ++ chans_text chans)
      /\ forall name, first_body name chans' = first_body name chans.
Proof.
  induction chans as [|[n body after] rest IH]; intros t0 Ht0 Hwf.
  - exists (rstrip t0), []. cbn [chans_text]. rewrite !app_nil_r.
    destruct (rstrip_split t0) as [w Hw].
    split; [|auto]. rewrite Hw in Ht0. now apply plain_prefix in Ht0.
  - apply well_formed_channels_cons in Hwf as (Hn & Hb & Hab & Ha & Haa & Hrest).
    cbn [ch_name ch_body ch_after] in *.
    destruct (IH after Ha Hrest) as (a' & rest' & Ha' & Hrest' & Htext & Hfb).
    exists t0, (Channel n body a' :: rest').
    split; [exact Ht0|]. split; [|split].
    + cbn [well_formed_channels ch_name ch_body ch_after].
      rewrite Hn, Hb, Hab, Ha', Hrest', Htext.
      destruct (rstrip_split (after ++ chans_text rest)) as [w Hw].
      rewrite Hw in Haa. now rewrite (after_marker_prefix _ _ Haa).
    + cbn [chans_text ch_name ch_body ch_after]. rewrite Htext.
      destruct (closing_last n) as [x ->].
      rewrite <- !app_assoc. cbn [app].
      rewrite !app_assoc. rewrite rstrip_app_keep by reflexivity.
      reflexivity.
    + intros name. cbn [first_body ch_name ch_body].
      destruct (String.eqb n name); [reflexivity|apply Hfb].
Qed.

(** A well-formed blob keeps its shape and the bodies of its channels when
    the channels of one name are removed and the result is stripped. *)
Lemma remove_channel_blob (name : string) (t0 : text) (chans : list channel) :
  existsb (String.eqb name) channel_names = true ->
  plain t0 = true -> well_formed_channels chans = true ->
  exists t0' chans',
    plain t0' = true /\ well_formed_channels chans' = true
    /\ strip (sub_empty (channel_sub_re name) (t0 ++ chans_text chans))
       = t0' ++ chans_text chans'
    /\ forall other, other <> name ->
                     first_body other chans' = first_body other chans.
Proof.
  intros Hname Ht0 Hwf.
  unfold sub_empty. rewrite (sub_channels name chans Hname Hwf t0 [] Ht0).
  destruct (drop_channel_well_formed name chans t0 Ht0 Hwf) as (H1 & H2 & _).
  set (t1 := (drop_channel name t0 chans).1) in *.
  set (c1 := (drop_channel name t0 chans).2) in *.
  unfold strip. rewrite lstrip_blob.
  assert (Hl : plain (lstrip t1) = true).
  { destruct (lstrip_split t1) as (ws & H & _). rewrite H in H1.
    now apply plain_suffix in H1. }
  destruct (rstrip_blob_first_body c1 (lstrip t1) Hl H2)
    as (t0' & chans' & P1 & P2 & P3 & P4).
  exists t0', chans'. split; [exact P1|]. split; [exact P2|].
  split; [now rewrite P3|].
  intros other Hne. rewrite P4. unfold c1.
  now apply drop_channel_first_body.
Qed.

Lemma extract_channel_blob (name : string) (t0 : text) (chans : list channel) :
  existsb (String.eqb name) channel_names = true ->
  plain t0 = true -> well_formed_channels chans = true ->
  (extract_channel name (t0 ++ chans_text chans)).1
  = strip (default [] (first_body name chans))
  /\ exists t0' chans',
       plain t0' = true /\ well_formed_channels chans' = true
       /\ (extract_channel name (t0 ++ chans_text chans)).2
          = t0' ++ chans_text chans'
       /\ forall other, other <> name ->
                        first_body other chans' = first_body other chans.
Proof.
  intros Hname Ht0 Hwf. unfold extract_channel, search.
  pose proof (search_channel_blob name chans Hname Hwf t0 [] Ht0) as Hs.
  destruct (first_body name chans) as [body|].
  - destruct Hs as (m & -> & Hg). cbn [fst snd default].
    split; [rewrite Hg; apply strip_strip|].
    now apply remove_channel_blob.
  - rewrite Hs. cbn [fst snd default]. split; [reflexivity|].
    exists t0, chans. auto.
Qed.

Section Channels.
Variable json_loads : text -> res pyval.

(** X10.  From a blob with well-formed channels [generate_report]
    returns the body of the first MONITORING_CODE channel and the body of the
    first REGRESSION_TEST channel, each stripped, and the empty string for a
    channel the blob does not have. *)
Theorem code_channels_of_well_formed_blob
    (t0 : text) (chans : list channel) (r : report) :
  well_formed t0 chans = true ->
  generate_report json_loads (blob_of t0 chans) = Ok r ->
  monitoring_code r = strip (default [] (first_body "MONITORING_CODE" chans))
  /\ regression_test_code r
     = strip (default [] (first_body "REGRESSION_TEST" chans)).
Proof.
  intros Hwf Hr. unfold well_formed in Hwf. apply andb_prop in Hwf as [Ht0 Hch].
  destruct (generate_report_parts json_loads (blob_of t0 chans)) as (events & Hp).
  cbv zeta in Hp. rewrite Hp in Hr. injection Hr as <-.
  cbn [monitoring_code regression_test_code].
  unfold without_timeline, blob_of.
  destruct (remove_channel_blob "TIMELINE_JSON" t0 chans eq_refl Ht0 Hch)
    as (t1 & c1 & P1 & W1 & -> & F1).
  destruct (extract_channel_blob "MONITORING_CODE" t1 c1 eq_refl P1 W1)
    as (-> & t2 & c2 & P2 & W2 & -> & F2).
  destruct (extract_channel_blob "REGRESSION_TEST" t2 c2 eq_refl P2 W2)
    as (-> & _).
  rewrite F2 by discriminate. rewrite !F1 by discriminate. split; reflexivity.
Qed.

(** X11.  When the body of the first TIMELINE_JSON channel of a
    well-formed blob holds a fenced json block, [json.loads] is given what
    stands between the fences, stripped; a value it returns that is not
    empty becomes the timeline of the report. *)
Theorem timeline_channel_is_decoded
    (t0 : text) (chans : list channel) (body pre c post : text) (v : pyval) :
  well_formed t0 chans = true ->
  first_body "TIMELINE_JSON" chans = Some body ->
  strip body = pre ++ txt "```json" ++ c ++ txt "```" ++ post ->
  never (txt "```json") pre (txt "```json" ++ c ++ txt "```" ++ post) = true ->
  never (txt "```") c (txt "```" ++ post) = true ->
  json_loads (strip c) = Ok v ->
  truthy v = true ->
  exists r, generate_report json_loads (blob_of t0 chans) = Ok r
            /\ timeline_events r = v.
Proof.
  intros Hwf Hfb Hbody Hpre Hc Hj Hv.
  unfold well_formed in Hwf. apply andb_prop in Hwf as [Ht0 Hch].
  destruct (generate_report_timeline json_loads (blob_of t0 chans)) as (r & Hr & Ht).
  exists r. split; [exact Hr|]. rewrite Ht.
  assert (Hjt : json_timeline json_loads (blob_of t0 chans) = v).
  { unfold json_timeline, search, blob_of.
    pose proof (search_channel_blob "TIMELINE_JSON" chans eq_refl Hch t0 [] Ht0) as Hs.
    rewrite Hfb in Hs. destruct Hs as (m & -> & Hg).
    unfold timeline_from_json. rewrite Hg, strip_strip, Hbody.
    unfold search.
    change JSON_BLOCK_RE with (block_re (txt "```json") (txt "```")).
    unfold block_re at 1. cbn [Seqs].
    rewrite (search_from_never (txt "```json") _ pre _ Hpre).
    destruct (block_match (txt "```json") (txt "```") eq_refl c post (rev pre ++ []) Hc)
      as (mb & Hmb & _ & Hgb).
    unfold block_re in Hmb. cbn [Seqs] in Hmb.
    rewrite (search_from_match _ _ _ _ Hmb). now rewrite Hgb, Hj. }
  now rewrite Hjt, Hv.
Qed.
End Channels.

Lemma code_channels_of_well_formed_blob_witness :
  monitoring_code
    (Report (q "# Post-Mortem|All good.")
       (events_value
          [mk_event (txt "2024-01-15 16:30:00")
             (txt "Database connection timeouts begin.");
           mk_event (txt "2024-01-15 16:33:00") (txt "Error rate spikes.")])
       (txt "resource {}") (txt "def test(): pass"))
  = strip (default [] (first_body "MONITORING_CODE" sample_channels))
  /\ regression_test_code
       (Report (q "# Post-Mortem|All good.")
          (events_value
             [mk_event (txt "2024-01-15 16:30:00")
                (txt "Database connection timeouts begin.");
              mk_event (txt "2024-01-15 16:33:00") (txt "Error rate spikes.")])
          (txt "resource {}") (txt "def test(): pass"))
     = strip (default [] (first_body "REGRESSION_TEST" sample_channels)).
Proof.
  apply (code_channels_of_well_formed_blob Json.json_loads sample_prose
           sample_channels).
  - vm_compute. reflexivity.
  - vm_compute. reflexivity.
Defined.

Lemma timeline_channel_is_decoded_witness :
  exists r, generate_report Json.json_loads (blob_of sample_prose sample_channels) = Ok r
            /\ timeline_events r
               = events_value
                   [mk_event (txt "2024-01-15 16:30:00")
                      (txt "Database connection timeouts begin.");
                    mk_event (txt "2024-01-15 16:33:00") (txt "Error rate spikes.")].
Proof.
  apply (timeline_channel_is_decoded Json.json_loads sample_prose sample_channels
           (q "|```json|[ {'time': '2024-01-15 16:30:00', 'event': 'Database connection timeouts begin.'},|  {'time': '2024-01-15 16:33:00', 'event': 'Error rate spikes.'} ]|```|")
           []
           (q "|[ {'time': '2024-01-15 16:30:00', 'event': 'Database connection timeouts begin.'},|  {'time': '2024-01-15 16:33:00', 'event': 'Error rate spikes.'} ]|")
           []).
  - vm_compute. reflexivity.
  - vm_compute. reflexivity.
  - vm_compute. reflexivity.
  - vm_compute. reflexivity.
  - vm_compute. reflexivity.
  - vm_compute. reflexivity.
  - vm_compute. reflexivity.
Defined.

(** *** Where the timeline section ends *)

Lemma digit_not_dot (c : ascii) : py_isdigit c = true -> Ascii.eqb c "." = false.
Proof.
  destruct c as [[] [] [] [] [] [] [] []]; intros H; try discriminate H; reflexivity.
Qed.

Lemma run_digits_dot (a : text) (cs : caps) :
  forall b,
    (digits_then_dot a = false ->
     star_greedy CDigit b a cs
       (fun b' a' cs' => run (Seqs [Cls (CChar "."); Cls CSpace]) b' a' cs' accept)
     = None)
    /\ (digits_then_dot a = true ->
        exists m,
          star_greedy CDigit b a cs
            (fun b' a' cs' => run (Seqs [Cls (CChar "."); Cls CSpace]) b' a' cs' accept)
          = Some m
          /\ m_caps m = cs).
Proof.
  induction a as [|c a IH]; intros b.
  - split; [reflexivity|discriminate].
  - cbn [digits_then_dot star_greedy cset_mem].
    destruct (py_isdigit c) eqn:Hd.
    + assert (Hk : run (Seqs [Cls (CChar "."); Cls CSpace]) b (c :: a) cs accept = None).
      { cbn [Seqs run cset_mem]. now rewrite (digit_not_dot c Hd). }
      rewrite Hk. destruct (IH (c :: b)) as [I1 I2]. split.
      * intros H. now rewrite (I1 H).
      * intros H. destruct (I2 H) as (m & -> & Hm). now exists m.
    + cbn [Seqs run cset_mem]. destruct (Ascii.eqb c "."); cbn [andb].
      * destruct a as [|s a]; [split; [reflexivity|discriminate]|].
        destruct (py_isspace s); split; try discriminate; try reflexivity.
        intros _. eexists. split; reflexivity.
      * split; [reflexivity|discriminate].
Qed.

Lemma run_section_end (a b : text) (cs : caps) :
  (section_end a = false -> run SECTION_END_RE b a cs accept = None)
  /\ (section_end a = true ->
      exists m, run SECTION_END_RE b a cs accept = Some m /\ m_caps m = cs).
Proof.
  unfold SECTION_END_RE, section_end. cbn [run].
  assert (Hnum :
    (match a with
     | c :: d :: a' => Ascii.eqb c NL && py_isdigit d && digits_then_dot a'
     | _ => false
     end = false ->
     run (Seqs [Cls (CChar NL); Plus CDigit; Cls (CChar "."); Cls CSpace]) b a cs accept
     = None)
    /\ (match a with
        | c :: d :: a' => Ascii.eqb c NL && py_isdigit d && digits_then_dot a'
        | _ => false
        end = true ->
        exists m,
          run (Seqs [Cls (CChar NL); Plus CDigit; Cls (CChar "."); Cls CSpace])
              b a cs accept = Some m
          /\ m_caps m = cs)).
  { destruct a as [|c [|d a']]; [split; [reflexivity|discriminate]| |].
    - split; [|discriminate]. intros _. cbn [Seqs Plus run cset_mem].
      now destruct (Ascii.eqb c NL).
    - cbn [Seqs Plus run cset_mem].
      destruct (Ascii.eqb c NL); [|split; [reflexivity|discriminate]].
      destruct (py_isdigit d); [|split; [reflexivity|discriminate]].
      cbn [andb]. exact (run_digits_dot a' cs (d :: c :: b)). }
  destruct Hnum as [N1 N2]. split.
  - intros H. apply orb_false_elim in H as [He Hn].
    rewrite (N1 Hn). cbn [orelse]. now rewrite He.
  - intros H.
    destruct (match a with
              | c :: d :: a' => Ascii.eqb c NL && py_isdigit d && digits_then_dot a'
              | _ => false
              end) eqn:Hn.
    + destruct (N2 eq_refl) as (m & -> & Hm). now exists m.
    + rewrite (N1 eq_refl). cbn [orelse].
      rewrite orb_false_r in H. rewrite H. eexists. split; reflexivity.
Qed.

Lemma no_end_inside_split (s rest : text) :
  no_end_inside s rest = true ->
  forall s1 s2, s = s1 ++ s2 -> s2 <> [] -> section_end (s2 ++ rest) = false.
Proof.
  intros H s1. revert s H. induction s1 as [|c s1 IH]; intros s H s2 -> Hs2.
  - destruct s2 as [|c s2]; [congruence|]. cbn [app no_end_inside] in H.
    apply andb_prop in H as [H _]. now apply negb_true_iff in H.
  - cbn [app no_end_inside] in H. apply andb_prop in H as [_ H].
    exact (IH _ H s2 eq_refl Hs2).
Qed.

(** The greedy star gives back the last character it took when the
    continuation cannot go on after it. *)
Lemma star_greedy_back (p : cset) (ws : text) (c : ascii) (s : text) (cs : caps)
    (k : kont) (m : mres) :
  Forall (fun x => cset_mem p x = true) ws ->
  cset_mem p c = true ->
  stops p s = true ->
  forall b,
    k (c :: rev ws ++ b) s cs = None ->
    k (rev ws ++ b) (c :: s) cs = Some m ->
    star_greedy p b (ws ++ c :: s) cs k = Some m.
Proof.
  intros Hws Hc Hs. induction ws as [|w ws IH]; intros b Hlong Hk.
  - cbn [app rev] in *. cbn [star_greedy]. rewrite Hc.
    assert (Hin : star_greedy p (c :: b) s cs k = None).
    { destruct s as [|d s]; cbn [star_greedy]; [exact Hlong|].
      cbn [stops] in Hs. apply negb_true_iff in Hs. now rewrite Hs. }
    now rewrite Hin.
  - apply Forall_cons_1 in Hws as [Hw Hws].
    cbn [app star_greedy]. rewrite Hw.
    rewrite (IH Hws (w :: b)); [reflexivity| |].
    + cbn [rev] in Hlong. now rewrite <- app_assoc in Hlong.
    + cbn [rev] in Hk. now rewrite <- app_assoc in Hk.
Qed.

Lemma section_needs_heading (b a : text) :
  is_prefix ["2"%char; BSLASH] a = false ->
  match_at TIMELINE_SECTION_RE b a = None.
Proof.
  intros H. unfold match_at, TIMELINE_SECTION_RE. cbn [Seqs run cset_mem].
  destruct a as [|c1 a]; [reflexivity|].
  cbn [is_prefix] in H. rewrite (Ascii.eqb_sym "2" c1) in H.
  destruct (Ascii.eqb c1 "2"); [|reflexivity].
  destruct a as [|c2 a]; [reflexivity|].
  cbn [is_prefix andb] in H. rewrite (Ascii.eqb_sym BSLASH c2) in H.
  rewrite andb_true_r in H. now rewrite H.
Qed.

Lemma search_section_later (x y : text) :
  never ["2"%char; BSLASH] x y = true ->
  forall b, search_from TIMELINE_SECTION_RE b (x ++ y)
            = search_from TIMELINE_SECTION_RE (rev x ++ b) y.
Proof.
  induction x as [|c x IH]; intros H b; [reflexivity|].
  cbn [never] in H. apply andb_prop in H as [H1 H2].
  apply negb_true_iff in H1. cbn [app] in H1.
  cbn [app search_from]. rewrite (section_needs_heading b _ H1).
  cbn [rev]. rewrite <- app_assoc. now apply IH.
Qed.

Lemma section_match (x : ascii) (ws section rest b : text) :
  Forall (fun c => py_isspace c = true) ws ->
  stops CSpace (section ++ rest) = true ->
  no_end_inside section rest = true ->
  section_end rest = true ->
  exists m,
    match_at TIMELINE_SECTION_RE b
      (section_heading x ++ ws ++ NL :: section ++ rest) = Some m
    /\ group 1 (m_caps m) = section.
Proof.
  intros Hws Hstop Hin Hend.
  unfold match_at, TIMELINE_SECTION_RE, section_heading.
  fold SECTION_END_RE. cbn [Seqs].
  cbn [run app cset_mem]. rewrite !Ascii.eqb_refl.
  rewrite run_lit.
  set (b1 := rev (txt " Timeline of Events:") ++ x :: BSLASH :: "2"%char :: b).
  set (k := fun (b' a' : text) (cs' : caps) =>
              star_lazy CAny b' a' cs'
                (fun b'' a'' cs'' =>
                   run SECTION_END_RE b'' a'' ((1%nat, consumed a' a'') :: cs'') accept)).
  destruct (proj2 (run_section_end rest (rev section ++ NL :: rev ws ++ b1)
                     [(1%nat, section)]) Hend) as (m & Hm & Hcaps).
  exists m. split; [|now rewrite Hcaps].
  apply star_greedy_back; [exact Hws|reflexivity|exact Hstop| |].
  - destruct (section ++ rest) as [|d s]; [reflexivity|].
    cbn [stops cset_mem] in Hstop. apply negb_true_iff in Hstop.
    destruct (Ascii.eqb_spec d NL) as [->|]; [discriminate Hstop|reflexivity].
  - rewrite Ascii.eqb_refl.
    apply star_lazy_first.
    + intros g1 g2 Hg Hg2.
      apply (proj1 (run_section_end _ _ _)).
      now apply (no_end_inside_split section rest Hin g1 g2).
    + rewrite consumed_app. exact Hm.
Qed.

(** X12.  In a report whose first heading of the form the section
    pattern asks for is followed by white space, a line feed and text that
    does not start with white space, the fallback extractor reads the events
    from that text up to the first end of a section -- a line feed in front
    of a numbered heading, a last line feed, or the end of the report -- and
    from nothing after it. *)
Theorem extract_timeline_reads_one_section
    (pre : text) (x : ascii) (ws section rest : text) :
  never ["2"%char; BSLASH] pre
        (section_heading x ++ ws ++ NL :: section ++ rest) = true ->
  Forall (fun c => py_isspace c = true) ws ->
  stops CSpace (section ++ rest) = true ->
  no_end_inside section rest = true ->
  section_end rest = true ->
  _extract_timeline (pre ++ section_heading x ++ ws ++ NL :: section ++ rest)
  = section_events section.
Proof.
  intros Hpre Hws Hstop Hin Hend. unfold _extract_timeline, search.
  rewrite (search_section_later _ _ Hpre).
  destruct (section_match x ws section rest (rev pre ++ []) Hws Hstop Hin Hend)
    as (m & Hm & Hg).
  rewrite (search_from_match _ _ _ _ Hm). now rewrite Hg.
Qed.

Lemma extract_timeline_reads_one_section_witness :
  _extract_timeline sample_numbered_report
  = section_events
      (q "2024-01-15 16:30:00: timeouts begin|2024-01-15 16:40: recovered").
Proof.
  apply (extract_timeline_reads_one_section (q "# Report|") "." []
           (q "2024-01-15 16:30:00: timeouts begin|2024-01-15 16:40: recovered")
           (q "|3. Root Cause Analysis:|2024-01-15 16:35:00: not an event of the timeline")).
  - vm_compute. reflexivity.
  - constructor.
  - vm_compute. reflexivity.
  - vm_compute. reflexivity.
  - vm_compute. reflexivity.
Defined.

(** ** The conversation *)

Lemma context_first_add (a : incident_analyzer) (m : message) :
  conversation_initialized a = true -> context_first a ->
  context_first (add_message a m).
Proof.
  unfold context_first, add_message. cbn [conversation_initialized memory].
  intros -> (ic & rm & rest & ->). exists ic, rm, (rest ++ [m]). reflexivity.
Qed.

Lemma context_first_initialize (a : incident_analyzer) (ic rm : text) :
  context_first a -> context_first (initialize_conversation a ic rm).
Proof.
  unfold context_first, initialize_conversation, add_message.
  cbn [conversation_initialized memory].
  destruct (conversation_initialized a).
  - intros (ic' & rm' & rest & ->). now exists ic', rm', (rest ++ [AIMessage (system_message ic rm)]).
  - intros ->. now exists ic, rm, [].
Qed.

Lemma context_first_follow_up (invoke : list message -> reply) (a : incident_analyzer)
    (q : text) (ic rc : option text) :
  context_first a -> context_first (follow_up_question invoke a q ic rc).1.
Proof.
  intros Ha. unfold follow_up_question.
  set (ready := if negb (conversation_initialized a) then _ else _).
  assert (Hr : match ready with
               | Some a1 => conversation_initialized a1 = true /\ context_first a1
               | None => True
               end).
  { subst ready. destruct (conversation_initialized a) eqn:Hi; cbn [negb].
    - now split.
    - destruct (negb (given ic) || negb (given rc)); [exact I|].
      split; [reflexivity|now apply context_first_initialize]. }
  destruct ready as [a1|]; [|exact Ha].
  destruct Hr as [Hi H1].
  pose proof (context_first_add a1 (HumanMessage q) Hi H1) as H2.
  destruct (invoke _); cbn [fst]; [|exact H2].
  now apply context_first_add.
Qed.

(** X13.  Whatever methods are called on a new analyzer, in whatever
    order and whatever the model answers, the memory is empty as long as the
    conversation is not initialized and starts with a system message
    afterwards: the model is never sent a question without the incident
    context in front of it. *)
Theorem memory_starts_with_context (invoke : list message -> reply)
    (calls : list call) :
  context_first (foldl (perform invoke) fresh calls).
Proof.
  assert (H : forall a, context_first a -> context_first (foldl (perform invoke) a calls)).
  { induction calls as [|c calls IH]; intros a Ha; [exact Ha|].
    cbn [foldl]. apply IH. destruct c as [ic rm|q ic rc|]; cbn [perform].
    - now apply context_first_initialize.
    - now apply context_first_follow_up.
    - reflexivity. }
  apply H. reflexivity.
Qed.

(** X14.  A question on which the model fails stays in the memory: the
    next question is sent together with it, and the answer is stored after
    the two questions. *)
Theorem failed_question_stays_in_memory (invoke : list message -> reply)
    (a : incident_analyzer) (q1 q2 : text) (ic rc : option text) (e c : text) :
  conversation_initialized a = true ->
  invoke (memory a ++ [HumanMessage q1]) = Failure e ->
  invoke (memory a ++ [HumanMessage q1; HumanMessage q2]) = Content c ->
  let first := follow_up_question invoke a q1 ic rc in
  let second := follow_up_question invoke first.1 q2 ic rc in
  first.2 = error_text e
  /\ second.2 = strip c
  /\ memory second.1
     = memory a ++ [HumanMessage q1; HumanMessage q2; AIMessage (strip c)].
Proof.
  intros Hi H1 H2. destruct a as [mem ini].
  cbn [memory conversation_initialized] in *. subst ini.
  unfold follow_up_question, add_message.
  cbn [conversation_initialized memory negb fst snd].
  rewrite H1. cbn [conversation_initialized memory negb fst snd].
  split; [reflexivity|].
  assert (E : (mem ++ [HumanMessage q1]) ++ [HumanMessage q2]
              = mem ++ [HumanMessage q1; HumanMessage q2])
    by (now rewrite <- app_assoc).
  rewrite E, H2. cbn [fst snd memory]. split; [reflexivity|].
  now rewrite <- app_assoc.
Qed.

Lemma failed_question_stays_in_memory_witness :
  let a := initialize_conversation fresh (txt "logs") (txt "report") in
  let first := follow_up_question moody_model a (txt "What failed?") None None in
  let second := follow_up_question moody_model first.1 (txt "When?") None None in
  first.2 = error_text (txt "503 overloaded")
  /\ second.2 = strip (txt " The deploy at 14:05. ")
  /\ memory second.1
     = memory a ++ [HumanMessage (txt "What failed?"); HumanMessage (txt "When?");
                    AIMessage (strip (txt " The deploy at 14:05. "))].
Proof.
  apply (failed_question_stays_in_memory moody_model
           (initialize_conversation fresh (txt "logs") (txt "report"))
           (txt "What failed?") (txt "When?") None None
           (txt "503 overloaded") (txt " The deploy at 14:05. ")).
  - reflexivity.
  - reflexivity.
  - reflexivity.
Defined.

(** ** The lines of the .env file *)

Lemma lstrip_is_by (s : text) : lstrip s = lstrip_by py_isspace s.
Proof. induction s as [|c s IH]; [reflexivity|]. cbn. now rewrite IH. Qed.

Lemma strip_is_by (s : text) : strip s = strip_by py_isspace s.
Proof. unfold strip, rstrip, strip_by. now rewrite !lstrip_is_by. Qed.

Lemma strip_chars_is_by (chars s : text) :
  strip_chars chars s = strip_by (is_one_of chars) s.
Proof. reflexivity. Qed.

Section StripBy.
Variable p : ascii -> bool.

Lemma lstrip_by_all (w x : text) :
  Forall (fun c => p c = true) w -> lstrip_by p (w ++ x) = lstrip_by p x.
Proof.
  induction w as [|c w IH]; intros H; [reflexivity|].
  apply Forall_cons_1 in H as [Hc H]. cbn [app lstrip_by]. rewrite Hc. now apply IH.
Qed.

Lemma lstrip_by_split (s : text) :
  exists w, s = w ++ lstrip_by p s /\ Forall (fun c => p c = true) w
            /\ match lstrip_by p s with c :: _ => p c = false | [] => True end.
Proof.
  induction s as [|c s (w & IH & Hw & Hh)]; [now exists []|].
  cbn [lstrip_by]. destruct (p c) eqn:Hc.
  - exists (c :: w). split; [cbn; now f_equal|]. split; [now constructor|exact Hh].
  - exists []. split; [reflexivity|]. split; [constructor|exact Hc].
Qed.

Lemma lstrip_by_fixed (s : text) :
  match s with c :: _ => p c = false | [] => True end -> lstrip_by p s = s.
Proof. destruct s as [|c s]; [reflexivity|]. cbn. now intros ->. Qed.

(** Characters of the class around a text do not change what is left of
    it. *)
Lemma strip_by_pad (a m b : text) :
  Forall (fun c => p c = true) a -> Forall (fun c => p c = true) b ->
  strip_by p (a ++ m ++ b) = strip_by p m.
Proof.
  intros Ha Hb. unfold strip_by. rewrite (lstrip_by_all a _ Ha).
  destruct (lstrip_by_split m) as (w & Hm & Hw & Hh).
  destruct (lstrip_by p m) as [|c n] eqn:Hn.
  - rewrite app_nil_r in Hm. subst w.
    replace (lstrip_by p (m ++ b)) with (@nil ascii); [reflexivity|].
    symmetry. rewrite (lstrip_by_all m b Hw).
    rewrite <- (app_nil_r b). now rewrite (lstrip_by_all b [] Hb).
  - rewrite Hm at 1. rewrite <- app_assoc, (lstrip_by_all w _ Hw).
    rewrite (lstrip_by_fixed ((c :: n) ++ b)) by exact Hh.
    rewrite rev_app_distr. rewrite (lstrip_by_all (rev b)); [reflexivity|].
    now apply Forall_rev.
Qed.

Lemma clean_ends_fixed (s : text) : clean_ends p s -> strip_by p s = s.
Proof.
  intros [H1 H2]. unfold strip_by. rewrite (lstrip_by_fixed s H1).
  rewrite (lstrip_by_fixed (rev s) H2). apply rev_involutive.
Qed.

Lemma fixed_clean_ends (s : text) : strip_by p s = s -> clean_ends p s.
Proof.
  unfold strip_by. intros H.
  destruct (lstrip_by_split s) as (w & Hs & Hw & Hh).
  destruct (lstrip_by_split (rev (lstrip_by p s))) as (w' & Hs' & Hw' & Hh').
  set (u := lstrip_by p (rev (lstrip_by p s))) in *.
  assert (Hlen : length s = length u) by (rewrite <- H at 1; apply length_rev).
  assert (Hl1 : length s = (length w + length (lstrip_by p s))%nat)
    by (rewrite Hs at 1; apply length_app).
  assert (Hl2 : length (lstrip_by p s) = (length w' + length u)%nat).
  { rewrite <- (length_rev (lstrip_by p s)). rewrite Hs' at 1. apply length_app. }
  assert (w = []) by (destruct w; [reflexivity|cbn in *; lia]).
  assert (w' = []) by (destruct w'; [reflexivity|cbn in *; lia]).
  subst w w'. cbn [app] in Hs, Hs'. rewrite <- Hs in Hh, Hs'. split.
  - exact Hh.
  - rewrite Hs'. exact Hh'.
Qed.

Lemma clean_ends_app (x y : text) :
  clean_ends p x -> clean_ends p y -> clean_ends p (x ++ y).
Proof.
  intros [X1 X2] [Y1 Y2]. split.
  - destruct x; [exact Y1|exact X1].
  - rewrite rev_app_distr. destruct (rev y); [exact X2|exact Y2].
Qed.

Lemma clean_ends_others (x : text) :
  Forall (fun c => p c = false) x -> clean_ends p x.
Proof.
  intros H. split.
  - destruct x as [|c x]; [exact I|]. now apply Forall_cons_1 in H as [H _].
  - apply Forall_rev in H. destruct (rev x) as [|c y]; [exact I|].
    now apply Forall_cons_1 in H as [H _].
Qed.
End StripBy.

Lemma split_first_app (sep : ascii) (k v : text) :
  Forall (fun c => Ascii.eqb c sep = false) k ->
  split_first sep (k ++ sep :: v) = Some (k, v).
Proof.
  induction k as [|c k IH]; intros H; cbn [app split_first].
  - now rewrite Ascii.eqb_refl.
  - apply Forall_cons_1 in H as [Hc H]. rewrite Hc. now rewrite IH.
Qed.

Lemma space_not_equals (w : text) :
  Forall (fun c => py_isspace c = true) w ->
  Forall (fun c => Ascii.eqb c "=" = false) w.
Proof.
  intros H. eapply Forall_impl; [exact H|]. intros c Hc.
  destruct (Ascii.eqb_spec c "=") as [->|]; [discriminate Hc|reflexivity].
Qed.

(** X15.  A line of the .env file that holds a name, an equals sign and
    a value, with or without white space around each of them, gives the name
    and the value; double quotes around the value and, inside them, single
    quotes are taken off, in any number and balanced or not. *)
Theorem env_line_gives_name_and_value
    (key value w1 w2 w3 w4 dq1 sq1 sq2 dq2 : text) :
  Forall (fun c => py_isspace c = true) w1 ->
  Forall (fun c => py_isspace c = true) w2 ->
  Forall (fun c => py_isspace c = true) w3 ->
  Forall (fun c => py_isspace c = true) w4 ->
  Forall (fun c => c = DQ) dq1 -> Forall (fun c => c = DQ) dq2 ->
  Forall (fun c => c = "'"%char) sq1 -> Forall (fun c => c = "'"%char) sq2 ->
  strip key = key ->
  Forall (fun c => Ascii.eqb c "=" = false) key ->
  match key with c :: _ => Ascii.eqb c "#" = false | [] => True end ->
  strip value = value ->
  strip_chars [DQ] value = value ->
  strip_chars ["'"%char] value = value ->
  parse_line (w1 ++ key ++ w2 ++ "="%char :: w3
              ++ dq1 ++ sq1 ++ value ++ sq2 ++ dq2 ++ w4)
  = Some (key, value).
Proof.
  intros Hw1 Hw2 Hw3 Hw4 Hd1 Hd2 Hs1 Hs2 Hk Hkeq Hkh Hv Hvd Hvs.
  set (Q := dq1 ++ sq1 ++ value ++ sq2 ++ dq2).
  replace (dq1 ++ sq1 ++ value ++ sq2 ++ dq2 ++ w4) with (Q ++ w4)
    by (unfold Q; now rewrite <- !app_assoc).
  assert (HQ : clean_ends py_isspace Q).
  { rewrite strip_is_by in Hv. apply fixed_clean_ends in Hv.
    assert (Hq : forall x c0, py_isspace c0 = false ->
                              Forall (fun c => c = c0) x -> clean_ends py_isspace x).
    { intros x c0 Hc0 Hx. apply clean_ends_others.
      eapply Forall_impl; [exact Hx|]. now intros c ->. }
    unfold Q. repeat apply clean_ends_app; try assumption;
      first [now apply (Hq _ DQ)|now apply (Hq _ "'"%char)]. }
  assert (Hval : strip_chars ["'"%char] (strip_chars [DQ] (strip (w3 ++ Q ++ w4)))
                 = value).
  { change (strip_by (is_one_of ["'"%char])
              (strip_by (is_one_of [DQ]) (strip (w3 ++ Q ++ w4))) = value).
    change (strip_by (is_one_of [DQ]) value = value) in Hvd.
    change (strip_by (is_one_of ["'"%char]) value = value) in Hvs.
    rewrite strip_is_by, strip_by_pad by assumption.
    rewrite (clean_ends_fixed _ _ HQ). unfold Q.
    replace (dq1 ++ sq1 ++ value ++ sq2 ++ dq2)
      with (dq1 ++ (sq1 ++ value ++ sq2) ++ dq2) by (now rewrite <- !app_assoc).
    rewrite strip_by_pad
      by (eapply Forall_impl; [eassumption|]; now intros c ->).
    apply fixed_clean_ends in Hvd.
    rewrite (clean_ends_fixed (is_one_of [DQ])).
    2:{ repeat apply clean_ends_app; try assumption;
          (apply clean_ends_others; eapply Forall_impl; [eassumption|]; now intros c ->). }
    rewrite strip_by_pad
      by (eapply Forall_impl; [eassumption|]; now intros c ->).
    exact Hvs. }
  set (T := w3 ++ Q ++ w4) in *.
  assert (HT : strip (rstrip T) = strip T).
  { destruct (rstrip_split_space T) as (w & HTw & Hw).
    rewrite HTw at 2. rewrite !strip_is_by.
    symmetry. apply (strip_by_pad py_isspace [] (rstrip T) w); [constructor|exact Hw]. }
  assert (Hkey : strip (key ++ w2) = key).
  { rewrite strip_is_by.
    pose proof (strip_by_pad py_isspace [] key w2 ltac:(constructor) Hw2) as E.
    cbn [app] in E. rewrite E. now rewrite <- strip_is_by. }
  unfold parse_line.
  destruct key as [|c k'].
  - cbn [app].
    assert (E : strip (w1 ++ w2 ++ "="%char :: T) = "="%char :: rstrip T).
    { unfold strip. rewrite !lstrip_space_app by assumption.
      rewrite (lstrip_fixed ("="%char :: T)) by reflexivity.
      exact (rstrip_app_keep [] T "=" eq_refl). }
    rewrite E. cbn [Ascii.eqb Bool.eqb split_first].
    now rewrite HT, Hval.
  - assert (Hc : py_isspace c = false).
    { rewrite strip_is_by in Hk. now apply fixed_clean_ends in Hk as [Hk _]. }
    assert (E : strip (w1 ++ (c :: k') ++ w2 ++ "="%char :: T)
                = ((c :: k') ++ w2) ++ "="%char :: rstrip T).
    { unfold strip. rewrite lstrip_space_app by assumption.
      rewrite (lstrip_fixed ((c :: k') ++ w2 ++ "="%char :: T)) by exact Hc.
      rewrite app_assoc. now apply rstrip_app_keep. }
    rewrite E. cbn [app]. rewrite Hkh.
    change (c :: (k' ++ w2) ++ "="%char :: rstrip T)
      with (((c :: k') ++ w2) ++ "="%char :: rstrip T).
    rewrite split_first_app
      by (apply Forall_app; split; [exact Hkeq|now apply space_not_equals]).
    now rewrite Hkey, HT, Hval.
Qed.

Lemma env_line_gives_name_and_value_witness :
  parse_line (q " GOOGLE_API_KEY = 'abc=123' |") = Some (txt "GOOGLE_API_KEY", txt "abc=123").
Proof.
  apply (env_line_gives_name_and_value (txt "GOOGLE_API_KEY") (txt "abc=123")
           (txt " ") (txt " ") (txt " ") (q " |") [] (txt "'") (txt "'") []);
    try (repeat constructor; fail); try reflexivity.
Defined.

Lemma split_first_inv (sep : ascii) (s k v : text) :
  split_first sep s = Some (k, v) ->
  Forall (fun c => Ascii.eqb c sep = false) k /\ s = k ++ sep :: v.
Proof.
  revert k. induction s as [|c s IH]; intros k H; [discriminate H|].
  cbn [split_first] in H. destruct (Ascii.eqb_spec c sep) as [->|Hc].
  - injection H as <- <-. split; [constructor|reflexivity].
  - destruct (split_first sep s) as [[k' v']|]; [|discriminate H].
    injection H as <- <-. destruct (IH k' eq_refl) as [Hk ->].
    split; [|reflexivity]. constructor; [|exact Hk].
    now apply Ascii.eqb_neq.
Qed.

Lemma lstrip_by_Forall (p : ascii -> bool) (P : ascii -> Prop) (s : text) :
  Forall P s -> Forall P (lstrip_by p s).
Proof.
  induction s as [|c s IH]; intros H; [constructor|].
  cbn [lstrip_by]. destruct (p c); [|exact H].
  apply Forall_cons_1 in H as [_ H]. now apply IH.
Qed.

Lemma strip_by_Forall (p : ascii -> bool) (P : ascii -> Prop) (s : text) :
  Forall P s -> Forall P (strip_by p s).
Proof.
  intros H. unfold strip_by.
  apply Forall_rev, lstrip_by_Forall, Forall_rev, lstrip_by_Forall, H.
Qed.

Lemma strip_by_clean (p : ascii -> bool) (s : text) : clean_ends p (strip_by p s).
Proof.
  unfold strip_by.
  destruct (lstrip_by_split p s) as (w & Hs & Hw & Hh).
  destruct (lstrip_by_split p (rev (lstrip_by p s))) as (w' & Hs' & Hw' & Hh').
  set (n := lstrip_by p s) in *. set (u := lstrip_by p (rev n)) in *.
  split; [|now rewrite rev_involutive].
  assert (Hn : n = rev u ++ rev w').
  { rewrite <- (rev_involutive n), Hs'. apply rev_app_distr. }
  destruct (rev u) as [|c r]; [exact I|].
  rewrite Hn in Hh. exact Hh.
Qed.

(** X16.  What a line of the .env file gives is never a name with an
    equals sign or with white space at an end, and never a value with an
    apostrophe at an end. *)
Theorem env_line_never (line key value : text) :
  parse_line line = Some (key, value) ->
  Forall (fun c => Ascii.eqb c "=" = false) key
  /\ strip key = key
  /\ strip_chars ["'"%char] value = value.
Proof.
  unfold parse_line. destruct (strip line) as [|c rest]; [discriminate|].
  destruct (Ascii.eqb c "#"); [discriminate|].
  destruct (split_first "=" (c :: rest)) as [[k v]|] eqn:Hs; [|discriminate].
  intros [= <- <-]. apply split_first_inv in Hs as [Hk _].
  split; [|split].
  - rewrite strip_is_by. now apply strip_by_Forall.
  - apply strip_strip.
  - change (strip_by (is_one_of ["'"%char])
              (strip_by (is_one_of ["'"%char]) (strip_chars [DQ] (strip v)))
            = strip_by (is_one_of ["'"%char]) (strip_chars [DQ] (strip v))).
    apply clean_ends_fixed, strip_by_clean.
Qed.

Lemma env_line_never_witness :
  Forall (fun c => Ascii.eqb c "=" = false) (txt "KEY")
  /\ strip (txt "KEY") = txt "KEY"
  /\ strip_chars ["'"%char] (txt "v") = txt "v".
Proof.
  apply (env_line_never (txt " KEY = 'v' ")). reflexivity.
Defined.

Section Loader.
Variable accepts : text -> text -> bool.

Lemma load_lines_app (before rest : list text) :
  all_accepted accepts before ->
  forall environ,
    load_lines accepts (before ++ rest) environ
    = load_lines accepts rest (load_lines accepts before environ).
Proof.
  induction before as [|l before IH]; intros H environ; [reflexivity|].
  apply Forall_cons_1 in H as [Hl H]. cbn [app load_lines].
  destruct (parse_line l) as [[k v]|]; [|now apply IH].
  rewrite (Hl k v eq_refl). now apply IH.
Qed.

Lemma load_lines_other (key : text) (lines : list text) :
  Forall (fun l => forall v, parse_line l <> Some (key, v)) lines ->
  forall environ, load_lines accepts lines environ !! key = environ !! key.
Proof.
  induction lines as [|l lines IH]; intros H environ; [reflexivity|].
  apply Forall_cons_1 in H as [Hl H]. cbn [load_lines].
  destruct (parse_line l) as [[k v]|] eqn:Hp; [|now apply IH].
  destruct (accepts k v); [|reflexivity].
  rewrite (IH H). apply lookup_insert_ne. intros ->. now apply (Hl v).
Qed.

(** X17.  As long as the platform accepts every assignment of the .env
    file, a name is left with the value of the last line that assigns it,
    whatever the environment held for it before. *)
Theorem env_file_overrides (before after : list text) (line key value : text)
    (environ : gmap text text) :
  all_accepted accepts (before ++ line :: after) ->
  parse_line line = Some (key, value) ->
  Forall (fun l => forall v, parse_line l <> Some (key, v)) after ->
  load_lines accepts (before ++ line :: after) environ !! key = Some value.
Proof.
  intros Hall Hline Hafter. apply Forall_app in Hall as [Hb Hl].
  apply Forall_cons_1 in Hl as [Hl _].
  rewrite (load_lines_app before _ Hb). cbn [load_lines].
  rewrite Hline, (Hl key value Hline).
  rewrite (load_lines_other key after Hafter). apply lookup_insert_eq.
Qed.

(** X18.  An assignment the platform refuses ends the loading of the
    .env file: the lines after it are not read, and nothing reports it. *)
Theorem env_file_stops_at_refused_line (before after : list text)
    (line key value : text) (environ : gmap text text) :
  parse_line line = Some (key, value) ->
  accepts key value = false ->
  load_lines accepts (before ++ line :: after) environ
  = load_lines accepts before environ.
Proof.
  intros Hline Hr. revert environ.
  induction before as [|l before IH]; intros environ; cbn [app load_lines].
  - now rewrite Hline, Hr.
  - destruct (parse_line l) as [[k v]|]; [|apply IH].
    destruct (accepts k v); [apply IH|reflexivity].
Qed.
End Loader.

Lemma env_file_overrides_witness :
  load_lines refuses_empty_name
    ([q "# keys|"; q "GOOGLE_API_KEY=first|"]
     ++ q "GOOGLE_API_KEY = 'abc=123' |" :: [q "OTHER=1"])
    {[ txt "GOOGLE_API_KEY" := txt "from the shell" ]}
  !! txt "GOOGLE_API_KEY" = Some (txt "abc=123").
Proof.
  apply (env_file_overrides refuses_empty_name).
  - repeat constructor; intros k v H; vm_compute in H; inversion H; reflexivity.
  - reflexivity.
  - repeat constructor. intros v H. vm_compute in H. inversion H.
Defined.

Lemma env_file_stops_at_refused_line_witness :
  load_lines refuses_empty_name
    ([q "# keys|"; q "GOOGLE_API_KEY = 'abc=123' |"]
     ++ q "=oops|" :: [q "GOOGLE_API_KEY=later|"])
    ∅
  = load_lines refuses_empty_name [q "# keys|"; q "GOOGLE_API_KEY = 'abc=123' |"] ∅.
Proof.
  apply (env_file_stops_at_refused_line refuses_empty_name _ _ _ [] (txt "oops")).
  - reflexivity.
  - reflexivity.
Defined.

(** ** The report tab *)

Lemma search_span_search (r : regex) (a : text) :
  forall b, search_from r b a = snd <$> search_span r b a.
Proof.
  induction a as [|c a IH]; intros b; cbn [search_from search_span].
  - now destruct (match_at r b []).
  - destruct (match_at r b (c :: a)); [reflexivity|apply IH].
Qed.

Lemma search_span_inv (r : regex) (a : text) :
  forall b b' m,
    search_span r b a = Some (b', m) ->
    exists x a', a = x ++ a' /\ b' = rev x ++ b /\ match_at r b' a' = Some m.
Proof.
  induction a as [|c a IH]; intros b b' m H; cbn [search_span] in H.
  - destruct (match_at r b []) as [m'|] eqn:Hm; [|discriminate H].
    injection H as <- <-. now exists [], [].
  - destruct (match_at r b (c :: a)) as [m'|] eqn:Hm.
    + injection H as <- <-. now exists [], (c :: a).
    + apply IH in H as (x & a' & -> & -> & H). exists (c :: x), a'.
      split; [reflexivity|]. split; [|exact H].
      cbn [rev]. now rewrite <- app_assoc.
Qed.

Lemma run_lit_inv (p : text) (k : kont) (cs : caps) (m : mres) :
  forall b a, run (Lit p) b a cs k = Some m ->
    exists a', a = p ++ a' /\ k (rev p ++ b) a' cs = Some m.
Proof.
  induction p as [|c p IH]; intros b a H.
  - exists a. split; [reflexivity|exact H].
  - cbn [Lit run cset_mem] in H. destruct a as [|d a]; [discriminate H|].
    destruct (Ascii.eqb_spec d c) as [->|]; [|discriminate H].
    apply IH in H as (a' & -> & H). exists a'. split; [reflexivity|].
    cbn [rev]. now rewrite <- app_assoc.
Qed.

Lemma star_greedy_inv (p : cset) (k : kont) (cs : caps) (m : mres) (a : text) :
  forall b, star_greedy p b a cs k = Some m ->
    exists w a', a = w ++ a' /\ Forall (fun c => cset_mem p c = true) w
                 /\ k (rev w ++ b) a' cs = Some m.
Proof.
  induction a as [|c a IH]; intros b H; cbn [star_greedy] in H.
  - exists [], []. auto.
  - destruct (cset_mem p c) eqn:Hc; [|exists [], (c :: a); auto].
    destruct (star_greedy p (c :: b) a cs k) eqn:Hs; cbn [orelse] in H.
    + injection H as ->. apply IH in Hs as (w & a' & -> & Hw & Hk).
      exists (c :: w), a'. split; [reflexivity|]. split; [now constructor|].
      cbn [rev]. now rewrite <- app_assoc.
    + exists [], (c :: a). auto.
Qed.

Lemma star_lazy_inv (p : cset) (k : kont) (cs : caps) (m : mres) (a : text) :
  forall b, star_lazy p b a cs k = Some m ->
    exists w a', a = w ++ a' /\ Forall (fun c => cset_mem p c = true) w
                 /\ k (rev w ++ b) a' cs = Some m.
Proof.
  induction a as [|c a IH]; intros b H; cbn [star_lazy] in H.
  - destruct (k b [] cs) eqn:Hk; [|discriminate H]. injection H as ->.
    exists [], []. auto.
  - destruct (k b (c :: a) cs) eqn:Hk.
    + injection H as ->. exists [], (c :: a). auto.
    + destruct (cset_mem p c) eqn:Hc; [|discriminate H].
      apply IH in H as (w & a' & -> & Hw & Hk').
      exists (c :: w), a'. split; [reflexivity|]. split; [now constructor|].
      cbn [rev]. now rewrite <- app_assoc.
Qed.

(** A match of the header pattern: number signs, white space, the title,
    the rest of the line, and the line feed. *)
Lemma header_match_inv (b a : text) (m : mres) :
  match_at TIMELINE_HEADER_RE b a = Some m ->
  exists hashes ws rest_of_line,
    a = (hashes ++ ws ++ txt "Timeline of Events" ++ rest_of_line)
        ++ NL :: m_after m
    /\ group 1 (m_caps m) = hashes ++ ws ++ txt "Timeline of Events" ++ rest_of_line
    /\ hashes <> []
    /\ Forall (fun c => c = "#"%char) hashes
    /\ Forall (fun c => py_isspace c = true) ws
    /\ Forall (fun c => c <> NL) rest_of_line.
Proof.
  unfold match_at, TIMELINE_HEADER_RE. cbn [Seqs]. cbn [run Plus cset_mem].
  intros H. destruct a as [|h a]; [discriminate H|].
  destruct (Ascii.eqb_spec h "#") as [->|]; [|discriminate H].
  apply star_greedy_inv in H as (w & a1 & -> & Hw & H).
  apply star_greedy_inv in H as (ws & a2 & -> & Hws & H).
  apply run_lit_inv in H as (a3 & -> & H).
  apply star_lazy_inv in H as (tr & a4 & -> & Htr & H).
  destruct a4 as [|c a4]; [discriminate H|].
  destruct (Ascii.eqb_spec c NL) as [->|]; [|discriminate H].
  cbn [accept] in H. injection H as <-. cbn [m_after m_caps group Nat.eqb].
  exists ("#"%char :: w), ws, tr.
  assert (E : "#"%char :: w ++ ws ++ txt "Timeline of Events" ++ tr ++ NL :: a4
              = (("#"%char :: w) ++ ws ++ txt "Timeline of Events" ++ tr) ++ NL :: a4).
  { cbn [app]. f_equal. now rewrite <- !app_assoc. }
  split; [exact E|]. split.
  - rewrite <- (consumed_app (("#"%char :: w) ++ ws ++ txt "Timeline of Events" ++ tr)
                  (NL :: a4)).
    f_equal. exact E.
  - split; [discriminate|]. split.
    + constructor; [reflexivity|].
      eapply Forall_impl; [exact Hw|]. intros x Hx. now apply Ascii.eqb_eq.
    + split; [exact Hws|].
      eapply Forall_impl; [exact Htr|]. cbn [cset_mem]. intros x Hx ->.
      discriminate Hx.
Qed.

(** X19.  The report tab shows either the chart in front of the whole
    report, when no header is found, or the report cut in three around the
    chart: the text in front of the header, the header -- number signs,
    white space or none, the title and the rest of its line -- and, after the
    chart, the text behind the line feed of the header.  Header aside, the
    line feed is all that is left out. *)
Theorem report_tab_cuts_at_the_header (report_md : text)
    (timeline_events : list event) :
  (search TIMELINE_HEADER_RE report_md = None
   /\ report_tab report_md timeline_events
      = [ Timeline (render_timeline_with_events timeline_events);
          Markdown report_md ])
  \/ exists before hashes ws rest_of_line after,
       let header := hashes ++ ws ++ txt "Timeline of Events" ++ rest_of_line in
       report_tab report_md timeline_events
       = [ Markdown before; Markdown header;
           Timeline (render_timeline_with_events timeline_events);
           Markdown after ]
       /\ report_md = before ++ header ++ NL :: after
       /\ hashes <> []
       /\ Forall (fun c => c = "#"%char) hashes
       /\ Forall (fun c => py_isspace c = true) ws
       /\ Forall (fun c => c <> NL) rest_of_line.
Proof.
  unfold report_tab, search. rewrite search_span_search.
  destruct (search_span TIMELINE_HEADER_RE [] report_md) as [[front m]|] eqn:Hs;
    [right|left; split; reflexivity].
  apply search_span_inv in Hs as (x & a' & -> & -> & Hm).
  apply header_match_inv in Hm as (hashes & ws & tr & -> & Hg & Hh & Hhs & Hws & Htr).
  exists x, hashes, ws, tr, (m_after m). cbn zeta.
  rewrite Hg, app_nil_r, rev_involutive.
  split; [reflexivity|]. split; [now rewrite <- !app_assoc|]. auto.
Qed.
